(** * Monthly GitHub activity: collector and renderer

    A shallow embedding of [get_monthly_contributions.py] (the collector) and
    of [graph_monthly_contributions.py] (the renderer), followed by the
    properties of the pagination loops, the month counters, the persisted
    dataset and the rendering loop.

    Conventions.
    - Python [int] is [Z]; [str] is [string]; [None]-able values are options.
    - A Python [dict] keeps insertion order, which the renderer's numbering of
      authors depends on: it is an association list updated in place
      ([PyDict]).
    - An exception is a value of [exn] carried by [result]; loops that the
      source writes with [while] take a fuel argument and raise [OutOfFuel]
      (which is no Python exception) when it is used up.
    - The network and the output file are the [world]: every GraphQL request is
      logged, in the order it is issued. *)

From Stdlib Require Import ZArith List String Ascii Bool Lia DecimalString.
From Stdlib Require Import Permutation.
Import ListNotations.

Local Open Scope list_scope.
Local Open Scope string_scope.
Local Open Scope Z_scope.

(* ================================================================== *)
(** * Python runtime *)

Inductive exn : Type :=
| KeyError
| ValueError
| FileNotFoundError
| OutOfFuel.

Inductive result (A : Type) : Type :=
| Ok (a : A)
| Raise (e : exn).

Arguments Ok {A} a.
Arguments Raise {A} e.

Definition rbind {A B : Type} (c : result A) (k : A -> result B) : result B :=
  match c with
  | Ok a => k a
  | Raise e => Raise e
  end.

Declare Scope result_scope.
Delimit Scope result_scope with result.
Notation "x <- c ;; k" := (rbind c (fun x => k))
  (at level 61, c at next level, right associativity) : result_scope.
Notation "' pat <- c ;; k" := (rbind c (fun x => match x with pat => k end))
  (at level 61, pat pattern, c at next level, right associativity) : result_scope.

(** [for x in xs: acc = body(x, acc)], stopping at the first exception. *)
Fixpoint for_each {A S : Type} (body : A -> S -> result S) (xs : list A) (acc : S)
  : result S :=
  match xs with
  | [] => Ok acc
  | x :: rest => rbind (body x acc) (for_each body rest)
  end.

(** [range(lo, hi)] *)
Definition range (lo hi : Z) : list Z :=
  map (fun i => lo + Z.of_nat i) (seq 0 (Z.to_nat (hi - lo))).

(** ** Ordered dictionaries with string keys *)

Module PyDict.

Definition t (V : Type) : Type := list (string * V).

Section Ops.
Context {V : Type}.

Definition empty : t V := [].

(** [d.get(k)] *)
Fixpoint get (d : t V) (k : string) : option V :=
  match d with
  | [] => None
  | (k', v) :: rest => if String.eqb k' k then Some v else get rest k
  end.

(** [k in d] *)
Definition contains (d : t V) (k : string) : bool :=
  match get d k with
  | Some _ => true
  | None => false
  end.

(** [d[k]] *)
Definition getitem (d : t V) (k : string) : result V :=
  match get d k with
  | Some v => Ok v
  | None => Raise KeyError
  end.

(** [d[k] = v]: an existing key keeps its place, a new one goes last. *)
Fixpoint set (d : t V) (k : string) (v : V) : t V :=
  match d with
  | [] => [(k, v)]
  | (k', v') :: rest =>
      if String.eqb k' k then (k', v) :: rest else (k', v') :: set rest k v
  end.

(** [d[k]] where [k] was stored just before; [dflt] is never used. *)
Definition getd (d : t V) (k : string) (dflt : V) : V :=
  match get d k with
  | Some v => v
  | None => dflt
  end.

Definition keys (d : t V) : list string := map fst d.
Definition values (d : t V) : list V := map snd d.
Definition items (d : t V) : list (string * V) := d.

(** The invariant of a Python dictionary: no key occurs twice. *)
Definition wf (d : t V) : Prop := NoDup (keys d).

End Ops.

(** [d[k] += n] *)
Definition iadd (d : t Z) (k : string) (n : Z) : result (t Z) :=
  match get d k with
  | Some old => Ok (set d k (old + n))
  | None => Raise KeyError
  end.

(** [if not k in d: d[k] = v] *)
Definition setdefault {V : Type} (d : t V) (k : string) (v : V) : t V :=
  if contains d k then d else set d k v.

End PyDict.

(** ** Sets of strings

    The iteration order of a Python [set] is unspecified; the model iterates
    in insertion order and no property below depends on that order. *)

Definition pyset : Type := list string.

Definition set_mem (x : string) (s : pyset) : bool := existsb (String.eqb x) s.

Definition set_add (s : pyset) (x : string) : pyset :=
  if set_mem x s then s else (s ++ [x])%list.

(** [s.update(xs)] *)
Definition set_update (s : pyset) (xs : list string) : pyset :=
  fold_left set_add xs s.

(** [set(xs)] *)
Definition set_of_list (xs : list string) : pyset := set_update [] xs.

(** No string occurs twice in the list. *)
Fixpoint distinct (xs : list string) : bool :=
  match xs with
  | [] => true
  | x :: rest => negb (existsb (String.eqb x) rest) && distinct rest
  end.

(** ** String formatting *)

(** ['%d' % n] *)
Definition pct_d (n : Z) : string := NilZero.string_of_int (Z.to_int n).

(** ['%02d' % n] *)
Definition pct_02d (n : Z) : string :=
  let s := pct_d n in
  if (String.length s <? 2)%nat then "0" ++ s else s.

(** ['%s' % v] for a JSON string or [null] (Python [None]). *)
Definition pct_s (v : option string) : string :=
  match v with
  | Some s => s
  | None => "None"
  end.

Definition dquote : ascii := ascii_of_nat 34.

(** ['"%s"' % v] *)
Definition quoted (v : option string) : string :=
  String dquote (pct_s v ++ String dquote EmptyString).

(** ['%s/%s' % (a, b)] *)
Definition slash_join (a b : string) : string := a ++ "/" ++ b.

(** [s.split(sep)] for a one-character separator. *)
Fixpoint split (sep : ascii) (s : string) : list string :=
  match s with
  | EmptyString => [EmptyString]
  | String c rest =>
      if Ascii.eqb c sep then EmptyString :: split sep rest
      else match split sep rest with
           | h :: tl => String c h :: tl
           | [] => [String c EmptyString]
           end
  end.

(** ** Dates and [strptime] *)

Record date : Type := Date { year : Z; month : Z; day : Z }.

Record datetime : Type :=
  DateTime { dt_date : date; hour : Z; minute : Z; second : Z }.

(** [a < b] on [datetime.date] *)
Definition date_ltb (a b : date) : bool :=
  (year a <? year b)
  || ((year a =? year b)
      && ((month a <? month b)
          || ((month a =? month b) && (day a <? day b)))).

Definition is_leap (y : Z) : bool :=
  ((y mod 4 =? 0) && negb (y mod 100 =? 0)) || (y mod 400 =? 0).

Definition days_in_month (y m : Z) : Z :=
  if m =? 2 then (if is_leap y then 29 else 28)
  else if (m =? 4) || (m =? 6) || (m =? 9) || (m =? 11) then 30
  else 31.

(** The constructor check of [datetime.date]. *)
Definition valid_date (d : date) : bool :=
  (1 <=? year d) && (year d <=? 9999)
  && (1 <=? month d) && (month d <=? 12)
  && (1 <=? day d) && (day d <=? days_in_month (year d) (month d)).

(** The directives of [strptime] are regular expressions whose alternatives
    are tried in order, with backtracking: a matcher returns every way to
    match a prefix, most preferred first.  A character of a string is a code
    point below 256; among these the decimal digits that [\d] and [int]
    read are the ASCII ones, and no other letter matches a literal of the two
    formats when case is ignored.  Strings with code points from 256 on, where
    Python reads further decimal digits, are not strings of this
    development. *)
Definition matcher (A : Type) : Type := string -> list (A * string).

Definition m_ret {A : Type} (a : A) : matcher A := fun s => [(a, s)].

Definition m_bind {A B : Type} (p : matcher A) (k : A -> matcher B) : matcher B :=
  fun s => flat_map (fun '(a, rest) => k a rest) (p s).

Definition m_alt {A : Type} (p q : matcher A) : matcher A :=
  fun s => (p s ++ q s)%list.

Declare Scope matcher_scope.
Delimit Scope matcher_scope with matcher.
Notation "x <~ p ;; k" := (m_bind p (fun x => k))
  (at level 61, p at next level, right associativity) : matcher_scope.

(** One digit whose value lies in [lo, hi]. *)
Definition m_digit (lo hi : Z) : matcher Z :=
  fun s =>
    match s with
    | String c rest =>
        let n := Z.of_nat (nat_of_ascii c) - 48 in
        if (lo <=? n) && (n <=? hi) then [(n, rest)] else []
    | EmptyString => []
    end.

Definition lower (c : ascii) : ascii :=
  let n := nat_of_ascii c in
  if ((65 <=? n) && (n <=? 90))%nat then ascii_of_nat (n + 32) else c.

(** A literal character of the format; [strptime] ignores case. *)
Definition m_lit (c : ascii) : matcher unit :=
  fun s =>
    match s with
    | String c' rest => if Ascii.eqb (lower c') (lower c) then [(tt, rest)] else []
    | EmptyString => []
    end.

Definition m_two (lo1 hi1 lo2 hi2 : Z) : matcher Z :=
  m_bind (m_digit lo1 hi1) (fun a =>
  m_bind (m_digit lo2 hi2) (fun b => m_ret (10 * a + b))).

(** [%Y]: four digits. *)
Definition m_Y : matcher Z :=
  m_bind (m_two 0 9 0 9) (fun hi =>
  m_bind (m_two 0 9 0 9) (fun lo => m_ret (100 * hi + lo))).

(** [%m]: 1[0-2] | 0[1-9] | [1-9] *)
Definition m_m : matcher Z :=
  m_alt (m_two 1 1 0 2) (m_alt (m_two 0 0 1 9) (m_digit 1 9)).

(** [%d]: 3[01] | [12]\d | 0[1-9] | [1-9] | space [1-9] *)
Definition m_d : matcher Z :=
  m_alt (m_two 3 3 0 1)
    (m_alt (m_two 1 2 0 9)
       (m_alt (m_two 0 0 1 9)
          (m_alt (m_digit 1 9)
             (m_bind (m_lit " ") (fun _ => m_digit 1 9))))).

(** [%H]: 2[0-3] | [0-1]\d | \d *)
Definition m_H : matcher Z :=
  m_alt (m_two 2 2 0 3) (m_alt (m_two 0 1 0 9) (m_digit 0 9)).

(** [%M]: [0-5]\d | \d *)
Definition m_M : matcher Z :=
  m_alt (m_two 0 5 0 9) (m_digit 0 9).

(** [%S]: 6[0-1] | [0-5]\d | \d *)
Definition m_S : matcher Z :=
  m_alt (m_two 6 6 0 1) (m_alt (m_two 0 5 0 9) (m_digit 0 9)).

(** The first match must consume the whole string (otherwise "unconverted
    data remains") and the fields must make a date ([check]). *)
Definition strptime {A : Type} (p : matcher A) (check : A -> bool) (s : string)
  : result A :=
  match p s with
  | (a, EmptyString) :: _ => if check a then Ok a else Raise ValueError
  | _ => Raise ValueError
  end.

(** [datetime.datetime.strptime(value, '%Y-%m').date()] *)
Definition format_Ym : matcher date :=
  (y <~ m_Y ;; _ <~ m_lit "-" ;; m <~ m_m ;; m_ret (Date y m 1))%matcher.

Definition strptime_Ym (value : string) : result date :=
  strptime format_Ym valid_date value.

(** [datetime.datetime.strptime(value, '%Y-%m-%dT%H:%M:%SZ')] *)
Definition format_github : matcher datetime :=
  (y <~ m_Y ;; _ <~ m_lit "-" ;; m <~ m_m ;; _ <~ m_lit "-" ;; d <~ m_d ;;
   _ <~ m_lit "T" ;;
   h <~ m_H ;; _ <~ m_lit ":" ;; mi <~ m_M ;; _ <~ m_lit ":" ;; sec <~ m_S ;;
   _ <~ m_lit "Z" ;;
   m_ret (DateTime (Date y m d) h mi sec))%matcher.

Definition parse_github_time (value : string) : result datetime :=
  strptime format_github
    (fun dt => valid_date (dt_date dt) && (second dt <=? 59)) value.

(** ['%d-%02d' % (year, month)] *)
Definition stringdate (y m : Z) : string := pct_d y ++ "-" ++ pct_02d m.

(** [date.strftime('%Y-%m-%d')], for the four-digit years of a run date. *)
Definition strftime_Ymd (d : date) : string :=
  pct_d (year d) ++ "-" ++ pct_02d (month d) ++ "-" ++ pct_02d (day d).

(* ================================================================== *)
(** * The GraphQL endpoint and the output file *)

(** ** Decoded responses *)

Record page_info : Type :=
  PageInfo { hasNextPage : bool; endCursor : option string }.

Record connection (A : Type) : Type :=
  Connection { pageInfo : page_info; nodes : list A }.

Arguments Connection {A} pageInfo nodes.
Arguments pageInfo {A} c.
Arguments nodes {A} c.

(** [author] is [null] when the account was deleted, otherwise its login. *)
Record review_node : Type :=
  ReviewNode { review_author : option string; review_submittedAt : option string }.

Record comment_node : Type :=
  CommentNode { comment_author : option string; comment_createdAt : string }.

Record pr_node : Type :=
  PrNode {
    pr_id : string;
    pr_number : Z;
    pr_createdAt : string;
    pr_author : option string;
    pr_reviews : connection review_node;
    pr_comments : connection comment_node }.

Record issue_node : Type :=
  IssueNode {
    issue_id : string;
    issue_number : Z;
    issue_createdAt : string;
    issue_author : option string;
    issue_comments : connection comment_node }.

Record repo_node : Type :=
  RepoNode { defaultBranchRef : option string; repo_node_name : string; isArchived : bool }.

(** ** Requests: the three templates with their substituted fields *)

Record query : Type :=
  Query {
    q_org_name : string;
    q_repo_name : string;
    q_cursor : string;
    q_reviews_cursor : string;
    q_last_updated : string;
    q_comments_cursor : string }.

Inductive request : Type :=
| PR_QUERY (q : query)
| ISSUE_QUERY (q : query)
| ORG_QUERY (org_name cursor : string).

Inductive response : Type :=
| SearchPullRequests (results : connection pr_node)
| SearchIssues (results : connection issue_node)
| OrganizationRepositories (results : connection repo_node).

(** The endpoint answers a request with the decoded body of its first
    successful reply; the retries of [graphql_query] are not observable. *)
Definition github : Type := request -> response.

(** ** The persisted file *)

Record author_json : Type :=
  AuthorJson {
    j_prs_by_month : PyDict.t Z;
    j_reviews_by_month : PyDict.t Z;
    j_pr_comments_by_month : PyDict.t Z;
    j_issues_by_month : PyDict.t Z;
    j_issue_comments_by_month : PyDict.t Z }.

Record dataset_json : Type :=
  DatasetJson {
    j_last_updated : string;
    j_repos_visited : list string;
    j_author_contrib : PyDict.t author_json }.

(** ** The world of a run *)

Record world : Type :=
  World { files : PyDict.t dataset_json; requests : list request }.

Definition M (A : Type) : Type := world -> result A * world.

Definition mret {A : Type} (a : A) : M A := fun w => (Ok a, w).

Definition mbind {A B : Type} (c : M A) (k : A -> M B) : M B :=
  fun w =>
    match c w with
    | (Ok a, w') => k a w'
    | (Raise e, w') => (Raise e, w')
    end.

Definition lift {A : Type} (r : result A) : M A := fun w => (r, w).

Declare Scope io_scope.
Delimit Scope io_scope with io.
Notation "x <- c ;; k" := (mbind c (fun x => k))
  (at level 61, c at next level, right associativity) : io_scope.

Fixpoint for_eachM {A S : Type} (body : A -> S -> M S) (xs : list A) (acc : S) : M S :=
  match xs with
  | [] => mret acc
  | x :: rest => mbind (body x acc) (for_eachM body rest)
  end.

(* ================================================================== *)
(** * The collector: [get_monthly_contributions.py] *)

Module Collector.

Section Endpoint.

Variable gh : github.

(** [graphql_query(query, token)] *)
Definition graphql_query (req : request) (token : option string) : M response :=
  fun w => (Ok (gh req), World (files w) (requests w ++ [req])%list).

End Endpoint.

(** ** Activity records *)

Record Review : Type :=
  mkReview {
    review_login : string;
    submitted_at_string : string;
    submitted_at : datetime }.

Record Comment : Type :=
  mkComment {
    comment_login : string;
    comment_created_at_string : string;
    comment_created_at : datetime }.

Record PullRequest : Type :=
  mkPullRequest {
    pr_login : string;
    pr_created_at_string : string;
    pr_created_at : datetime;
    reviews : list Review;
    comments : list Comment }.

Record Issue : Type :=
  mkIssue {
    issue_login : string;
    issue_created_at_string : string;
    issue_created_at : datetime;
    issue_comment_list : list Comment }.

(** [Review(login, submitted_at)] *)
Definition new_Review (login submitted : string) : result Review :=
  (t <- parse_github_time submitted ;; Ok (mkReview login submitted t))%result.

(** [Comment(login, created_at)] *)
Definition new_Comment (login created : string) : result Comment :=
  (t <- parse_github_time created ;; Ok (mkComment login created t))%result.

(** [PullRequest(login, created_at)] *)
Definition new_PullRequest (login created : string) : result PullRequest :=
  (t <- parse_github_time created ;; Ok (mkPullRequest login created t [] []))%result.

(** [Issue(login, created_at)] *)
Definition new_Issue (login created : string) : result Issue :=
  (t <- parse_github_time created ;; Ok (mkIssue login created t []))%result.

(** [PullRequest.add_review] *)
Definition add_review (self : PullRequest) (login submitted : string)
  : result PullRequest :=
  (r <- new_Review login submitted ;;
   Ok (mkPullRequest (pr_login self) (pr_created_at_string self) (pr_created_at self)
         (reviews self ++ [r])%list (comments self)))%result.

(** [PullRequest.add_comment] *)
Definition add_comment (self : PullRequest) (login created : string)
  : result PullRequest :=
  (c <- new_Comment login created ;;
   Ok (mkPullRequest (pr_login self) (pr_created_at_string self) (pr_created_at self)
         (reviews self) (comments self ++ [c])%list))%result.

(** [Issue.add_comment] *)
Definition issue_add_comment (self : Issue) (login created : string) : result Issue :=
  (c <- new_Comment login created ;;
   Ok (mkIssue (issue_login self) (issue_created_at_string self) (issue_created_at self)
         (issue_comment_list self ++ [c])%list))%result.

(** [d[k].method(...)]: the object stored under [k] is looked up, mutated
    by the method and stays stored under [k]. *)
Definition update_at {V : Type} (d : PyDict.t V) (k : string) (method : V -> result V)
  : result (PyDict.t V) :=
  (obj <- PyDict.getitem d k ;;
   obj' <- method obj ;;
   Ok (PyDict.set d k obj'))%result.

(** ** [query_prs] *)

(** The variables of the loop of [query_prs]. *)
Record pr_vars : Type :=
  PrVars {
    cursor : string;
    reviews_cursor : string;
    comments_cursor : string;
    has_next_page : bool;
    pull_requests : PyDict.t PullRequest }.

(** The body of [for review in reviews['nodes']]. *)
Definition record_review (id : string) (review : review_node)
    (prs : PyDict.t PullRequest) : result (PyDict.t PullRequest) :=
  match review_author review with
  | None => Ok prs
  | Some login =>
      match review_submittedAt review with
      | None => Ok prs
      | Some submitted => update_at prs id (fun pr => add_review pr login submitted)
      end
  end.

(** The body of [for comment in comments['nodes']]. *)
Definition record_comment (id : string) (comment : comment_node)
    (prs : PyDict.t PullRequest) : result (PyDict.t PullRequest) :=
  match comment_author comment with
  | None => Ok prs
  | Some login =>
      update_at prs id (fun pr => add_comment pr login (comment_createdAt comment))
  end.

(** The body of [for pr in results['nodes']]. *)
Definition record_pr (pr : pr_node) (v : pr_vars) : result pr_vars :=
  match pr_author pr with
  | None => Ok v
  | Some login =>
      (fresh <- new_PullRequest login (pr_createdAt pr) ;;
       let prs := PyDict.set (pull_requests v) (pr_id pr) fresh in
       prs <- for_each (record_review (pr_id pr)) (nodes (pr_reviews pr)) prs ;;
       let reviews_page_info := pageInfo (pr_reviews pr) in
       if hasNextPage reviews_page_info then
         Ok (PrVars (cursor v) (quoted (endCursor reviews_page_info))
               (comments_cursor v) (has_next_page v) prs)
       else
         prs <- for_each (record_comment (pr_id pr)) (nodes (pr_comments pr)) prs ;;
         let comments_page_info := pageInfo (pr_comments pr) in
         Ok (PrVars (cursor v) "null"
               (if hasNextPage comments_page_info
                then quoted (endCursor comments_page_info) else "null")
               (has_next_page v) prs))%result
  end.

(** The cursor decision that ends a round. *)
Definition advance_prs (page : page_info) (v : pr_vars) : pr_vars :=
  if negb (reviews_cursor v =? "null")%string then
    PrVars (cursor v) (reviews_cursor v) (comments_cursor v) true (pull_requests v)
  else if negb (comments_cursor v =? "null")%string then
    PrVars (cursor v) (reviews_cursor v) (comments_cursor v) true (pull_requests v)
  else if hasNextPage page then
    PrVars (quoted (endCursor page)) (reviews_cursor v) (comments_cursor v) true
      (pull_requests v)
  else
    PrVars (cursor v) (reviews_cursor v) (comments_cursor v) false (pull_requests v).

(** What one round does with the decoded page. *)
Definition pr_round (results : connection pr_node) (v : pr_vars) : result pr_vars :=
  (v' <- for_each record_pr (nodes results) v ;;
   Ok (advance_prs (pageInfo results) v'))%result.

Definition pr_request (org_name repo_name last_updated : string) (v : pr_vars)
  : request :=
  PR_QUERY (Query org_name repo_name (cursor v) (reviews_cursor v) last_updated
              (comments_cursor v)).

Section Queries.

Variable gh : github.

Fixpoint query_prs_loop (fuel : nat) (org_name repo_name : string)
    (token : option string) (last_updated : string) (v : pr_vars)
  : M (PyDict.t PullRequest) :=
  if has_next_page v then
    match fuel with
    | O => lift (Raise OutOfFuel)
    | S fuel' =>
        (resp <- graphql_query gh (pr_request org_name repo_name last_updated v) token ;;
         match resp with
         | SearchPullRequests results =>
             v' <- lift (pr_round results v) ;;
             query_prs_loop fuel' org_name repo_name token last_updated v'
         | _ => lift (Raise KeyError)
         end)%io
    end
  else mret (pull_requests v).

Definition query_prs (fuel : nat) (org_name repo_name : string)
    (token : option string) (last_updated : string) : M (PyDict.t PullRequest) :=
  query_prs_loop fuel org_name repo_name token last_updated
    (PrVars "null" "null" "null" true PyDict.empty).

(** ** [query_issues] *)

Record issue_vars : Type :=
  IssueVars {
    i_cursor : string;
    i_reviews_cursor : string;
    i_comments_cursor : string;
    i_has_next_page : bool;
    issues : PyDict.t Issue }.

Definition record_issue_comment (id : string) (comment : comment_node)
    (d : PyDict.t Issue) : result (PyDict.t Issue) :=
  match comment_author comment with
  | None => Ok d
  | Some login =>
      update_at d id
        (fun issue => issue_add_comment issue login (comment_createdAt comment))
  end.

Definition record_issue (issue : issue_node) (v : issue_vars) : result issue_vars :=
  match issue_author issue with
  | None => Ok v
  | Some login =>
      (fresh <- new_Issue login (issue_createdAt issue) ;;
       let d := PyDict.set (issues v) (issue_id issue) fresh in
       d <- for_each (record_issue_comment (issue_id issue))
              (nodes (issue_comments issue)) d ;;
       let comments_page_info := pageInfo (issue_comments issue) in
       Ok (IssueVars (i_cursor v) (i_reviews_cursor v)
             (if hasNextPage comments_page_info
              then quoted (endCursor comments_page_info) else "null")
             (i_has_next_page v) d))%result
  end.

Definition advance_issues (page : page_info) (v : issue_vars) : issue_vars :=
  if negb (i_comments_cursor v =? "null")%string then
    IssueVars (i_cursor v) (i_reviews_cursor v) (i_comments_cursor v) true (issues v)
  else if hasNextPage page then
    IssueVars (quoted (endCursor page)) (i_reviews_cursor v) (i_comments_cursor v)
      true (issues v)
  else
    IssueVars (i_cursor v) (i_reviews_cursor v) (i_comments_cursor v) false (issues v).

Definition issue_request (org_name repo_name last_updated : string) (v : issue_vars)
  : request :=
  ISSUE_QUERY (Query org_name repo_name (i_cursor v) (i_reviews_cursor v) last_updated
                 (i_comments_cursor v)).

Fixpoint query_issues_loop (fuel : nat) (org_name repo_name : string)
    (token : option string) (last_updated : string) (v : issue_vars)
  : M (PyDict.t Issue) :=
  if i_has_next_page v then
    match fuel with
    | O => lift (Raise OutOfFuel)
    | S fuel' =>
        (resp <- graphql_query gh (issue_request org_name repo_name last_updated v)
                   token ;;
         match resp with
         | SearchIssues results =>
             v' <- lift (v' <- for_each record_issue (nodes results) v ;;
                         Ok (advance_issues (pageInfo results) v'))%result ;;
             query_issues_loop fuel' org_name repo_name token last_updated v'
         | _ => lift (Raise KeyError)
         end)%io
    end
  else mret (issues v).

Definition query_issues (fuel : nat) (org_name repo_name : string)
    (token : option string) (last_updated : string) : M (PyDict.t Issue) :=
  query_issues_loop fuel org_name repo_name token last_updated
    (IssueVars "null" "null" "null" true PyDict.empty).

(** ** [query_org_repos_from_name] *)

Definition record_repo (repo : repo_node) (organization_repos : list string)
  : list string :=
  match defaultBranchRef repo with
  | None => organization_repos
  | Some _ => (organization_repos ++ [repo_node_name repo])%list
  end.

Fixpoint query_org_repos_loop (fuel : nat) (org_name : string)
    (token : option string) (cursor : string) (has_next_page : bool)
    (organization_repos : list string) : M (list string) :=
  if has_next_page then
    match fuel with
    | O => lift (Raise OutOfFuel)
    | S fuel' =>
        (resp <- graphql_query gh (ORG_QUERY org_name cursor) token ;;
         match resp with
         | OrganizationRepositories results =>
             let organization_repos :=
               fold_left (fun acc repo => record_repo repo acc) (nodes results)
                 organization_repos in
             let page := pageInfo results in
             query_org_repos_loop fuel' org_name token (quoted (endCursor page))
               (hasNextPage page) organization_repos
         | _ => lift (Raise KeyError)
         end)%io
    end
  else mret organization_repos.

Definition query_org_repos_from_name (fuel : nat) (org_name : string)
    (token : option string) : M (list string) :=
  query_org_repos_loop fuel org_name token "null" true [].

End Queries.

(** ** [ContributionReportOptions] *)

Record ContributionReportOptions : Type :=
  Options {
    orgs : list string;
    repos : list string;
    token : option string;
    output_file : string }.

(** ** [AuthorCounts] *)

Record AuthorCounts : Type :=
  mkAuthorCounts {
    prs_by_month : PyDict.t Z;
    reviews_by_month : PyDict.t Z;
    pr_comments_by_month : PyDict.t Z;
    issues_by_month : PyDict.t Z;
    issue_comments_by_month : PyDict.t Z }.

(** The five assignments [self.<counter>[stringdate] = 0]. *)
Definition zero_month (y m : Z) (self : AuthorCounts) : AuthorCounts :=
  let stringdate := stringdate y m in
  mkAuthorCounts
    (PyDict.set (prs_by_month self) stringdate 0)
    (PyDict.set (reviews_by_month self) stringdate 0)
    (PyDict.set (pr_comments_by_month self) stringdate 0)
    (PyDict.set (issues_by_month self) stringdate 0)
    (PyDict.set (issue_comments_by_month self) stringdate 0).

(** [AuthorCounts(today)] *)
Definition new_AuthorCounts (today : date) : AuthorCounts :=
  let self := mkAuthorCounts PyDict.empty PyDict.empty PyDict.empty PyDict.empty
                PyDict.empty in
  let self :=
    fold_left
      (fun self y => fold_left (fun self m => zero_month y m self) (range 1 (12 + 1)) self)
      (range 2013 (year today)) self in
  fold_left (fun self m => zero_month (year today) m self)
    (range 1 (month today + 1)) self.

Definition increment_prs (self : AuthorCounts) (d : date) (activity : Z)
  : result AuthorCounts :=
  let datemonth := stringdate (year d) (month d) in
  (c <- PyDict.iadd (prs_by_month self) datemonth activity ;;
   Ok (mkAuthorCounts c (reviews_by_month self) (pr_comments_by_month self)
         (issues_by_month self) (issue_comments_by_month self)))%result.

Definition increment_reviews (self : AuthorCounts) (d : date) (activity : Z)
  : result AuthorCounts :=
  let datemonth := stringdate (year d) (month d) in
  (c <- PyDict.iadd (reviews_by_month self) datemonth activity ;;
   Ok (mkAuthorCounts (prs_by_month self) c (pr_comments_by_month self)
         (issues_by_month self) (issue_comments_by_month self)))%result.

Definition increment_pr_comments (self : AuthorCounts) (d : date) (activity : Z)
  : result AuthorCounts :=
  let datemonth := stringdate (year d) (month d) in
  (c <- PyDict.iadd (pr_comments_by_month self) datemonth activity ;;
   Ok (mkAuthorCounts (prs_by_month self) (reviews_by_month self) c
         (issues_by_month self) (issue_comments_by_month self)))%result.

Definition increment_issues (self : AuthorCounts) (d : date) (activity : Z)
  : result AuthorCounts :=
  let datemonth := stringdate (year d) (month d) in
  (c <- PyDict.iadd (issues_by_month self) datemonth activity ;;
   Ok (mkAuthorCounts (prs_by_month self) (reviews_by_month self)
         (pr_comments_by_month self) c (issue_comments_by_month self)))%result.

Definition increment_issue_comments (self : AuthorCounts) (d : date) (activity : Z)
  : result AuthorCounts :=
  let datemonth := stringdate (year d) (month d) in
  (c <- PyDict.iadd (issue_comments_by_month self) datemonth activity ;;
   Ok (mkAuthorCounts (prs_by_month self) (reviews_by_month self)
         (pr_comments_by_month self) (issues_by_month self) c))%result.

(** ** The dataset in memory *)

Record output_data : Type :=
  OutputData {
    last_updated : string;
    repos_visited : pyset;
    author_contrib : PyDict.t AuthorCounts }.

(** One of the five loops of [load_existing_data] over a counter of the
    file: every entry is parsed and added to the author's fresh counters. *)
Definition load_counter
    (increment : AuthorCounts -> date -> Z -> result AuthorCounts)
    (author : string) (counter : PyDict.t Z) (contrib : PyDict.t AuthorCounts)
  : result (PyDict.t AuthorCounts) :=
  for_each
    (fun '(datestr, activity) contrib =>
       (d <- strptime_Ym datestr ;;
        update_at contrib author (fun self => increment self d activity))%result)
    (PyDict.items counter) contrib.

(** The body of [for author, values in data['author_contrib'].items()]. *)
Definition load_author (today : date) (data : dataset_json) (author : string)
    (contrib : PyDict.t AuthorCounts) : result (PyDict.t AuthorCounts) :=
  let contrib := PyDict.set contrib author (new_AuthorCounts today) in
  (stored <- PyDict.getitem (j_author_contrib data) author ;;
   contrib <- load_counter increment_prs author (j_prs_by_month stored) contrib ;;
   contrib <- load_counter increment_reviews author (j_reviews_by_month stored) contrib ;;
   contrib <- load_counter increment_pr_comments author
                (j_pr_comments_by_month stored) contrib ;;
   contrib <- load_counter increment_issues author (j_issues_by_month stored) contrib ;;
   load_counter increment_issue_comments author
     (j_issue_comments_by_month stored) contrib)%result.

(** The part of [load_existing_data] that runs when the file exists. *)
Definition load_data (data : dataset_json) (today : date) : result output_data :=
  (contrib <- for_each (fun '(author, _) contrib => load_author today data author contrib)
                (PyDict.items (j_author_contrib data)) PyDict.empty ;;
   Ok (OutputData (j_last_updated data) (set_of_list (j_repos_visited data)) contrib))%result.

(** [load_existing_data(filename, today)] *)
Definition load_existing_data (filename : string) (today : date) : M output_data :=
  fun w =>
    match PyDict.get (files w) filename with
    | None => (Ok (OutputData (strftime_Ymd today) [] PyDict.empty), w)
    | Some data => (load_data data today, w)
    end.

(** [JSONEncoderWithSets]: a set is written as a list, an object as the
    dictionary of its attributes. *)
Definition vars_AuthorCounts (obj : AuthorCounts) : author_json :=
  AuthorJson (prs_by_month obj) (reviews_by_month obj) (pr_comments_by_month obj)
    (issues_by_month obj) (issue_comments_by_month obj).

Definition encode (data : output_data) : dataset_json :=
  DatasetJson (last_updated data) (repos_visited data)
    (map (fun '(author, counts) => (author, vars_AuthorCounts counts))
       (PyDict.items (author_contrib data))).

(** [write_out_data(filename, data)]: the temporary file is renamed over
    the target, which so changes in one step. *)
Definition write_out_data (filename : string) (data : output_data) : M unit :=
  fun w => (Ok tt, World (PyDict.set (files w) filename (encode data)) (requests w)).

(** ** The aggregation loops of [main] *)

(** [if not login in contrib: contrib[login] = AuthorCounts(today)], then
    the increment on the stored object. *)
Definition count (today : date) (login : string)
    (increment : AuthorCounts -> result AuthorCounts)
    (contrib : PyDict.t AuthorCounts) : result (PyDict.t AuthorCounts) :=
  update_at (PyDict.setdefault contrib login (new_AuthorCounts today)) login increment.

Definition count_review (today : date) (review : Review)
    (contrib : PyDict.t AuthorCounts) : result (PyDict.t AuthorCounts) :=
  count today (review_login review)
    (fun self => increment_reviews self (dt_date (submitted_at review)) 1) contrib.

Definition count_pr_comment (today : date) (comment : Comment)
    (contrib : PyDict.t AuthorCounts) : result (PyDict.t AuthorCounts) :=
  count today (comment_login comment)
    (fun self => increment_pr_comments self (dt_date (comment_created_at comment)) 1)
    contrib.

Definition count_issue_comment (today : date) (comment : Comment)
    (contrib : PyDict.t AuthorCounts) : result (PyDict.t AuthorCounts) :=
  count today (comment_login comment)
    (fun self => increment_issue_comments self (dt_date (comment_created_at comment)) 1)
    contrib.

(** The body of [for pr_id, pr in prs.items()]. *)
Definition count_pr (today : date) (pr : PullRequest)
    (contrib : PyDict.t AuthorCounts) : result (PyDict.t AuthorCounts) :=
  (contrib <- count today (pr_login pr)
                (fun self => increment_prs self (dt_date (pr_created_at pr)) 1) contrib ;;
   contrib <- for_each (count_review today) (reviews pr) contrib ;;
   for_each (count_pr_comment today) (comments pr) contrib)%result.

(** The body of [for issue_id, issue in issues.items()]. *)
Definition count_issue (today : date) (issue : Issue)
    (contrib : PyDict.t AuthorCounts) : result (PyDict.t AuthorCounts) :=
  (contrib <- count today (issue_login issue)
                (fun self => increment_issues self (dt_date (issue_created_at issue)) 1)
                contrib ;;
   for_each (count_issue_comment today) (issue_comment_list issue) contrib)%result.

Definition count_prs (today : date) (prs : PyDict.t PullRequest)
    (contrib : PyDict.t AuthorCounts) : result (PyDict.t AuthorCounts) :=
  for_each (fun '(_, pr) => count_pr today pr) (PyDict.items prs) contrib.

Definition count_issues (today : date) (found : PyDict.t Issue)
    (contrib : PyDict.t AuthorCounts) : result (PyDict.t AuthorCounts) :=
  for_each (fun '(_, issue) => count_issue today issue) (PyDict.items found) contrib.

(** ** [main] *)

(** The resume date of a repository. *)
Definition resume_date (full_repo_name : string) (data : output_data) : string :=
  if negb (set_mem full_repo_name (repos_visited data)) then "2013-01-01"
  else last_updated data.

(** The loop [for repo in options.repos]; [None] is its [return 1]. *)
Fixpoint explicit_repos (entries : list string) (org_repos : PyDict.t pyset)
  : option (PyDict.t pyset) :=
  match entries with
  | [] => Some org_repos
  | repo :: rest =>
      let parts := split "/" repo in
      if negb (List.length parts =? 2)%nat then None
      else
        let org := nth 0 parts EmptyString in
        let repo := nth 1 parts EmptyString in
        let org_repos := PyDict.setdefault org_repos org [] in
        explicit_repos rest
          (PyDict.set org_repos org (set_add (PyDict.getd org_repos org []) repo))
  end.

Section Run.

Variable gh : github.
Variable fuel : nat.
Variable options : ContributionReportOptions.
Variable today : date.

(** The body of [for org in options.orgs]. *)
Definition organization_repos (org : string) (org_repos : PyDict.t pyset)
  : M (PyDict.t pyset) :=
  let org_repos := PyDict.setdefault org_repos org [] in
  (names <- query_org_repos_from_name gh fuel org (token options) ;;
   lift (update_at org_repos org (fun s => Ok (set_update s names))))%io.

(** The body of [for repo_name in repos]. *)
Definition visit_repo (org_name repo_name : string) (data : output_data)
  : M output_data :=
  let full_repo_name := slash_join org_name repo_name in
  let since := resume_date full_repo_name data in
  (prs <- query_prs gh fuel org_name repo_name (token options) since ;;
   contrib <- lift (count_prs today prs (author_contrib data)) ;;
   found <- query_issues gh fuel org_name repo_name (token options) since ;;
   contrib <- lift (count_issues today found contrib) ;;
   let data :=
     OutputData (last_updated data) (set_add (repos_visited data) full_repo_name)
       contrib in
   _ <- write_out_data (output_file options) data ;;
   mret data)%io.

Definition visit_all (org_repos : PyDict.t pyset) (data : output_data)
  : M output_data :=
  for_eachM
    (fun '(org_name, names) data => for_eachM (visit_repo org_name) names data)
    (PyDict.items org_repos) data.

Definition main : M Z :=
  match repos options, orgs options with
  | [], [] => mret 1
  | _, _ =>
      (data <- load_existing_data (output_file options) today ;;
       match explicit_repos (repos options) PyDict.empty with
       | None => mret 1
       | Some org_repos =>
           org_repos <- for_eachM organization_repos (orgs options) org_repos ;;
           data <- visit_all org_repos data ;;
           let data :=
             OutputData (strftime_Ymd today) (repos_visited data)
               (author_contrib data) in
           _ <- write_out_data (output_file options) data ;;
           mret 0
       end)%io
  end.

End Run.

End Collector.

(* ================================================================== *)
(** * The renderer: [graph_monthly_contributions.py] *)

Module Grapher.

Record ContributionReportOptions : Type :=
  Options {
    authors : list string;
    anonymize : bool;
    since : date;
    input_file : string }.

(** [IsoDate(value)] *)
Definition IsoDate (value : string) : result date := strptime_Ym value.

(** One call of [plt.plot(x, y, label=...)]. *)
Record plot_call : Type :=
  Plot { plot_x : list string; plot_y : list Z; plot_label : string }.

(** The loop over one counter of an author, which the source writes out
    once per activity kind: [totals] is [(total_contributions,
    overall_contributions)]. *)
Definition add_counter (since : date) (counter : PyDict.t Z)
    (totals : PyDict.t Z * PyDict.t Z) : result (PyDict.t Z * PyDict.t Z) :=
  for_each
    (fun '(month, activity) '(total, overall) =>
       (d <- IsoDate month ;;
        if date_ltb d since then Ok (total, overall)
        else
          total <- PyDict.iadd (PyDict.setdefault total month 0) month activity ;;
          overall <- PyDict.iadd (PyDict.setdefault overall month 0) month activity ;;
          Ok (total, overall))%result)
    (PyDict.items counter) totals.

(** The five loops of one author, from an empty [total_contributions]. *)
Definition author_totals (since : date) (contrib : author_json)
    (overall : PyDict.t Z) : result (PyDict.t Z * PyDict.t Z) :=
  (t <- add_counter since (j_prs_by_month contrib) (PyDict.empty, overall) ;;
   t <- add_counter since (j_reviews_by_month contrib) t ;;
   t <- add_counter since (j_pr_comments_by_month contrib) t ;;
   t <- add_counter since (j_issues_by_month contrib) t ;;
   add_counter since (j_issue_comments_by_month contrib) t)%result.

(** The variables of the loop over the authors, with the plot calls made
    so far. *)
Record loop_vars : Type :=
  LoopVars {
    author_number : Z;
    overall_contributions : PyDict.t Z;
    plotted : list plot_call }.

(** [options.authors and author not in options.authors] *)
Definition filtered_out (options : ContributionReportOptions) (author : string) : bool :=
  match authors options with
  | [] => false
  | _ :: _ => negb (existsb (String.eqb author) (authors options))
  end.

(** The body of [for author, contrib in author_contrib.items()]. *)
Definition plot_author (options : ContributionReportOptions)
    (entry : string * author_json) (v : loop_vars) : result loop_vars :=
  let '(author, contrib) := entry in
  if filtered_out options author then Ok v
  else
    ('(total, overall) <- author_totals (since options) contrib
                            (overall_contributions v) ;;
     let munged_author :=
       if anonymize options then "Developer " ++ pct_d (author_number v)
       else author in
     Ok (LoopVars (author_number v + 1) overall
           (plotted v ++ [Plot (PyDict.keys total) (PyDict.values total)
                            munged_author])%list))%result.

(** [main], from reading the input file to the end of the loop over the
    authors; the trend line fitted afterwards is numeric and not part of
    the model. *)
Definition plot_authors (options : ContributionReportOptions) : M loop_vars :=
  fun w =>
    match PyDict.get (files w) (input_file options) with
    | None => (Raise FileNotFoundError, w)
    | Some output_data =>
        (for_each (plot_author options) (PyDict.items (j_author_contrib output_data))
           (LoopVars 1 PyDict.empty []), w)
    end.

End Grapher.

(* ================================================================== *)
(** * Activity kinds

    The five counters of an author and their increment methods, indexed by
    the kind of activity, so that a property can be stated once for all. *)

Module Kind.

Import Collector.

Inductive kind : Type :=
| Prs
| Reviews
| PrComments
| Issues
| IssueComments.

Definition all : list kind := [Prs; Reviews; PrComments; Issues; IssueComments].

Definition counter (k : kind) (self : AuthorCounts) : PyDict.t Z :=
  match k with
  | Prs => prs_by_month self
  | Reviews => reviews_by_month self
  | PrComments => pr_comments_by_month self
  | Issues => issues_by_month self
  | IssueComments => issue_comments_by_month self
  end.

Definition stored_counter (k : kind) (stored : author_json) : PyDict.t Z :=
  match k with
  | Prs => j_prs_by_month stored
  | Reviews => j_reviews_by_month stored
  | PrComments => j_pr_comments_by_month stored
  | Issues => j_issues_by_month stored
  | IssueComments => j_issue_comments_by_month stored
  end.

Definition increment (k : kind) : AuthorCounts -> date -> Z -> result AuthorCounts :=
  match k with
  | Prs => increment_prs
  | Reviews => increment_reviews
  | PrComments => increment_pr_comments
  | Issues => increment_issues
  | IssueComments => increment_issue_comments
  end.

Definition eqb (a b : kind) : bool :=
  match a, b with
  | Prs, Prs | Reviews, Reviews | PrComments, PrComments
  | Issues, Issues | IssueComments, IssueComments => true
  | _, _ => false
  end.

(** [self] with its counter of kind [k] replaced. *)
Definition with_counter (k : kind) (self : AuthorCounts) (c : PyDict.t Z)
  : AuthorCounts :=
  match k with
  | Prs =>
      mkAuthorCounts c (reviews_by_month self) (pr_comments_by_month self)
        (issues_by_month self) (issue_comments_by_month self)
  | Reviews =>
      mkAuthorCounts (prs_by_month self) c (pr_comments_by_month self)
        (issues_by_month self) (issue_comments_by_month self)
  | PrComments =>
      mkAuthorCounts (prs_by_month self) (reviews_by_month self) c
        (issues_by_month self) (issue_comments_by_month self)
  | Issues =>
      mkAuthorCounts (prs_by_month self) (reviews_by_month self)
        (pr_comments_by_month self) c (issue_comments_by_month self)
  | IssueComments =>
      mkAuthorCounts (prs_by_month self) (reviews_by_month self)
        (pr_comments_by_month self) (issues_by_month self) c
  end.

End Kind.

(* ================================================================== *)
(** * Example repositories and datasets *)

Module Scenario.

Import Collector.

Definition no_more : page_info := PageInfo false None.

Definition nothing {A : Type} : connection A := Connection no_more [].

(** A request outside the scenario gets an empty page. *)
Definition empty_reply (req : request) : response :=
  match req with
  | PR_QUERY _ => SearchPullRequests nothing
  | ISSUE_QUERY _ => SearchIssues nothing
  | ORG_QUERY _ _ => OrganizationRepositories nothing
  end.

Definition start : world := World PyDict.empty [].

(** ** One pull request with 101 reviews

    The pull request of [bob] has 100 reviews by [carol] on its first page
    of reviews and one by [dave] on the second. *)

Definition carol_review : review_node :=
  ReviewNode (Some "carol") (Some "2024-03-16T09:00:00Z").

Definition dave_review : review_node :=
  ReviewNode (Some "dave") (Some "2024-03-17T09:00:00Z").

Definition many_reviews_pr (reviews_cursor : string) : pr_node :=
  PrNode "PR_1" 1 "2024-03-15T10:00:00Z" (Some "bob")
    (if (reviews_cursor =? "null")%string
     then Connection (PageInfo true (Some "R100")) (repeat carol_review 100)
     else Connection no_more [dave_review])
    nothing.

Definition many_reviews : github :=
  fun req =>
    match req with
    | PR_QUERY q => SearchPullRequests (Connection no_more [many_reviews_pr (q_reviews_cursor q)])
    | _ => empty_reply req
    end.

(** ** A pull request of a deleted account, reviewed by [carol] *)

Definition orphan_pr : pr_node :=
  PrNode "PR_7" 7 "2024-03-15T10:00:00Z" None
    (Connection no_more [carol_review])
    (Connection no_more [CommentNode (Some "dave") "2024-03-18T08:30:00Z"]).

Definition orphan : github :=
  fun req =>
    match req with
    | PR_QUERY _ => SearchPullRequests (Connection no_more [orphan_pr])
    | _ => empty_reply req
    end.

(** ** 150 pull requests without reviews or comments, on two pages *)

Definition plain_pr (n : nat) : pr_node :=
  PrNode ("PR_" ++ pct_d (Z.of_nat n)) (Z.of_nat n) "2024-03-15T10:00:00Z"
    (Some "bob") nothing nothing.

Definition first_page : connection pr_node :=
  Connection (PageInfo true (Some "P100")) (map plain_pr (seq 1 100)).

Definition second_page : connection pr_node :=
  Connection no_more (map plain_pr (seq 101 50)).

Definition two_pages : github :=
  fun req =>
    match req with
    | PR_QUERY q =>
        SearchPullRequests
          (if (q_cursor q =? "null")%string then first_page else second_page)
    | _ => empty_reply req
    end.

(** ** Pages for one round of [query_prs] *)

(** A pull request of a deleted account with a further page of reviews. *)
Definition orphan_with_more_reviews : pr_node :=
  PrNode "PR_8" 8 "2024-03-15T10:00:00Z" None
    (Connection (PageInfo true (Some "R100")) [carol_review]) nothing.

(** Two pull requests: the first has a further page of reviews, the second
    has none. *)
Definition busy_pr : pr_node :=
  PrNode "PR_9" 9 "2024-03-15T10:00:00Z" (Some "bob")
    (Connection (PageInfo true (Some "R100")) [carol_review]) nothing.

Definition quiet_pr : pr_node :=
  PrNode "PR_10" 10 "2024-03-15T11:00:00Z" (Some "erin") nothing nothing.

Definition fresh_vars : pr_vars := PrVars "null" "null" "null" true PyDict.empty.

(** ** One pull request of [bob], reviewed by [carol] *)

Definition bob_pr : pr_node :=
  PrNode "PR_3" 3 "2024-03-15T10:00:00Z" (Some "bob")
    (Connection no_more [carol_review]) nothing.

Definition bob_and_carol : github :=
  fun req =>
    match req with
    | PR_QUERY _ => SearchPullRequests (Connection no_more [bob_pr])
    | _ => empty_reply req
    end.

(** ** Options and datasets *)

Definition widgets : ContributionReportOptions :=
  Options [] ["acme/widgets"] None "monthly_activity.yaml".

Definition run_date : date := Date 2024 4 2.

(** The file that a run on [run_date] over [bob_and_carol] leaves. *)
Definition widgets_file : dataset_json :=
  Eval vm_compute in
  match PyDict.get (files (snd (main bob_and_carol 3 widgets run_date start)))
          "monthly_activity.yaml" with
  | Some data => data
  | None => DatasetJson EmptyString [] PyDict.empty
  end.

Definition later_date : date := Date 2024 6 9.

(** What [widgets_file] loads as on [later_date]. *)
Definition widgets_loaded : output_data :=
  Eval vm_compute in
  match load_data widgets_file later_date with
  | Ok data => data
  | Raise _ => OutputData EmptyString [] PyDict.empty
  end.

(** The world in which [widgets_file] is the output file. *)
Definition second_run : world := World [("monthly_activity.yaml", widgets_file)] [].

(** Options without a target, and with an entry that is no [org/repo]. *)
Definition no_target : ContributionReportOptions :=
  Options [] [] None "monthly_activity.yaml".

Definition bad_entry : ContributionReportOptions :=
  Options ["acme"] ["acme/widgets"; "widgets"] None "monthly_activity.yaml".

(** The renderer's scenario: [alice] opened two pull requests in 2023-01
    and one in 2023-02. *)
Definition alice_dataset : dataset_json :=
  DatasetJson "2023-03-01" []
    [("alice",
      AuthorJson [("2023-01", 2); ("2023-02", 1)] PyDict.empty PyDict.empty
        PyDict.empty PyDict.empty)].

(** Three authors, of which the filter of [anonymous] keeps the first and
    the last. *)
Definition three_authors : dataset_json :=
  DatasetJson "2023-03-01" []
    [("alice", AuthorJson [("2023-01", 2)] PyDict.empty PyDict.empty PyDict.empty
                 PyDict.empty);
     ("bob", AuthorJson [("2023-01", 3)] PyDict.empty PyDict.empty PyDict.empty
               PyDict.empty);
     ("carol", AuthorJson PyDict.empty [("2023-01", 5)] PyDict.empty PyDict.empty
                 PyDict.empty)].

Definition anonymous : Grapher.ContributionReportOptions :=
  Grapher.Options ["alice"; "carol"] true (Date 2023 1 1) "monthly_activity.yaml".

Definition since_2023_01 : Grapher.ContributionReportOptions :=
  Grapher.Options [] false (Date 2023 1 1) "monthly_activity.yaml".

End Scenario.

(* ================================================================== *)
(** * The contribution window *)

Module Window.

(** The months for which [AuthorCounts(today)] stores a key, in the order
    its two loops visit them. *)
Definition months (today : date) : list (Z * Z) :=
  (flat_map (fun y => map (fun m => (y, m)) (range 1 (12 + 1))) (range 2013 (year today))
   ++ map (fun m => (year today, m)) (range 1 (month today + 1)))%list.

(** Month [m] of year [y] lies between 2013-01 and the month of [today]. *)
Definition covers (today : date) (y m : Z) : Prop :=
  2013 <= y /\ 1 <= m <= 12 /\ (y < year today \/ (y = year today /\ m <= month today)).

(** [counter[stringdate] = 0] for each month of a list. *)
Definition zero_all (ms : list (Z * Z)) (counter : PyDict.t Z) : PyDict.t Z :=
  fold_left (fun c '(y, m) => PyDict.set c (stringdate y m) 0) ms counter.

(** A date on which the collector can run: a [datetime.date] of 2013 or
    later. *)
Definition run_date (d : date) : Prop :=
  2013 <= year d <= 9999 /\ 1 <= month d <= 12.

(** The month of [d] is not after the month of [today]. *)
Definition not_after (d today : date) : Prop :=
  year d < year today \/ (year d = year today /\ month d <= month today).

End Window.

(* ================================================================== *)
(** * Persisted datasets *)

Module Persisted.

Import Collector Kind.

(** The counters of an author as a run on date [d] writes them: increments
    only change values, so every counter has the keys that
    [AuthorCounts(d)] stored. *)
Definition counters_of (d : date) (stored : author_json) : Prop :=
  forall k, PyDict.keys (stored_counter k stored)
            = PyDict.keys (counter k (new_AuthorCounts d)).

(** A file persisted by a run on date [d]. *)
Definition persisted_on (d : date) (data : dataset_json) : Prop :=
  PyDict.wf (j_author_contrib data)
  /\ forall author stored, In (author, stored) (j_author_contrib data) ->
                           counters_of d stored.

(** Every count of [stored] is found again in [stored']; a month that
    [stored] does not have is absent from [stored'] or zero there. *)
Definition preserved (stored stored' : author_json) : Prop :=
  forall k key,
    match PyDict.get (stored_counter k stored) key with
    | Some n => PyDict.get (stored_counter k stored') key = Some n
    | None => PyDict.get (stored_counter k stored') key = None
              \/ PyDict.get (stored_counter k stored') key = Some 0
    end.

(** [data'] has the content of [data]: the same visited repositories, the
    same authors in the same order, the same counts. *)
Definition same_content (data data' : dataset_json) : Prop :=
  (forall r, In r (j_repos_visited data') <-> In r (j_repos_visited data))
  /\ PyDict.keys (j_author_contrib data') = PyDict.keys (j_author_contrib data)
  /\ forall author stored,
       PyDict.get (j_author_contrib data) author = Some stored ->
       exists stored',
         PyDict.get (j_author_contrib data') author = Some stored'
         /\ preserved stored stored'.

(** [for key, activity in entries: counter[key] += activity] *)
Definition add_all (entries : list (string * Z)) (counter : PyDict.t Z)
  : result (PyDict.t Z) :=
  for_each (fun '(key, activity) c => PyDict.iadd c key activity) entries counter.

(** The key written for month [m] of year [y] is read back as that month. *)
Definition reads_back (y m : Z) : bool :=
  match strptime_Ym (stringdate y m) with
  | Ok d => (year d =? y) && (month d =? m) && (day d =? 1)
  | Raise _ => false
  end.

(** The entries of a counter of the file can be read and added. *)
Definition readable (entries : list (string * Z)) : Prop :=
  forall key a, In (key, a) entries ->
    exists d, strptime_Ym key = Ok d /\ stringdate (year d) (month d) = key.

(** What loading leaves in a counter: the stored counts, over the zeros
    of the window of [today]. *)
Definition loaded (today : date) (stored : author_json) (self : AuthorCounts) : Prop :=
  forall k key,
    PyDict.get (counter k self) key
    = match PyDict.get (stored_counter k stored) key with
      | Some a => Some a
      | None => PyDict.get (counter k (new_AuthorCounts today)) key
      end.

(** The stored counters can be loaded on [today]. *)
Definition loadable (today : date) (stored : author_json) : Prop :=
  forall k,
    readable (stored_counter k stored)
    /\ PyDict.wf (stored_counter k stored)
    /\ incl (PyDict.keys (stored_counter k stored))
         (PyDict.keys (counter k (new_AuthorCounts today))).

(** Loading the output file and writing it back at once. *)
Definition reload (filename : string) (today : date) : M unit :=
  (data <- load_existing_data filename today ;; write_out_data filename data)%io.

End Persisted.

(* ================================================================== *)
(** * Pages of pull requests *)

Module Pages.

Import Collector.

(** The pull request of a deleted account. *)
Definition deleted (pr : pr_node) : Prop := pr_author pr = None.

Definition authored (pr : pr_node) : bool :=
  match pr_author pr with
  | Some _ => true
  | None => false
  end.

Definition parses (timestamp : string) : Prop :=
  exists t, parse_github_time timestamp = Ok t.

(** Every timestamp of the pull request that [query_prs] may parse is one
    that [parse_github_time] accepts. *)
Definition well_timed (pr : pr_node) : Prop :=
  parses (pr_createdAt pr)
  /\ (forall r submitted, In r (nodes (pr_reviews pr)) ->
        review_submittedAt r = Some submitted -> parses submitted)
  /\ (forall c, In c (nodes (pr_comments pr)) -> parses (comment_createdAt c)).

(** A pull request with an author, without reviews or comments. *)
Definition plain (pr : pr_node) : Prop :=
  pr_author pr <> None
  /\ parses (pr_createdAt pr)
  /\ nodes (pr_reviews pr) = [] /\ hasNextPage (pageInfo (pr_reviews pr)) = false
  /\ nodes (pr_comments pr) = [] /\ hasNextPage (pageInfo (pr_comments pr)) = false.

(** What [query_prs] stores for a plain pull request. *)
Definition stored_plain (pr : pr_node) (entry : string * PullRequest) : Prop :=
  fst entry = pr_id pr
  /\ Some (pr_login (snd entry)) = pr_author pr
  /\ reviews (snd entry) = []
  /\ comments (snd entry) = [].

(** The first request of [query_prs] and the one for the next outer page. *)
Definition first_request (org_name repo_name last_updated : string) : request :=
  PR_QUERY (Query org_name repo_name "null" "null" last_updated "null").

Definition next_request (org_name repo_name last_updated : string) (page : page_info)
  : request :=
  PR_QUERY (Query org_name repo_name (quoted (endCursor page)) "null" last_updated "null").

(** The endpoint with the pull requests of deleted accounts, and all that
    hangs on them, taken out of its answers. *)
Definition without_deleted (gh : github) : github :=
  fun req =>
    match gh req with
    | SearchPullRequests results =>
        SearchPullRequests (Connection (pageInfo results) (filter authored (nodes results)))
    | other => other
    end.

(** What a round of [query_prs] does with the cursors, by the three
    [hasNextPage] flags it reads. *)
Definition cursors_after (more_reviews more_comments more_prs : bool)
    (reviews_end comments_end page_end : option string) (v v' : pr_vars) : Prop :=
  match more_reviews, more_comments, more_prs with
  | true, _, _ =>
      cursor v' = cursor v
      /\ reviews_cursor v' = quoted reviews_end
      /\ comments_cursor v' = comments_cursor v
      /\ has_next_page v' = true
  | false, true, _ =>
      cursor v' = cursor v
      /\ reviews_cursor v' = "null"
      /\ comments_cursor v' = quoted comments_end
      /\ has_next_page v' = true
  | false, false, true =>
      cursor v' = quoted page_end
      /\ reviews_cursor v' = "null"
      /\ comments_cursor v' = "null"
      /\ has_next_page v' = true
  | false, false, false =>
      cursor v' = cursor v
      /\ reviews_cursor v' = "null"
      /\ comments_cursor v' = "null"
      /\ has_next_page v' = false
  end.

End Pages.

(* ================================================================== *)
(** * The totals of the renderer *)

Module Totals.

Import Kind.

(** The month is one the renderer keeps: its key is read by [IsoDate] as a
    date that is not before [since]. *)
Definition counted (since : date) (month : string) : bool :=
  match Grapher.IsoDate month with
  | Ok d => negb (date_ltb d since)
  | Raise _ => false
  end.

(** Some counter of the author has the month as a key. *)
Definition mentioned (contrib : author_json) (month : string) : bool :=
  existsb (fun k => PyDict.contains (stored_counter k contrib) month) Kind.all.

Definition count_in (counter : PyDict.t Z) (month : string) : Z :=
  match PyDict.get counter month with
  | Some a => a
  | None => 0
  end.

(** The activity of the author in the month: the five kinds, each with
    weight one. *)
Definition activity (contrib : author_json) (month : string) : Z :=
  count_in (j_prs_by_month contrib) month
  + count_in (j_reviews_by_month contrib) month
  + count_in (j_pr_comments_by_month contrib) month
  + count_in (j_issues_by_month contrib) month
  + count_in (j_issue_comments_by_month contrib) month.

(** The counters of the author are dictionaries whose keys [IsoDate]
    reads. *)
Definition well_keyed (contrib : author_json) : Prop :=
  forall k,
    PyDict.wf (stored_counter k contrib)
    /\ forall key, In key (PyDict.keys (stored_counter k contrib)) ->
                   exists d, Grapher.IsoDate key = Ok d.

(** [f'Developer {n}'] *)
Definition developer (n : nat) : string := "Developer " ++ pct_d (Z.of_nat n).

(** What a dictionary of totals holds for a month after the loop over one
    counter. *)
Definition added (since : date) (counter before after : PyDict.t Z) : Prop :=
  forall month,
    PyDict.get after month
    = match PyDict.get counter month with
      | Some a =>
          if counted since month then Some (count_in before month + a)
          else PyDict.get before month
      | None => PyDict.get before month
      end.

(** The author passes the [--authors] filter. *)
Definition shown (options : Grapher.ContributionReportOptions)
    (entry : string * author_json) : bool :=
  negb (Grapher.filtered_out options (fst entry)).

(** The plot call draws the totals of the author of the entry. *)
Definition plots_author (since : date) (entry : string * author_json)
    (plot : Grapher.plot_call) : Prop :=
  exists overall total overall',
    Grapher.author_totals since (snd entry) overall = Ok (total, overall')
    /\ Grapher.plot_x plot = PyDict.keys total
    /\ Grapher.plot_y plot = PyDict.values total.

(** The label of the plot call number [i], counted from 0, when the first
    call of the list is numbered [n]. *)
Definition label_from (n : Z) (i : nat) : string :=
  "Developer " ++ pct_d (n + Z.of_nat i).

End Totals.

(* ================================================================== *)
(** * The request log of a run *)

Module Log.

Import Collector.

(** Whatever the outcome of the computation [c], the world it leaves is
    related by [R] to the world it starts in; a value it returns satisfies
    [Q]. *)
Definition hoare {A : Type} (R : world -> world -> Prop) (c : M A) (Q : A -> Prop)
  : Prop :=
  forall w, R w (snd (c w)) /\ forall a, fst (c w) = Ok a -> Q a.

(** The requests issued from [w] to [w'] satisfy [P]. *)
Definition logged (P : request -> Prop) (w w' : world) : Prop :=
  exists issued, requests w' = (requests w ++ issued)%list /\ Forall P issued.

(** A file of [w'] is a file of [w] or satisfies [I]. *)
Definition stored (I : dataset_json -> Prop) (w w' : world) : Prop :=
  forall filename data,
    PyDict.get (files w') filename = Some data ->
    PyDict.get (files w) filename = Some data \/ I data.

(** The computation [c] issues only requests that satisfy [P]. *)
Definition issues {A : Type} (c : M A) (P : request -> Prop) (Q : A -> Prop) : Prop :=
  hoare (logged P) c Q.

(** The counters of [self] have the keys that [AuthorCounts(d)] stores. *)
Definition counts_of (d : date) (self : AuthorCounts) : Prop :=
  forall k, PyDict.keys (Kind.counter k self)
            = PyDict.keys (Kind.counter k (new_AuthorCounts d)).

(** The counters in memory of a run on date [d]. *)
Definition all_counts_of (d : date) (contrib : PyDict.t AuthorCounts) : Prop :=
  PyDict.wf contrib /\ forall author self, In (author, self) contrib -> counts_of d self.

(** The string has no ['/']. *)
Fixpoint slash_free (s : string) : bool :=
  match s with
  | EmptyString => true
  | String c rest => negb (Ascii.eqb c "/") && slash_free rest
  end.

(** The names of the repositories that the organization listing returns
    have no ['/'], as GitHub has it. *)
Definition plain_names (gh : github) : Prop :=
  forall org_name cursor results node,
    gh (ORG_QUERY org_name cursor) = OrganizationRepositories results ->
    In node (nodes results) ->
    slash_free (repo_node_name node) = true.

(** The request is a search of the repository [org_name/repo_name] for
    what was created on or after [since]. *)
Definition searches (org_name repo_name since : string) (req : request) : Prop :=
  match req with
  | PR_QUERY q | ISSUE_QUERY q =>
      q_org_name q = org_name /\ q_repo_name q = repo_name /\ q_last_updated q = since
  | ORG_QUERY _ _ => False
  end.



(** The organizations are distinct and the names of the repositories of
    each are distinct and have no ['/']. *)
Definition tidy (org_repos : PyDict.t pyset) : Prop :=
  PyDict.wf org_repos
  /\ forall org_name names, In (org_name, names) org_repos ->
       NoDup names /\ Forall (fun name => slash_free name = true) names.


(** What [main] does once the dataset is loaded. *)
Definition after_load (gh : github) (fuel : nat) (options : ContributionReportOptions)
    (today : date) (data : output_data) : M Z :=
  match explicit_repos (repos options) PyDict.empty with
  | None => mret 1
  | Some org_repos =>
      (org_repos <- for_eachM (organization_repos gh fuel options) (orgs options)
                      org_repos ;;
       data <- visit_all gh fuel options today org_repos data ;;
       let data :=
         OutputData (strftime_Ymd today) (repos_visited data) (author_contrib data) in
       _ <- write_out_data (output_file options) data ;;
       mret 0)%io
  end.

(** The entry of [--repos] splits on ['/'] into exactly two parts. *)
Definition org_slash_repo (entry : string) : Prop :=
  List.length (split "/" entry) = 2%nat.

End Log.

(* ================================================================== *)
(** * Repositories served on several pages *)

Module Complete.

Import Collector Pages.

(** The reviews that [query_prs] records: those with an author and a
    submission time, as the login and the time string. *)
Definition kept_reviews (rs : list review_node) : list (string * string) :=
  flat_map
    (fun r =>
       match review_author r, review_submittedAt r with
       | Some login, Some submitted => [(login, submitted)]
       | _, _ => []
       end) rs.

(** The comments that the query loops record: those with an author. *)
Definition kept_comments (cs : list comment_node) : list (string * string) :=
  flat_map
    (fun c =>
       match comment_author c with
       | Some login => [(login, comment_createdAt c)]
       | None => []
       end) cs.

Definition is_review (entry : string * string) (r : Review) : Prop :=
  review_login r = fst entry
  /\ submitted_at_string r = snd entry
  /\ parse_github_time (snd entry) = Ok (submitted_at r).

Definition is_comment (entry : string * string) (c : Comment) : Prop :=
  comment_login c = fst entry
  /\ comment_created_at_string c = snd entry
  /\ parse_github_time (snd entry) = Ok (comment_created_at c).

(** The entry of the dictionary holds what the node holds: its identity,
    author and creation time, its kept reviews and its kept comments, each
    once and in the order of the node. *)
Definition records_pr (pr : pr_node) (entry : string * PullRequest) : Prop :=
  fst entry = pr_id pr
  /\ Some (pr_login (snd entry)) = pr_author pr
  /\ pr_created_at_string (snd entry) = pr_createdAt pr
  /\ parse_github_time (pr_createdAt pr) = Ok (pr_created_at (snd entry))
  /\ Forall2 is_review (kept_reviews (nodes (pr_reviews pr))) (reviews (snd entry))
  /\ Forall2 is_comment (kept_comments (nodes (pr_comments pr))) (comments (snd entry)).

Definition records_issue (issue : issue_node) (entry : string * Issue) : Prop :=
  fst entry = issue_id issue
  /\ Some (issue_login (snd entry)) = issue_author issue
  /\ issue_created_at_string (snd entry) = issue_createdAt issue
  /\ parse_github_time (issue_createdAt issue) = Ok (issue_created_at (snd entry))
  /\ Forall2 is_comment (kept_comments (nodes (issue_comments issue)))
       (issue_comment_list (snd entry)).

(** The reviews and the comments of the pull request fit on one sub-page
    each. *)
Definition fits (pr : pr_node) : Prop :=
  hasNextPage (pageInfo (pr_reviews pr)) = false
  /\ hasNextPage (pageInfo (pr_comments pr)) = false.

(** A pull request that [query_prs] records in one round. *)
Definition settled (pr : pr_node) : Prop :=
  authored pr = true -> well_timed pr /\ fits pr.

Definition issue_authored (issue : issue_node) : bool :=
  match issue_author issue with
  | Some _ => true
  | None => false
  end.

(** An issue that [query_issues] records in one round. *)
Definition issue_settled (issue : issue_node) : Prop :=
  issue_authored issue = true ->
  parses (issue_createdAt issue)
  /\ (forall c, In c (nodes (issue_comments issue)) -> parses (comment_createdAt c))
  /\ hasNextPage (pageInfo (issue_comments issue)) = false.

(** The endpoint serves the outer pages [pages], in this order, from the
    cursor on: each but the last has a next page. *)
Fixpoint serves_prs (gh : github) (org_name repo_name since cursor : string)
    (pages : list (connection pr_node)) : Prop :=
  match pages with
  | [] => False
  | page :: rest =>
      gh (PR_QUERY (Query org_name repo_name cursor "null" since "null"))
      = SearchPullRequests page
      /\ match rest with
         | [] => hasNextPage (pageInfo page) = false
         | _ :: _ =>
             hasNextPage (pageInfo page) = true
             /\ serves_prs gh org_name repo_name since (quoted (endCursor (pageInfo page)))
                  rest
         end
  end.

Fixpoint serves_issues (gh : github) (org_name repo_name since cursor : string)
    (pages : list (connection issue_node)) : Prop :=
  match pages with
  | [] => False
  | page :: rest =>
      gh (ISSUE_QUERY (Query org_name repo_name cursor "null" since "null"))
      = SearchIssues page
      /\ match rest with
         | [] => hasNextPage (pageInfo page) = false
         | _ :: _ =>
             hasNextPage (pageInfo page) = true
             /\ serves_issues gh org_name repo_name since
                  (quoted (endCursor (pageInfo page))) rest
         end
  end.

Fixpoint serves_repos (gh : github) (org_name cursor : string)
    (pages : list (connection repo_node)) : Prop :=
  match pages with
  | [] => False
  | page :: rest =>
      gh (ORG_QUERY org_name cursor) = OrganizationRepositories page
      /\ match rest with
         | [] => hasNextPage (pageInfo page) = false
         | _ :: _ =>
             hasNextPage (pageInfo page) = true
             /\ serves_repos gh org_name (quoted (endCursor (pageInfo page))) rest
         end
  end.

(** The requests for the outer pages, one per page. *)
Fixpoint page_requests {A : Type} (ask : string -> request) (cursor : string)
    (pages : list (connection A)) : list request :=
  match pages with
  | [] => []
  | page :: rest =>
      ask cursor :: page_requests ask (quoted (endCursor (pageInfo page))) rest
  end.

Definition ask_prs (org_name repo_name since cursor : string) : request :=
  PR_QUERY (Query org_name repo_name cursor "null" since "null").

Definition ask_issues (org_name repo_name since cursor : string) : request :=
  ISSUE_QUERY (Query org_name repo_name cursor "null" since "null").

(** The names of the repositories with a default branch. *)
Definition with_branch (repos : list repo_node) : list string :=
  flat_map
    (fun repo =>
       match defaultBranchRef repo with
       | Some _ => [repo_node_name repo]
       | None => []
       end) repos.

End Complete.

(** A repository whose pull requests, issues and organization listing come
    on two pages each. *)

Module Paged.

Import Collector.

(** A pull request of [bob] with a review of [carol], a review of a deleted
    account, a pending review of [dave], a comment of [dave] and a comment
    of a deleted account. *)
Definition reviewed_pr : pr_node :=
  PrNode "PR_21" 21 "2024-02-03T10:00:00Z" (Some "bob")
    (Connection Scenario.no_more
       [Scenario.carol_review; ReviewNode None (Some "2024-02-05T09:00:00Z");
        ReviewNode (Some "dave") None])
    (Connection Scenario.no_more
       [CommentNode (Some "dave") "2024-02-04T08:30:00Z";
        CommentNode None "2024-02-04T09:30:00Z"]).

Definition pr_pages : list (connection pr_node) :=
  [Connection (PageInfo true (Some "P1")) [reviewed_pr; Scenario.orphan_pr];
   Connection Scenario.no_more [Scenario.quiet_pr]].

Definition orphan_issue : issue_node :=
  IssueNode "I_5" 5 "2024-02-09T12:00:00Z" None
    (Connection Scenario.no_more [CommentNode (Some "bob") "2024-02-09T13:00:00Z"]).

Definition asked_issue : issue_node :=
  IssueNode "I_4" 4 "2024-02-10T12:00:00Z" (Some "erin")
    (Connection Scenario.no_more
       [CommentNode (Some "bob") "2024-02-11T13:00:00Z";
        CommentNode None "2024-02-12T13:00:00Z"]).

Definition issue_pages : list (connection issue_node) :=
  [Connection (PageInfo true (Some "I1")) [orphan_issue];
   Connection Scenario.no_more [asked_issue]].

Definition repo_pages : list (connection repo_node) :=
  [Connection (PageInfo true (Some "O1"))
     [RepoNode (Some "main") "widgets" false; RepoNode None "empty" false];
   Connection Scenario.no_more [RepoNode (Some "master") "gadgets" true]].

Definition page_at {A : Type} (pages : list (connection A)) (cursor : string)
  : connection A :=
  if (cursor =? "null")%string then nth 0 pages Scenario.nothing
  else nth 1 pages Scenario.nothing.

Definition paged : github :=
  fun req =>
    match req with
    | PR_QUERY q => SearchPullRequests (page_at pr_pages (q_cursor q))
    | ISSUE_QUERY q => SearchIssues (page_at issue_pages (q_cursor q))
    | ORG_QUERY _ cursor => OrganizationRepositories (page_at repo_pages cursor)
    end.

End Paged.

(* ================================================================== *)
(** * Counted activities *)

Module Tally.

Import Collector Kind.

(** One activity that [main] counts: its kind, the login it is counted
    for and the date that selects the month. *)
Record event : Type :=
  Event { ev_kind : kind; ev_login : string; ev_date : date }.

(** The activities of a pull request, in the order [main] counts them. *)
Definition events_of_pr (pr : PullRequest) : list event :=
  (Event Prs (pr_login pr) (dt_date (pr_created_at pr))
   :: map (fun r => Event Reviews (review_login r) (dt_date (submitted_at r))) (reviews pr)
   ++ map (fun c => Event PrComments (comment_login c) (dt_date (comment_created_at c)))
        (comments pr))%list.

(** The activities of an issue, in the order [main] counts them. *)
Definition events_of_issue (issue : Issue) : list event :=
  Event Issues (issue_login issue) (dt_date (issue_created_at issue))
  :: map (fun c => Event IssueComments (comment_login c) (dt_date (comment_created_at c)))
       (issue_comment_list issue).

(** [date.strftime] is not used for the key: the two fields are formatted. *)
Definition month_key (d : date) : string := stringdate (year d) (month d).

(** The activity is of kind [k], by [login], in the month with key [key]. *)
Definition is_event (k : kind) (login key : string) (e : event) : bool :=
  Kind.eqb (ev_kind e) k
  && (ev_login e =? login)%string
  && (month_key (ev_date e) =? key)%string.

Definition occurrences (k : kind) (login key : string) (evs : list event) : Z :=
  Z.of_nat (List.length (filter (is_event k login key) evs)).

(** The count of kind [k] that [contrib] holds for [login] in the month
    [key]; nothing stored counts as 0. *)
Definition tally (k : kind) (contrib : PyDict.t AuthorCounts) (login key : string) : Z :=
  match PyDict.get contrib login with
  | Some self => Totals.count_in (counter k self) key
  | None => 0
  end.

(** The month of the activity lies in the window of [today]. *)
Definition in_window (today : date) (e : event) : Prop :=
  Window.covers today (year (ev_date e)) (month (ev_date e)).

(** What [main] does with one activity. *)
Definition count_event (today : date) (e : event)
    (contrib : PyDict.t AuthorCounts) : result (PyDict.t AuthorCounts) :=
  count today (ev_login e) (fun self => increment (ev_kind e) self (ev_date e) 1) contrib.

(** A month that a [datetime.date] can hold. *)
Definition dated (d : date) : Prop := 1 <= year d <= 9999 /\ 1 <= month d <= 12.

(** The key written for month [m] of a year [y] before 1000 has no
    four-digit year: it is not read by ['%Y-%m']. *)
Definition unread (y m : Z) : bool :=
  match strptime_Ym (stringdate y m) with
  | Ok _ => false
  | Raise _ => true
  end.

(** A pull request of [bob] in 2024-02 with a review of [carol] in the same
    month and a comment of [bob] in 2024-03; an issue of [erin]. *)
Definition bob_pull : PullRequest :=
  mkPullRequest "bob" "2024-02-03T10:00:00Z" (DateTime (Date 2024 2 3) 10 0 0)
    [mkReview "carol" "2024-02-05T09:00:00Z" (DateTime (Date 2024 2 5) 9 0 0)]
    [mkComment "bob" "2024-03-01T08:30:00Z" (DateTime (Date 2024 3 1) 8 30 0)].

Definition erin_issue : Issue :=
  mkIssue "erin" "2024-02-10T12:00:00Z" (DateTime (Date 2024 2 10) 12 0 0)
    [mkComment "bob" "2024-02-11T13:00:00Z" (DateTime (Date 2024 2 11) 13 0 0)].

End Tally.

(* ================================================================== *)
(** * Outcomes of a run *)

Module Outcome.

Import Collector.

(** No constraint on the worlds of a computation: only what it returns is
    looked at. *)
Definition anywhere (w w' : world) : Prop := True.

(** The repository [repo] of [org] is among those to visit. *)
Definition listed (org_repos : PyDict.t pyset) (org repo : string) : Prop :=
  exists names, PyDict.get org_repos org = Some names /\ In repo names.

End Outcome.

(* ================================================================== *)
(** * The outcome of the renderer and the loop of the transport *)

Module Render.

Import Grapher Kind Totals.

(** Every month key of the counters of the author is one that [IsoDate]
    reads. *)
Definition readable_keys (contrib : author_json) : Prop :=
  forall k key,
    In key (PyDict.keys (stored_counter k contrib)) -> exists d, IsoDate key = Ok d.

(** Some author of the entries has a month key that [IsoDate] rejects. *)
Definition unreadable (entries : list (string * author_json)) : Prop :=
  exists author contrib k key,
    In (author, contrib) entries
    /\ In key (PyDict.keys (stored_counter k contrib))
    /\ IsoDate key = Raise ValueError.

(** The activity of the authors of the entries in the month. *)
Definition sum_activity (entries : list (string * author_json)) (month : string) : Z :=
  fold_right (fun entry acc => activity (snd entry) month + acc) 0 entries.

(** A dataset in which [bob] has a month key with a single-digit month,
    which [IsoDate] reads, and [carol] one with a month 13, which it
    rejects. *)
Definition misdated : dataset_json :=
  DatasetJson "2023-03-01" []
    [("alice", AuthorJson [("2023-01", 2)] PyDict.empty PyDict.empty PyDict.empty
                 PyDict.empty);
     ("bob", AuthorJson [("2023-1", 3)] PyDict.empty PyDict.empty PyDict.empty
               PyDict.empty);
     ("carol", AuthorJson PyDict.empty [("2023-13", 5)] PyDict.empty PyDict.empty
                 PyDict.empty)].

(** The plot call is the one of the entry when the logins are shown. *)
Definition plots_login (since : date) (entry : string * author_json) (plot : plot_call)
  : Prop :=
  plot_label plot = fst entry /\ plots_author since entry plot.

End Render.

Module Transport.

(** What one [requests.post] of [graphql_query] does: it raises one of the
    exceptions that the loop catches, it raises another exception, or it
    returns a response with a status code, whose body [response.json()]
    decodes or fails to decode. *)
Inductive attempt : Type :=
| Caught
| Uncaught (e : exn)
| Response (status_code : Z) (json : result response).

(** [{'Authorization': f'Bearer {token}'} if token else None]: an empty
    token is no token. *)
Definition headers (token : option string) : option (string * string) :=
  match token with
  | None => None
  | Some EmptyString => None
  | Some t => Some ("Authorization", "Bearer " ++ t)
  end.

(** The loop of [graphql_query] over the outcomes of its successive
    attempts; [slept] collects the arguments of [time.sleep].  It returns
    the result, the sleeps and the attempts it has not made. *)
Fixpoint graphql_query (attempts : list attempt) (slept : list Z)
  : result response * list Z * list attempt :=
  match attempts with
  | [] => (Raise OutOfFuel, slept, [])
  | Caught :: rest => graphql_query rest (slept ++ [10])%list
  | Uncaught e :: rest => (Raise e, slept, rest)
  | Response status_code json :: rest =>
      if negb (status_code =? 200) then graphql_query rest (slept ++ [1 * 60])%list
      else (json, slept, rest)
  end.

(** The attempt makes the loop sleep and try again. *)
Definition retried (a : attempt) : bool :=
  match a with
  | Caught => true
  | Uncaught _ => false
  | Response status_code _ => negb (status_code =? 200)
  end.

(** The seconds slept after an attempt that is retried. *)
Definition pause (a : attempt) : Z :=
  match a with
  | Caught => 10
  | _ => 60
  end.

End Transport.

(* ================================================================== *)
(** * Interrupted runs *)

Module Resume.

Import Collector.

(** The file carries the date [since]. *)
Definition dated_as (since : string) (file : dataset_json) : Prop :=
  j_last_updated file = since.

(** The date of the last update with which a run on [today] starts: the one
    of the output file, or the day of the run when there is no file. *)
Definition date_before (today : date) (w : world) (filename : string) : string :=
  match PyDict.get (files w) filename with
  | Some file => j_last_updated file
  | None => strftime_Ymd today
  end.

(** An endpoint that answers the search for the pull requests of
    [gadgets] with a body of another shape. *)
Definition flaky : github :=
  fun req =>
    match req with
    | PR_QUERY q =>
        if (q_repo_name q =? "gadgets")%string then SearchIssues Scenario.nothing
        else Scenario.bob_and_carol req
    | _ => Scenario.bob_and_carol req
    end.

Definition widgets_and_gadgets : ContributionReportOptions :=
  Options [] ["acme/widgets"; "acme/gadgets"] None "monthly_activity.yaml".

End Resume.

(* ================================================================== *)
(** * What the endpoint serves of a repository *)

Module Served.

Import Collector Kind Pages Complete Tally.

(** The activities that a pull request of the endpoint stands for: its
    creation, its reviews with an author and a submission time, its comments
    with an author; each with its kind, the login and the timestamp.  A pull
    request of a deleted account stands for none. *)
Definition served_of_pr (pr : pr_node) : list (kind * string * string) :=
  match pr_author pr with
  | None => []
  | Some login =>
      ((Prs, login, pr_createdAt pr)
       :: map (fun '(l, s) => (Reviews, l, s)) (kept_reviews (nodes (pr_reviews pr)))
       ++ map (fun '(l, s) => (PrComments, l, s))
            (kept_comments (nodes (pr_comments pr))))%list
  end.

Definition served_of_issue (issue : issue_node) : list (kind * string * string) :=
  match issue_author issue with
  | None => []
  | Some login =>
      (Issues, login, issue_createdAt issue)
      :: map (fun '(l, s) => (IssueComments, l, s))
           (kept_comments (nodes (issue_comments issue)))
  end.

(** The counter key of the month of a timestamp. *)
Definition stamp_month (timestamp : string) : string :=
  match parse_github_time timestamp with
  | Ok t => month_key (dt_date t)
  | Raise _ => EmptyString
  end.

Definition is_served (k : kind) (login key : string) (act : kind * string * string)
  : bool :=
  Kind.eqb (fst (fst act)) k
  && (snd (fst act) =? login)%string
  && (stamp_month (snd act) =? key)%string.

(** The number of served activities of kind [k], by [login], in the month
    with key [key]. *)
Definition served_count (k : kind) (login key : string)
    (acts : list (kind * string * string)) : Z :=
  Z.of_nat (List.length (filter (is_served k login key) acts)).

(** The timestamp of the activity parses to a month of the window. *)
Definition timely (today : date) (act : kind * string * string) : Prop :=
  exists t,
    parse_github_time (snd act) = Ok t
    /\ Window.covers today (year (dt_date t)) (month (dt_date t)).

(** The event that [main] counts is the served activity. *)
Definition counts_as (act : kind * string * string) (e : event) : Prop :=
  ev_kind e = fst (fst act)
  /\ ev_login e = snd (fst act)
  /\ exists t, parse_github_time (snd act) = Ok t /\ ev_date e = dt_date t.

(** All that the endpoint serves of a repository. *)
Definition served (pr_pages : list (connection pr_node))
    (issue_pages : list (connection issue_node)) : list (kind * string * string) :=
  (flat_map served_of_pr (flat_map nodes pr_pages)
   ++ flat_map served_of_issue (flat_map nodes issue_pages))%list.

End Served.

(* ================================================================== *)
(** * The searches of a run *)

Module Searched.

Import Collector.

(** The date from which a run whose dataset loads as [loaded] searches a
    repository. *)
Definition date_for (loaded : output_data) (full_repo_name : string) : string :=
  if set_mem full_repo_name (repos_visited loaded) then last_updated loaded
  else "2013-01-01".

(** The first request of [query_issues]. *)
Definition first_issue_request (org_name repo_name last_updated : string) : request :=
  ISSUE_QUERY (Query org_name repo_name "null" "null" last_updated "null").


(** The names that [query_org_repos_from_name] returns for the
    organization: they depend on the endpoint, not on the world. *)
Definition listing (gh : github) (fuel : nat) (org_name : string)
    (token : option string) : result (list string) :=
  fst (query_org_repos_from_name gh fuel org_name token (World PyDict.empty [])).

End Searched.

(* ================================================================== *)
(** * Timestamps of GitHub *)

Module Timestamp.

(** A date and time of a four-digit year, as [datetime.datetime] accepts
    them. *)
Definition four_digit_year (dt : datetime) : bool :=
  (1000 <=? year (dt_date dt)) && valid_date (dt_date dt)
  && (0 <=? hour dt) && (hour dt <=? 23)
  && (0 <=? minute dt) && (minute dt <=? 59)
  && (0 <=? second dt) && (second dt <=? 59).

(** The timestamp of [dt] as GitHub serves it, zero-padded and in UTC:
    ['%d-%02d-%02dT%02d:%02d:%02dZ'], which for a four-digit year is
    [dt.strftime('%Y-%m-%dT%H:%M:%SZ')]. *)
Definition github_time (dt : datetime) : string :=
  pct_d (year (dt_date dt)) ++ "-" ++ pct_02d (month (dt_date dt)) ++ "-"
  ++ pct_02d (day (dt_date dt)) ++ "T" ++ pct_02d (hour dt) ++ ":"
  ++ pct_02d (minute dt) ++ ":" ++ pct_02d (second dt) ++ "Z".

(** The year is written as its two halves. *)
Definition year_in_halves (y : Z) : bool :=
  (pct_d y =? pct_02d (y / 100) ++ pct_02d (y mod 100))%string.

End Timestamp.

(* ================================================================== *)
(** * Facts about the runtime *)

Lemma rbind_Ok {A B : Type} (c : result A) (k : A -> result B) (b : B) :
  rbind c k = Ok b -> exists a, c = Ok a /\ k a = Ok b.
Proof.
  destruct c as [a|e]; simpl; intros H; [exists a; auto | discriminate].
Qed.

Lemma for_each_app {A S : Type} (body : A -> S -> result S) (xs ys : list A) (acc : S) :
  for_each body (xs ++ ys)%list acc = rbind (for_each body xs acc) (for_each body ys).
Proof.
  revert acc; induction xs as [|x xs IH]; intros acc; simpl; [reflexivity|].
  destruct (body x acc); simpl; auto.
Qed.

Lemma in_range (lo hi x : Z) : In x (range lo hi) <-> lo <= x < hi.
Proof.
  unfold range; rewrite in_map_iff; split.
  - intros (i & <- & Hi); apply in_seq in Hi; lia.
  - intros H; exists (Z.to_nat (x - lo)); split; [lia|].
    apply in_seq; lia.
Qed.

Lemma range_empty (lo hi : Z) : hi <= lo -> range lo hi = [].
Proof.
  intros H; unfold range.
  replace (Z.to_nat (hi - lo)) with 0%nat by lia; reflexivity.
Qed.

Module PyDictFacts.

Import PyDict.

Section Facts.
Context {V : Type}.
Implicit Types (d : t V) (k : string) (v : V).

Lemma get_set_same d k v : get (set d k v) k = Some v.
Proof.
  induction d as [|[k' v'] d IH]; simpl.
  - rewrite String.eqb_refl; reflexivity.
  - destruct (String.eqb k' k) eqn:E; simpl; rewrite E; auto.
Qed.

Lemma get_set_other d k k' v : k <> k' -> get (set d k v) k' = get d k'.
Proof.
  intros Hne; induction d as [|[k0 v0] d IH]; simpl.
  - apply String.eqb_neq in Hne; rewrite Hne; reflexivity.
  - destruct (String.eqb k0 k) eqn:E; simpl.
    + apply String.eqb_eq in E; subst k0.
      apply String.eqb_neq in Hne; rewrite Hne; reflexivity.
    + destruct (String.eqb k0 k'); auto.
Qed.

Lemma get_None d k : get d k = None <-> ~ In k (keys d).
Proof.
  induction d as [|[k' v'] d IH]; simpl; [tauto|].
  destruct (String.eqb k' k) eqn:E.
  - apply String.eqb_eq in E; split; [discriminate | tauto].
  - apply String.eqb_neq in E; rewrite IH; tauto.
Qed.

Lemma get_Some_in d k v : get d k = Some v -> In (k, v) d.
Proof.
  induction d as [|[k' v'] d IH]; simpl; [discriminate|].
  destruct (String.eqb k' k) eqn:E; [|auto].
  apply String.eqb_eq in E; intros [= ->]; subst; auto.
Qed.

Lemma in_keys_get d k : In k (keys d) -> exists v, get d k = Some v.
Proof.
  intros H; destruct (get d k) eqn:E; [eauto|].
  apply get_None in E; contradiction.
Qed.

Lemma get_in_keys d k v : get d k = Some v -> In k (keys d).
Proof.
  intros H; apply get_Some_in in H.
  apply in_map_iff; exists (k, v); auto.
Qed.

Lemma in_get d k v : wf d -> In (k, v) d -> get d k = Some v.
Proof.
  unfold wf; induction d as [|[k' v'] d IH]; simpl; [tauto|].
  intros Hnd [H|H]; inversion Hnd as [|? ? Hnot Hnd']; subst.
  - injection H as -> ->; rewrite String.eqb_refl; reflexivity.
  - destruct (String.eqb k' k) eqn:E; [|auto].
    apply String.eqb_eq in E; subst k'.
    exfalso; apply Hnot, in_map_iff; exists (k, v); auto.
Qed.

Lemma keys_set_in d k v : In k (keys d) -> keys (set d k v) = keys d.
Proof.
  induction d as [|[k' v'] d IH]; simpl; [tauto|].
  destruct (String.eqb k' k) eqn:E; simpl; [reflexivity|].
  apply String.eqb_neq in E; intros [H|H]; [contradiction|].
  f_equal; auto.
Qed.

Lemma set_new d k v : ~ In k (keys d) -> set d k v = (d ++ [(k, v)])%list.
Proof.
  induction d as [|[k' v'] d IH]; simpl; [reflexivity|].
  intros H; destruct (String.eqb k' k) eqn:E.
  - apply String.eqb_eq in E; tauto.
  - f_equal; apply IH; tauto.
Qed.

Lemma keys_set_new d k v : ~ In k (keys d) -> keys (set d k v) = (keys d ++ [k])%list.
Proof.
  intros H; rewrite set_new by assumption.
  unfold keys; rewrite map_app; reflexivity.
Qed.

Lemma in_keys_set d k k' v : In k' (keys (set d k v)) <-> k' = k \/ In k' (keys d).
Proof.
  induction d as [|[k0 v0] d IH]; simpl; [intuition congruence|].
  destruct (String.eqb k0 k) eqn:E; simpl.
  - apply String.eqb_eq in E; subst; intuition congruence.
  - rewrite IH; intuition congruence.
Qed.

Lemma wf_set d k v : wf d -> wf (set d k v).
Proof.
  unfold wf; intros H.
  destruct (in_dec string_dec k (keys d)) as [Hin|Hout].
  - rewrite keys_set_in; assumption.
  - rewrite keys_set_new by assumption.
    apply NoDup_app; [assumption | repeat constructor; simpl; tauto |].
    intros x Hx [<-|[]]; contradiction.
Qed.

Lemma set_set d k v v' : set (set d k v) k v' = set d k v'.
Proof.
  induction d as [|[k0 v0] d IH]; simpl.
  - rewrite String.eqb_refl; reflexivity.
  - destruct (String.eqb k0 k) eqn:E; simpl; rewrite E; [reflexivity|].
    f_equal; apply IH.
Qed.

Lemma contains_true d k : contains d k = true <-> In k (keys d).
Proof.
  unfold contains; destruct (get d k) eqn:E.
  - split; [intros _; eapply get_in_keys; eauto | reflexivity].
  - apply get_None in E; split; [discriminate | contradiction].
Qed.

Lemma values_set_all d k v :
  Forall (fun x => x = v) (values d) -> Forall (fun x => x = v) (values (set d k v)).
Proof.
  induction d as [|[k0 v0] d IH]; simpl; intros H.
  - repeat constructor.
  - inversion H; subst.
    destruct (String.eqb k0 k); simpl; constructor; auto.
Qed.

Lemma get_all_values d k v x :
  Forall (fun y => y = v) (values d) -> get d k = Some x -> x = v.
Proof.
  intros Hall Hget; apply get_Some_in in Hget.
  rewrite Forall_forall in Hall; apply Hall.
  apply in_map_iff; exists (k, x); auto.
Qed.

End Facts.

End PyDictFacts.

(* ================================================================== *)
(** * The month counters of an author *)

Module CountsFacts.

Import Collector Kind Window PyDictFacts.

Lemma counter_zero_month k y m self :
  counter k (zero_month y m self) = PyDict.set (counter k self) (stringdate y m) 0.
Proof. destruct k; reflexivity. Qed.

Lemma counter_with_counter k self c : counter k (with_counter k self c) = c.
Proof. destruct k; reflexivity. Qed.

Lemma counter_with_other k k' self c :
  k <> k' -> counter k' (with_counter k self c) = counter k' self.
Proof. destruct k, k'; intros H; try reflexivity; contradiction. Qed.

Lemma increment_unfold k self d activity :
  increment k self d activity =
  rbind (PyDict.iadd (counter k self) (stringdate (year d) (month d)) activity)
    (fun c => Ok (with_counter k self c)).
Proof. destruct k; reflexivity. Qed.

Lemma zero_all_app ms ms' c : zero_all (ms ++ ms') c = zero_all ms' (zero_all ms c).
Proof. unfold zero_all; apply fold_left_app. Qed.

Lemma counter_zero_months k y ms self :
  counter k (fold_left (fun self m => zero_month y m self) ms self)
  = zero_all (map (fun m => (y, m)) ms) (counter k self).
Proof.
  revert self; induction ms as [|m ms IH]; intros self; simpl; [reflexivity|].
  rewrite IH, counter_zero_month; reflexivity.
Qed.

Lemma counter_zero_years k ys ms self :
  counter k
    (fold_left (fun self y => fold_left (fun self m => zero_month y m self) ms self)
       ys self)
  = zero_all (flat_map (fun y => map (fun m => (y, m)) ms) ys) (counter k self).
Proof.
  revert self; induction ys as [|y ys IH]; intros self; simpl; [reflexivity|].
  rewrite IH, zero_all_app, counter_zero_months; reflexivity.
Qed.

(** Each counter of a fresh [AuthorCounts] is the empty dictionary with
    the months of the window set to zero. *)
Lemma counter_new k today :
  counter k (new_AuthorCounts today) = zero_all (months today) PyDict.empty.
Proof.
  unfold new_AuthorCounts, months.
  rewrite counter_zero_months, counter_zero_years, zero_all_app.
  destruct k; reflexivity.
Qed.

Lemma covers_in_months today y m : covers today y m -> In (y, m) (months today).
Proof.
  intros (Hy & Hm & Hlast); unfold months; apply in_or_app.
  destruct Hlast as [Hlt|[-> Hle]].
  - left; apply in_flat_map; exists y; split; [apply in_range; lia|].
    apply in_map, in_range; lia.
  - right; apply in_map, in_range; lia.
Qed.

Lemma in_months_inv today y m :
  In (y, m) (months today) ->
  1 <= m /\ ((2013 <= y < year today /\ m <= 12) \/ (y = year today /\ m <= month today)).
Proof.
  unfold months; intros H; apply in_app_or in H; destruct H as [H|H].
  - apply in_flat_map in H; destruct H as (y' & Hy' & H).
    apply in_map_iff in H; destruct H as (m' & [= <- <-] & Hm').
    apply in_range in Hy'; apply in_range in Hm'; lia.
  - apply in_map_iff in H; destruct H as (m' & [= <- <-] & Hm').
    apply in_range in Hm'; lia.
Qed.

Lemma in_keys_zero_all ms c key :
  In key (PyDict.keys (zero_all ms c))
  <-> In key (PyDict.keys c) \/ exists y m, In (y, m) ms /\ key = stringdate y m.
Proof.
  revert c; induction ms as [|[y m] ms IH]; intros c; simpl.
  - split; [auto | intros [H|(y & m & [] & _)]; exact H].
  - rewrite IH, in_keys_set; split.
    + intros [[->|H]|(y' & m' & H & ->)]; eauto 6.
    + intros [H|(y' & m' & [[= <- <-]|H] & ->)]; eauto 6.
Qed.

Lemma values_zero_all ms c :
  Forall (fun x => x = 0) (PyDict.values c) ->
  Forall (fun x => x = 0) (PyDict.values (zero_all ms c)).
Proof.
  revert c; induction ms as [|[y m] ms IH]; intros c H; simpl; [assumption|].
  apply IH, values_set_all, H.
Qed.

Lemma wf_zero_all ms c : PyDict.wf c -> PyDict.wf (zero_all ms c).
Proof.
  revert c; induction ms as [|[y m] ms IH]; intros c H; simpl; [assumption|].
  apply IH, wf_set, H.
Qed.

Lemma new_counter_zero k today key v :
  PyDict.get (counter k (new_AuthorCounts today)) key = Some v -> v = 0.
Proof.
  rewrite counter_new; apply get_all_values, values_zero_all; constructor.
Qed.

Lemma new_counter_key k today y m :
  covers today y m ->
  PyDict.get (counter k (new_AuthorCounts today)) (stringdate y m) = Some 0.
Proof.
  intros H.
  destruct (in_keys_get (counter k (new_AuthorCounts today)) (stringdate y m)) as [v Hv].
  - rewrite counter_new; apply in_keys_zero_all; right.
    exists y, m; split; [apply covers_in_months, H | reflexivity].
  - rewrite Hv; f_equal; eapply new_counter_zero; eauto.
Qed.

(** C6.  A fresh [AuthorCounts(today)] holds, in each of its five counters
    (the kinds [k]), the key of every month from 2013-01 to the month of
    [today] with the value 0; hence each of the five increment methods,
    called with a date in that window, finds its key: it raises nothing
    and leaves the added activity under that key. *)
Theorem fresh_counts_cover_window (today : date) (y m : Z) (k : kind) :
  covers today y m ->
  PyDict.get (counter k (new_AuthorCounts today)) (stringdate y m) = Some 0
  /\ forall (d : date) (activity : Z),
       year d = y -> month d = m ->
       exists self,
         increment k (new_AuthorCounts today) d activity = Ok self
         /\ PyDict.get (counter k self) (stringdate y m) = Some activity.
Proof.
  intros H; pose proof (new_counter_key k today y m H) as Hkey.
  split; [exact Hkey|].
  intros d activity <- <-.
  rewrite increment_unfold; unfold PyDict.iadd; rewrite Hkey; simpl.
  eexists; split; [reflexivity|].
  rewrite counter_with_counter, get_set_same; reflexivity.
Qed.

Lemma fresh_counts_cover_window_witness :
  covers (Date 2024 4 2) 2023 7
  /\ PyDict.get (reviews_by_month (new_AuthorCounts (Date 2024 4 2))) "2023-07" = Some 0.
Proof.
  assert (H : covers (Date 2024 4 2) 2023 7) by (unfold covers; simpl; lia).
  split; [exact H|].
  exact (proj1 (fresh_counts_cover_window (Date 2024 4 2) 2023 7 Reviews H)).
Defined.

End CountsFacts.

(* ================================================================== *)
(** * Loading and persisting the dataset *)

Module PersistFacts.
Import Collector Kind Window Persisted PyDictFacts CountsFacts.

Lemma reads_back_table :
  forallb (fun y => forallb (reads_back y) (range 1 13)) (range 1000 10000) = true.
Proof. vm_compute; reflexivity. Qed.

Lemma strptime_stringdate y m :
  1000 <= y <= 9999 -> 1 <= m <= 12 -> strptime_Ym (stringdate y m) = Ok (Date y m 1).
Proof.
  intros Hy Hm; pose proof reads_back_table as T.
  rewrite forallb_forall in T.
  assert (Hin : In y (range 1000 10000)) by (apply in_range; lia).
  specialize (T y Hin); rewrite forallb_forall in T.
  assert (Hin' : In m (range 1 13)) by (apply in_range; lia).
  specialize (T m Hin'); unfold reads_back in T.
  destruct (strptime_Ym (stringdate y m)) as [[y' m' d']|]; [|discriminate].
  simpl in T; apply andb_prop in T; destruct T as [T Hd].
  apply andb_prop in T; destruct T as [Hy' Hm'].
  f_equal; f_equal; lia.
Qed.

Lemma set_get_same {V} (d : PyDict.t V) k v : PyDict.get d k = Some v -> PyDict.set d k v = d.
Proof.
  induction d as [|[k' v'] d IH]; simpl; [discriminate|].
  destruct (String.eqb k' k) eqn:E; [intros [= ->]; reflexivity|].
  intros H; f_equal; auto.
Qed.

Lemma with_counter_same k self : with_counter k self (counter k self) = self.
Proof. destruct k, self; reflexivity. Qed.

Lemma with_counter_twice k self c c' :
  with_counter k (with_counter k self c) c' = with_counter k self c'.
Proof. destruct k; reflexivity. Qed.

Lemma load_counter_cons inc author key a entries contrib :
  load_counter inc author ((key, a) :: entries) contrib
  = rbind (rbind (strptime_Ym key)
             (fun d => update_at contrib author (fun self => inc self d a)))
      (load_counter inc author entries).
Proof. reflexivity. Qed.

Lemma add_all_cons key a entries c :
  add_all ((key, a) :: entries) c = rbind (PyDict.iadd c key a) (add_all entries).
Proof. reflexivity. Qed.

Lemma load_counter_add_all k author entries contrib self :
  readable entries ->
  PyDict.get contrib author = Some self ->
  load_counter (increment k) author entries contrib
  = rbind (add_all entries (counter k self))
      (fun c => Ok (PyDict.set contrib author (with_counter k self c))).
Proof.
  revert contrib self; induction entries as [|[key a] entries IH];
    intros contrib self Hread Hget.
  - simpl. rewrite with_counter_same, set_get_same; auto.
  - rewrite load_counter_cons, add_all_cons.
    destruct (Hread key a (or_introl eq_refl)) as (d & -> & Hkey); simpl.
    unfold update_at, PyDict.getitem; rewrite Hget; simpl.
    rewrite increment_unfold, Hkey.
    destruct (PyDict.iadd (counter k self) key a) as [c1|e]; simpl; [|reflexivity].
    rewrite (IH _ (with_counter k self c1)).
    + rewrite counter_with_counter.
      destruct (add_all entries c1); simpl; [|reflexivity].
      rewrite set_set, with_counter_twice; reflexivity.
    + intros key' a' H; apply (Hread key' a'); right; exact H.
    + apply get_set_same.
Qed.

Lemma rbind_ret {A} (c : result A) : rbind c Ok = c.
Proof. destruct c; reflexivity. Qed.

Lemma add_all_spec entries c :
  PyDict.wf entries ->
  incl (PyDict.keys entries) (PyDict.keys c) ->
  exists c',
    add_all entries c = Ok c'
    /\ PyDict.keys c' = PyDict.keys c
    /\ forall key,
         PyDict.get c' key
         = match PyDict.get entries key with
           | Some a => option_map (fun v => v + a) (PyDict.get c key)
           | None => PyDict.get c key
           end.
Proof.
  revert c; induction entries as [|[k0 a0] entries IH]; intros c Hwf Hincl.
  - exists c; repeat split; reflexivity.
  - inversion Hwf as [|? ? Hnot Hwf']; subst.
    destruct (in_keys_get c k0) as [v Hv]; [apply Hincl; left; reflexivity|].
    rewrite add_all_cons; unfold PyDict.iadd; rewrite Hv; simpl.
    assert (Hk : PyDict.keys (PyDict.set c k0 (v + a0)) = PyDict.keys c)
      by (apply keys_set_in; eapply get_in_keys; eauto).
    destruct (IH (PyDict.set c k0 (v + a0)) Hwf') as (c' & Hc' & Hkeys & Hget).
    { rewrite Hk; intros x Hx; apply Hincl; right; exact Hx. }
    exists c'; split; [exact Hc'|]; split; [congruence|].
    intros key; rewrite Hget; simpl.
    destruct (String.eqb k0 key) eqn:E.
    + apply String.eqb_eq in E; subst key.
      apply get_None in Hnot; rewrite Hnot, get_set_same, Hv; reflexivity.
    + apply String.eqb_neq in E.
      rewrite get_set_other by assumption; reflexivity.
Qed.

Lemma kind_eq_dec (a b : kind) : {a = b} + {a <> b}.
Proof. decide equality. Qed.

Lemma load_kinds ks author stored contrib self :
  NoDup ks ->
  (forall k, In k ks ->
     readable (stored_counter k stored)
     /\ PyDict.wf (stored_counter k stored)
     /\ incl (PyDict.keys (stored_counter k stored)) (PyDict.keys (counter k self))) ->
  PyDict.get contrib author = Some self ->
  exists self',
    for_each
      (fun k contrib => load_counter (increment k) author (stored_counter k stored) contrib)
      ks contrib
    = Ok (PyDict.set contrib author self')
    /\ (forall k, In k ks ->
          forall key,
            PyDict.get (counter k self') key
            = match PyDict.get (stored_counter k stored) key with
              | Some a => option_map (fun v => v + a) (PyDict.get (counter k self) key)
              | None => PyDict.get (counter k self) key
              end)
    /\ (forall k, ~ In k ks -> counter k self' = counter k self).
Proof.
  revert contrib self; induction ks as [|k ks IH]; intros contrib self Hnd Hok Hget.
  - exists self; simpl; split; [|split; [tauto | reflexivity]].
    rewrite set_get_same; auto.
  - inversion Hnd as [|? ? Hnot Hnd']; subst.
    destruct (Hok k (or_introl eq_refl)) as (Hread & Hwf & Hincl).
    destruct (add_all_spec _ _ Hwf Hincl) as (c' & Hc' & Hkeys & Hc'get).
    simpl; rewrite (load_counter_add_all k author _ contrib self Hread Hget), Hc'; simpl.
    destruct (IH (PyDict.set contrib author (with_counter k self c'))
                (with_counter k self c') Hnd') as (self' & Hrun & Hin & Hout).
    { intros k' Hk'; destruct (Hok k' (or_intror Hk')) as (R & W & I).
      rewrite counter_with_other by (intros ->; contradiction); auto. }
    { apply get_set_same. }
    exists self'; rewrite Hrun, set_set; split; [reflexivity|]; split.
    + intros k' [<-|Hk'] key.
      * rewrite (Hout k Hnot), counter_with_counter; apply Hc'get.
      * rewrite (Hin k' Hk' key), counter_with_other by (intros ->; contradiction).
        reflexivity.
    + intros k' Hk'; rewrite (Hout k') by (simpl in Hk'; tauto).
      apply counter_with_other; intros ->; apply Hk'; left; reflexivity.
Qed.

Lemma load_author_kinds today data author stored contrib :
  PyDict.get (j_author_contrib data) author = Some stored ->
  load_author today data author contrib
  = for_each
      (fun k contrib => load_counter (increment k) author (stored_counter k stored) contrib)
      Kind.all (PyDict.set contrib author (new_AuthorCounts today)).
Proof.
  intros Hget; unfold load_author, PyDict.getitem; rewrite Hget; simpl.
  repeat (match goal with |- rbind ?c _ = rbind ?c _ => destruct c; simpl; [|reflexivity] end).
  symmetry; apply rbind_ret.
Qed.

Lemma load_author_spec today data author stored contrib :
  PyDict.get (j_author_contrib data) author = Some stored ->
  loadable today stored ->
  exists self,
    load_author today data author contrib = Ok (PyDict.set contrib author self)
    /\ loaded today stored self.
Proof.
  intros Hget Hok; rewrite (load_author_kinds _ _ _ _ _ Hget).
  destruct (load_kinds Kind.all author stored
              (PyDict.set contrib author (new_AuthorCounts today))
              (new_AuthorCounts today)) as (self & Hrun & Hin & _).
  - repeat constructor; simpl; intuition discriminate.
  - intros k _; apply Hok.
  - apply get_set_same.
  - exists self; rewrite Hrun, set_set; split; [reflexivity|].
    intros k key; rewrite Hin by (destruct k; simpl; tauto).
    destruct (PyDict.get (stored_counter k stored) key) as [a|] eqn:E; [|reflexivity].
    destruct (Hok k) as (_ & _ & Hincl).
    destruct (in_keys_get (counter k (new_AuthorCounts today)) key) as [v Hv].
    { apply Hincl; eapply get_in_keys; eauto. }
    rewrite Hv; simpl; rewrite (new_counter_zero _ _ _ _ Hv); reflexivity.
Qed.

Lemma for_each_cons {A S} (body : A -> S -> result S) x xs acc :
  for_each body (x :: xs) acc = rbind (body x acc) (for_each body xs).
Proof. reflexivity. Qed.

Lemma set_last {V} (d : PyDict.t V) k v v' :
  ~ In k (PyDict.keys d) -> PyDict.set (PyDict.set d k v) k v' = (d ++ [(k, v')])%list.
Proof. intros H; rewrite set_set; apply set_new, H. Qed.

Lemma load_authors today data entries acc :
  NoDup (PyDict.keys entries) ->
  (forall a, In a (PyDict.keys entries) -> ~ In a (PyDict.keys acc)) ->
  (forall a s, In (a, s) entries ->
     PyDict.get (j_author_contrib data) a = Some s /\ loadable today s) ->
  exists fresh,
    for_each (fun '(author, _) contrib => load_author today data author contrib)
      entries acc
    = Ok (acc ++ fresh)%list
    /\ Forall2 (fun e l => fst l = fst e /\ loaded today (snd e) (snd l)) entries fresh.
Proof.
  revert acc; induction entries as [|[a s] entries IH]; intros acc Hnd Hnew Hok.
  - exists []; rewrite app_nil_r; split; [reflexivity | constructor].
  - inversion Hnd as [|? ? Hnot Hnd']; subst.
    destruct (Hok a s (or_introl eq_refl)) as (Hget & Hload).
    destruct (load_author_spec today data a s acc Hget Hload) as (self & Hrun & Hself).
    assert (Hset : PyDict.set acc a self = (acc ++ [(a, self)])%list)
      by (apply set_new, Hnew; left; reflexivity).
    destruct (IH (acc ++ [(a, self)])%list Hnd') as (fresh & Hrest & Hall).
    { intros a' Ha' Hin; unfold PyDict.keys in Hin; rewrite map_app in Hin.
      apply in_app_or in Hin; destruct Hin as [Hin|[<-|[]]].
      - apply (Hnew a'); [right; exact Ha' | exact Hin].
      - contradiction. }
    { intros a' s' H; apply Hok; right; exact H. }
    exists ((a, self) :: fresh); split.
    + rewrite for_each_cons; cbv beta iota.
      rewrite Hrun, Hset; simpl rbind.
      rewrite Hrest, <- app_assoc; reflexivity.
    + constructor; [split; [reflexivity | exact Hself] | exact Hall].
Qed.

Lemma in_set_update s xs x : In x (set_update s xs) <-> In x s \/ In x xs.
Proof.
  unfold set_update; revert s; induction xs as [|y xs IH]; intros s; simpl; [tauto|].
  rewrite IH; unfold set_add, set_mem.
  destruct (existsb (String.eqb y) s) eqn:E.
  - apply existsb_exists in E; destruct E as (z & Hz & Ez).
    apply String.eqb_eq in Ez; subst z; intuition (subst; auto).
  - rewrite in_app_iff; simpl; intuition.
Qed.

Lemma in_set_of_list xs x : In x (set_of_list xs) <-> In x xs.
Proof. unfold set_of_list; rewrite in_set_update; simpl; tauto. Qed.

Lemma stored_counter_vars k self :
  stored_counter k (vars_AuthorCounts self) = counter k self.
Proof. destruct k; reflexivity. Qed.

(** A file persisted on [d] can be loaded on any date that is not before
    the month of [d]. *)
Lemma persisted_loadable d today stored :
  run_date d -> not_after d today -> counters_of d stored -> loadable today stored.
Proof.
  intros (Hy & Hm) Hle Hkeys k.
  assert (Hin : forall key, In key (PyDict.keys (stored_counter k stored)) ->
                exists y m, key = stringdate y m /\ 1000 <= y <= 9999 /\ 1 <= m <= 12
                            /\ covers today y m).
  { intros key Hkey; rewrite (Hkeys k), counter_new in Hkey.
    apply in_keys_zero_all in Hkey; destruct Hkey as [[]|(y & m & Hym & ->)].
    apply in_months_inv in Hym; exists y, m; split; [reflexivity|].
    unfold covers, not_after in *; lia. }
  split; [|split].
  - intros key a Hka.
    destruct (Hin key) as (y & m & -> & Hy' & Hm' & _).
    { apply in_map_iff; exists (key, a); auto. }
    exists (Date y m 1); split; [apply strptime_stringdate; assumption | reflexivity].
  - unfold PyDict.wf; rewrite (Hkeys k), counter_new.
    apply wf_zero_all; constructor.
  - intros key Hkey; destruct (Hin key Hkey) as (y & m & -> & _ & _ & Hcov).
    eapply get_in_keys, new_counter_key, Hcov.
Qed.

Lemma load_data_spec d today data :
  run_date d -> not_after d today -> persisted_on d data ->
  exists out,
    load_data data today = Ok out
    /\ last_updated out = j_last_updated data
    /\ same_content data (encode out).
Proof.
  intros Hd Hle (Hwf & Hall).
  destruct (load_authors today data (j_author_contrib data) PyDict.empty)
    as (fresh & Hrun & Hfresh).
  - exact Hwf.
  - intros a _ [].
  - intros a s Has; split; [apply in_get; assumption|].
    eapply persisted_loadable; eauto.
  - unfold load_data, PyDict.items; rewrite Hrun; simpl.
    eexists; split; [reflexivity|]; split; [reflexivity|].
    assert (Hkeys : PyDict.keys (j_author_contrib (encode
              (OutputData (j_last_updated data) (set_of_list (j_repos_visited data)) fresh)))
            = PyDict.keys (j_author_contrib data)).
    { simpl; unfold PyDict.items, PyDict.keys; rewrite map_map.
      clear - Hfresh; induction Hfresh as [|e [a self] es ls [Hfst _] _ IH]; simpl;
        [reflexivity|].
      simpl in Hfst; rewrite Hfst, IH; reflexivity. }
    split; [|split].
    + intros r; simpl; apply in_set_of_list.
    + exact Hkeys.
    + intros author stored Hget; apply get_Some_in in Hget.
      assert (Hex : exists self, In (author, self) fresh /\ loaded today stored self).
      { clear - Hfresh Hget.
        induction Hfresh as [|e [a self] es ls [Hfst Hl] _ IH]; [destruct Hget|].
        destruct Hget as [->|Hget].
        - simpl in *; subst a; exists self; auto.
        - destruct (IH Hget) as (self' & Hin & Hl'); exists self'; simpl; auto. }
      destruct Hex as (self & Hin & Hself).
      exists (vars_AuthorCounts self); split.
      * apply in_get; [unfold PyDict.wf; rewrite Hkeys; exact Hwf|].
        simpl; apply in_map_iff; exists (author, self); auto.
      * intros k key; rewrite stored_counter_vars, (Hself k key).
        destruct (PyDict.get (stored_counter k stored) key); [reflexivity|].
        destruct (PyDict.get (counter k (new_AuthorCounts today)) key) eqn:E; [|auto].
        right; f_equal; eapply new_counter_zero; eauto.
Qed.

(** C7.  A file persisted by a run on date [d], loaded with
    [load_existing_data] on a date [today] that is not before the month of
    [d] and written back at once with [write_out_data], keeps its content:
    the loading raises nothing, [last_updated] is unchanged, the visited
    repositories are the same set, the authors are the same, and every
    count of every counter of the file is found again; the months that
    were added hold zero. *)
Theorem reload_keeps_content (filename : string) (d today : date)
    (data : dataset_json) (w : world) :
  PyDict.get (files w) filename = Some data ->
  persisted_on d data ->
  run_date d ->
  not_after d today ->
  exists data',
    reload filename today w
    = (Ok tt, World (PyDict.set (files w) filename data') (requests w))
    /\ j_last_updated data' = j_last_updated data
    /\ same_content data data'.
Proof.
  intros Hfile Hp Hd Hle.
  destruct (load_data_spec d today data Hd Hle Hp) as (out & Hout & Hlast & Hsame).
  exists (encode out); split; [|split; [exact Hlast | exact Hsame]].
  unfold reload, mbind, load_existing_data, write_out_data.
  rewrite Hfile, Hout; reflexivity.
Qed.

Lemma widgets_file_persisted : persisted_on Scenario.run_date Scenario.widgets_file.
Proof.
  split.
  - vm_compute; repeat constructor; simpl; intuition discriminate.
  - intros author stored H.
    destruct H as [H|[H|[]]]; injection H as <- <-; intros k; destruct k;
      vm_compute; reflexivity.
Defined.

Lemma reload_keeps_content_witness :
  let w := World [("monthly_activity.yaml", Scenario.widgets_file)] [] in
  persisted_on Scenario.run_date Scenario.widgets_file
  /\ exists data',
       reload "monthly_activity.yaml" Scenario.later_date w
       = (Ok tt, World (PyDict.set (files w) "monthly_activity.yaml" data') (requests w))
       /\ j_last_updated data' = j_last_updated Scenario.widgets_file
       /\ same_content Scenario.widgets_file data'.
Proof.
  intros w; split; [exact widgets_file_persisted|].
  apply (reload_keeps_content "monthly_activity.yaml" Scenario.run_date
           Scenario.later_date Scenario.widgets_file w).
  - reflexivity.
  - exact widgets_file_persisted.
  - unfold run_date; simpl; lia.
  - unfold not_after; simpl; lia.
Defined.

(** The window only grows: a file persisted in a later month than that of
    [today] has a key that [AuthorCounts(today)] lacks, and loading it
    raises. *)
Example file_of_a_later_month_raises :
  load_data Scenario.widgets_file (Date 2024 3 1) = Raise KeyError.
Proof. vm_compute; reflexivity. Qed.

(** C7 as stated fails: the file that the run of 2024-04-02 persisted,
    loaded on 2024-03-31, raises [KeyError] (it has the key [2024-04], which
    the counters made on that day lack), and nothing is written back. *)
Lemma reload_in_an_earlier_month_raises :
  persisted_on Scenario.run_date Scenario.widgets_file
  /\ PyDict.get (files Scenario.second_run) "monthly_activity.yaml"
     = Some Scenario.widgets_file
  /\ reload "monthly_activity.yaml" (Date 2024 3 31) Scenario.second_run
     = (Raise KeyError, Scenario.second_run).
Proof.
  split; [exact widgets_file_persisted|]; split; vm_compute; reflexivity.
Qed.

End PersistFacts.

(* ================================================================== *)
(** * The pagination of pull requests *)

Module PaginationFacts.

Import Collector Pages PyDictFacts.

Lemma quoted_not_null c : (quoted c =? "null")%string = false.
Proof. reflexivity. Qed.

(** ** Pull requests of deleted accounts *)

Lemma record_deleted pr v : deleted pr -> record_pr pr v = Ok v.
Proof. unfold deleted, record_pr; intros ->; reflexivity. Qed.

Lemma record_authored_nodes prs v :
  for_each record_pr (filter authored prs) v = for_each record_pr prs v.
Proof.
  revert v; induction prs as [|pr prs IH]; intros v; simpl; [reflexivity|].
  unfold authored at 1; destruct (pr_author pr) eqn:E; simpl.
  - destruct (record_pr pr v); simpl; auto.
  - rewrite record_deleted by exact E; simpl; apply IH.
Qed.

Lemma pr_round_without_deleted results v :
  pr_round (Connection (pageInfo results) (filter authored (nodes results))) v
  = pr_round results v.
Proof. unfold pr_round; simpl; rewrite record_authored_nodes; reflexivity. Qed.

Lemma query_prs_loop_without_deleted gh fuel org_name repo_name token since v w :
  query_prs_loop (without_deleted gh) fuel org_name repo_name token since v w
  = query_prs_loop gh fuel org_name repo_name token since v w.
Proof.
  revert v w; induction fuel as [|fuel IH]; intros v w; simpl;
    destruct (has_next_page v); try reflexivity.
  unfold mbind, graphql_query, without_deleted, lift; simpl.
  destruct (gh _) as [results| |]; try reflexivity.
  rewrite pr_round_without_deleted.
  destruct (pr_round results v); [apply IH | reflexivity].
Qed.

Lemma query_issues_loop_without_deleted gh fuel org_name repo_name token since v w :
  query_issues_loop (without_deleted gh) fuel org_name repo_name token since v w
  = query_issues_loop gh fuel org_name repo_name token since v w.
Proof.
  revert v w; induction fuel as [|fuel IH]; intros v w; simpl;
    destruct (i_has_next_page v); try reflexivity.
  unfold mbind, graphql_query, without_deleted, lift; simpl.
  destruct (gh _) as [results|results|]; try reflexivity.
  destruct (for_each record_issue (nodes results) v); simpl; [apply IH | reflexivity].
Qed.

Lemma query_org_repos_loop_without_deleted gh fuel org_name token cur more acc w :
  query_org_repos_loop (without_deleted gh) fuel org_name token cur more acc w
  = query_org_repos_loop gh fuel org_name token cur more acc w.
Proof.
  revert cur more acc w; induction fuel as [|fuel IH]; intros cur more acc w; simpl;
    destruct more; try reflexivity.
  unfold mbind, graphql_query, without_deleted, lift; simpl.
  destruct (gh _) as [results|results|results]; try reflexivity.
  apply IH.
Qed.

Lemma for_eachM_ext {A S} (f g : A -> S -> M S) xs acc w :
  (forall x acc w, f x acc w = g x acc w) ->
  for_eachM f xs acc w = for_eachM g xs acc w.
Proof.
  intros H; revert acc w; induction xs as [|x xs IH]; intros acc w; simpl;
    [reflexivity|].
  unfold mbind; rewrite H; destruct (g x acc w) as [[a|e] w']; auto.
Qed.

Lemma visit_repo_without_deleted gh fuel options today org_name repo_name data w :
  visit_repo (without_deleted gh) fuel options today org_name repo_name data w
  = visit_repo gh fuel options today org_name repo_name data w.
Proof.
  unfold visit_repo, mbind, query_prs, query_issues.
  rewrite query_prs_loop_without_deleted.
  destruct (query_prs_loop gh _ _ _ _ _ _ w) as [[prs|e] w1]; [|reflexivity].
  destruct (lift _ w1) as [[contrib|e] w2]; [|reflexivity].
  rewrite query_issues_loop_without_deleted; reflexivity.
Qed.

Lemma main_without_deleted gh fuel options today w :
  main (without_deleted gh) fuel options today w = main gh fuel options today w.
Proof.
  unfold main.
  assert (Hrun :
    (data <- load_existing_data (output_file options) today ;;
     match explicit_repos (repos options) PyDict.empty with
     | None => mret 1
     | Some org_repos =>
         org_repos <- for_eachM (organization_repos (without_deleted gh) fuel options)
                        (orgs options) org_repos ;;
         data <- visit_all (without_deleted gh) fuel options today org_repos data ;;
         let data :=
           OutputData (strftime_Ymd today) (repos_visited data) (author_contrib data) in
         _ <- write_out_data (output_file options) data ;;
         mret 0
     end)%io w
    = (data <- load_existing_data (output_file options) today ;;
       match explicit_repos (repos options) PyDict.empty with
       | None => mret 1
       | Some org_repos =>
           org_repos <- for_eachM (organization_repos gh fuel options)
                          (orgs options) org_repos ;;
           data <- visit_all gh fuel options today org_repos data ;;
           let data :=
             OutputData (strftime_Ymd today) (repos_visited data) (author_contrib data) in
           _ <- write_out_data (output_file options) data ;;
           mret 0
       end)%io w).
  { unfold mbind.
    destruct (load_existing_data _ _ w) as [[data|e] w1]; [|reflexivity].
    destruct (explicit_repos _ _) as [org_repos|]; [|reflexivity].
    rewrite (for_eachM_ext (organization_repos (without_deleted gh) fuel options)
               (organization_repos gh fuel options)).
    2:{ intros org acc w'; unfold organization_repos, mbind, query_org_repos_from_name.
        rewrite query_org_repos_loop_without_deleted; reflexivity. }
    destruct (for_eachM _ _ _ w1) as [[org_repos'|e] w2]; [|reflexivity].
    unfold visit_all.
    rewrite (for_eachM_ext
               (fun '(org_name, names) data =>
                  for_eachM (visit_repo (without_deleted gh) fuel options today org_name)
                    names data)
               (fun '(org_name, names) data =>
                  for_eachM (visit_repo gh fuel options today org_name) names data)).
    2:{ intros [org_name names] acc w'; apply for_eachM_ext.
        intros; apply visit_repo_without_deleted. }
    reflexivity. }
  destruct (repos options), (orgs options); try reflexivity; exact Hrun.
Qed.

(** ** Pages of plain pull requests *)

Lemma record_plain pr v :
  plain pr ->
  exists p,
    record_pr pr v
    = Ok (PrVars (cursor v) "null" "null" (has_next_page v)
            (PyDict.set (pull_requests v) (pr_id pr) p))
    /\ stored_plain pr (pr_id pr, p).
Proof.
  intros (Hauthor & (t & Ht) & Hr & Hrn & Hc & Hcn).
  unfold record_pr; destruct (pr_author pr) as [login|] eqn:E; [|contradiction].
  unfold new_PullRequest; rewrite Ht, Hr, Hrn, Hc, Hcn; simpl.
  eexists; split; [reflexivity|].
  unfold stored_plain; simpl; rewrite E; auto.
Qed.

Lemma record_plain_nodes prs v :
  Forall plain prs ->
  reviews_cursor v = "null" -> comments_cursor v = "null" ->
  NoDup (PyDict.keys (pull_requests v) ++ map pr_id prs) ->
  exists fresh,
    for_each record_pr prs v
    = Ok (PrVars (cursor v) "null" "null" (has_next_page v)
            (pull_requests v ++ fresh)%list)
    /\ Forall2 stored_plain prs fresh.
Proof.
  revert v; induction prs as [|pr prs IH]; intros v Hall Hrc Hcc Hnd.
  - exists []; rewrite app_nil_r; split; [|constructor].
    destruct v; simpl in *; subst; reflexivity.
  - inversion Hall as [|? ? Hpr Hall']; subst.
    destruct (record_plain pr v Hpr) as (p & Hrec & Hp).
    assert (Hnew : ~ In (pr_id pr) (PyDict.keys (pull_requests v))).
    { intros Hin; apply NoDup_remove_2 in Hnd; apply Hnd, in_or_app; auto. }
    rewrite set_new in Hrec by exact Hnew.
    destruct (IH (PrVars (cursor v) "null" "null" (has_next_page v)
                    (pull_requests v ++ [(pr_id pr, p)])%list) Hall')
      as (fresh & Hrest & Hfresh); try reflexivity.
    { simpl; unfold PyDict.keys; rewrite map_app, <- app_assoc; exact Hnd. }
    exists ((pr_id pr, p) :: fresh); split; [|constructor; assumption].
    simpl; rewrite Hrec; simpl; simpl in Hrest; rewrite Hrest, <- app_assoc.
    reflexivity.
Qed.

(** ** The loop, one round at a time *)

Lemma query_prs_loop_step gh fuel org_name repo_name token since v w results v' :
  has_next_page v = true ->
  gh (pr_request org_name repo_name since v) = SearchPullRequests results ->
  pr_round results v = Ok v' ->
  query_prs_loop gh (S fuel) org_name repo_name token since v w
  = query_prs_loop gh fuel org_name repo_name token since v'
      (World (files w) (requests w ++ [pr_request org_name repo_name since v])%list).
Proof.
  intros Hnext Hreply Hround; simpl; rewrite Hnext.
  unfold mbind, graphql_query, lift; rewrite Hreply, Hround; reflexivity.
Qed.

Lemma query_prs_loop_done gh fuel org_name repo_name token since v w :
  has_next_page v = false ->
  query_prs_loop gh fuel org_name repo_name token since v w = (Ok (pull_requests v), w).
Proof. intros H; destruct fuel; simpl; rewrite H; reflexivity. Qed.

Lemma stored_plain_keys prs entries :
  Forall2 stored_plain prs entries -> PyDict.keys entries = map pr_id prs.
Proof.
  induction 1 as [|pr e prs es (Hid & _) _ IH]; simpl; [reflexivity|].
  rewrite Hid; f_equal; exact IH.
Qed.

(** C4.  When the endpoint holds 150 pull requests with authors and
    without reviews or comments, 100 on the first outer page and 50 on the
    second, [query_prs] terminates (two units of fuel are enough), issues
    exactly two requests, one per outer page, and returns a dictionary with
    one entry per pull request, in page order. *)
Theorem two_pages_two_fetches (gh : github) (org_name repo_name : string)
    (token : option string) (since : string) (page1 page2 : connection pr_node)
    (fuel : nat) (w : world) :
  gh (first_request org_name repo_name since) = SearchPullRequests page1 ->
  gh (next_request org_name repo_name since (pageInfo page1)) = SearchPullRequests page2 ->
  hasNextPage (pageInfo page1) = true ->
  hasNextPage (pageInfo page2) = false ->
  List.length (nodes page1) = 100%nat ->
  List.length (nodes page2) = 50%nat ->
  Forall plain (nodes page1 ++ nodes page2)%list ->
  NoDup (map pr_id (nodes page1 ++ nodes page2)%list) ->
  (2 <= fuel)%nat ->
  exists prs,
    query_prs gh fuel org_name repo_name token since w
    = (Ok prs,
       World (files w)
         ((requests w ++ [first_request org_name repo_name since])
          ++ [next_request org_name repo_name since (pageInfo page1)])%list)
    /\ PyDict.keys prs = map pr_id (nodes page1 ++ nodes page2)%list
    /\ Forall2 stored_plain (nodes page1 ++ nodes page2)%list prs
    /\ List.length prs = 150%nat.
Proof.
  intros H1 H2 Hmore Hlast Hlen1 Hlen2 Hplain Hnd Hfuel.
  destruct fuel as [|[|fuel]]; try lia.
  apply Forall_app in Hplain; destruct Hplain as [Hplain1 Hplain2].
  destruct (record_plain_nodes (nodes page1) (PrVars "null" "null" "null" true PyDict.empty)
              Hplain1 eq_refl eq_refl) as (fresh1 & Hrun1 & Hfresh1).
  { simpl; rewrite map_app in Hnd; apply NoDup_app_remove_r in Hnd; exact Hnd. }
  simpl in Hrun1.
  destruct (record_plain_nodes (nodes page2)
              (PrVars (quoted (endCursor (pageInfo page1))) "null" "null" true fresh1)
              Hplain2 eq_refl eq_refl) as (fresh2 & Hrun2 & Hfresh2).
  { change (NoDup (PyDict.keys fresh1 ++ map pr_id (nodes page2))%list).
    rewrite (stored_plain_keys _ _ Hfresh1), <- map_app; exact Hnd. }
  simpl in Hrun2.
  assert (Hall : Forall2 stored_plain (nodes page1 ++ nodes page2)%list
                   (fresh1 ++ fresh2)%list) by (apply Forall2_app; assumption).
  exists (fresh1 ++ fresh2)%list; split; [|split; [|split]].
  - unfold query_prs.
    erewrite query_prs_loop_step; [|reflexivity|exact H1|].
    2:{ unfold pr_round; rewrite Hrun1; simpl; unfold advance_prs; simpl.
        rewrite Hmore; reflexivity. }
    erewrite query_prs_loop_step; [|reflexivity|exact H2|].
    2:{ unfold pr_round; rewrite Hrun2; simpl; unfold advance_prs; simpl.
        rewrite Hlast; reflexivity. }
    rewrite query_prs_loop_done by reflexivity; reflexivity.
  - apply stored_plain_keys, Hall.
  - exact Hall.
  - apply Forall2_length in Hall; rewrite <- Hall, length_app; lia.
Qed.

Lemma distinct_NoDup xs : distinct xs = true -> NoDup xs.
Proof.
  induction xs as [|x xs IH]; simpl; intros H; constructor;
    apply andb_prop in H; destruct H as [Hx Hxs]; [|auto].
  intros Hin; apply negb_true_iff in Hx.
  assert (existsb (String.eqb x) xs = true)
    by (apply existsb_exists; exists x; split; [exact Hin | apply String.eqb_refl]).
  congruence.
Qed.

Lemma plain_pr_plain n : plain (Scenario.plain_pr n).
Proof.
  unfold plain; simpl; repeat split; try discriminate.
  eexists; vm_compute; reflexivity.
Qed.

Lemma two_pages_two_fetches_witness :
  exists prs,
    query_prs Scenario.two_pages 2 "acme" "widgets" None "2013-01-01" Scenario.start
    = (Ok prs,
       World (files Scenario.start)
         ((requests Scenario.start ++ [first_request "acme" "widgets" "2013-01-01"])
          ++ [next_request "acme" "widgets" "2013-01-01"
                (pageInfo Scenario.first_page)])%list)
    /\ PyDict.keys prs
       = map pr_id (nodes Scenario.first_page ++ nodes Scenario.second_page)%list
    /\ Forall2 stored_plain (nodes Scenario.first_page ++ nodes Scenario.second_page)%list
         prs
    /\ List.length prs = 150%nat.
Proof.
  apply (two_pages_two_fetches Scenario.two_pages "acme" "widgets" None "2013-01-01"
           Scenario.first_page Scenario.second_page 2 Scenario.start).
  - reflexivity.
  - reflexivity.
  - reflexivity.
  - reflexivity.
  - reflexivity.
  - reflexivity.
  - apply Forall_forall; intros pr Hin; apply in_app_or in Hin.
    destruct Hin as [Hin|Hin]; unfold Scenario.first_page, Scenario.second_page, nodes in Hin;
      apply in_map_iff in Hin; destruct Hin as (n & <- & _); apply plain_pr_plain.
  - apply distinct_NoDup; vm_compute; reflexivity.
  - lia.
Defined.

(** ** The scenarios of lost records *)

(** C1, on the pull request with 101 reviews.  The first round stores the
    100 reviews of the first page of reviews; the second round fetches the
    same outer page with the reviews cursor advanced, stores a new
    [PullRequest] under the same identity and adds the one review of the
    second page to it: the dictionary returned holds one review of the
    101. *)
Theorem many_reviews_lost :
  List.length (nodes (pr_reviews (Scenario.many_reviews_pr "null"))) = 100%nat
  /\ hasNextPage (pageInfo (pr_reviews (Scenario.many_reviews_pr "null"))) = true
  /\ exists prs pr,
       fst (query_prs Scenario.many_reviews 3 "acme" "widgets" None "2013-01-01"
              Scenario.start) = Ok prs
       /\ PyDict.get prs "PR_1" = Some pr
       /\ map review_login (reviews pr) = ["dave"].
Proof.
  split; [reflexivity|]; split; [reflexivity|].
  eexists; eexists; split; [vm_compute; reflexivity|].
  split; reflexivity.
Qed.

(** C3, as the code has it.  A run against an endpoint gives the same exit
    code, the same requests and the same file as a run against the endpoint
    with the pull requests of deleted accounts taken out of every answer:
    such a pull request adds nothing to any counter, neither for itself nor
    for the reviews and comments on it. *)
Theorem deleted_pr_is_skipped_whole (gh : github) (fuel : nat)
    (options : ContributionReportOptions) (today : date) (w : world) :
  main (without_deleted gh) fuel options today w = main gh fuel options today w.
Proof. apply main_without_deleted. Qed.

(** C3 as stated fails: the review by [carol] on the pull request of a
    deleted account is not counted. *)
Lemma deleted_pr_review_not_counted :
  pr_author Scenario.orphan_pr = None
  /\ In Scenario.carol_review (nodes (pr_reviews Scenario.orphan_pr))
  /\ review_author Scenario.carol_review = Some "carol"
  /\ exists w data,
       main Scenario.orphan 3 Scenario.widgets Scenario.run_date Scenario.start = (Ok 0, w)
       /\ PyDict.get (files w) "monthly_activity.yaml" = Some data
       /\ PyDict.get (j_author_contrib data) "carol" = None.
Proof.
  split; [reflexivity|]; split; [left; reflexivity|]; split; [reflexivity|].
  eexists; eexists; split; [vm_compute; reflexivity|].
  split; reflexivity.
Qed.

(** ** One round on a page with a single authored pull request *)

Lemma record_reviews_ok id rs prs p :
  PyDict.get prs id = Some p ->
  (forall r submitted, In r rs -> review_submittedAt r = Some submitted -> parses submitted) ->
  exists p',
    for_each (record_review id) rs prs = Ok (PyDict.set prs id p')
    /\ comments p' = comments p.
Proof.
  revert prs p; induction rs as [|r rs IH]; intros prs p Hget Htimes.
  - exists p; simpl; rewrite PersistFacts.set_get_same; auto.
  - assert (Hrest : forall r' submitted, In r' rs ->
              review_submittedAt r' = Some submitted -> parses submitted)
      by (intros r' s' Hin; apply Htimes; right; exact Hin).
    simpl; unfold record_review at 1.
    destruct (review_author r) as [login|]; [|simpl; eapply IH; eauto].
    destruct (review_submittedAt r) as [submitted|] eqn:E; [|simpl; eapply IH; eauto].
    destruct (Htimes r submitted (or_introl eq_refl) E) as (t & Ht).
    unfold update_at, PyDict.getitem, add_review, new_Review; rewrite Hget, Ht; simpl.
    edestruct (IH (PyDict.set prs id
                     (mkPullRequest (pr_login p) (pr_created_at_string p) (pr_created_at p)
                        (reviews p ++ [mkReview login submitted t])%list (comments p))))
      as (p' & Hrun & Hcomments); [apply get_set_same | exact Hrest |].
    exists p'; rewrite Hrun, set_set; split; [reflexivity | exact Hcomments].
Qed.

Lemma record_comments_ok id cs prs p :
  PyDict.get prs id = Some p ->
  (forall c, In c cs -> parses (comment_createdAt c)) ->
  exists p', for_each (record_comment id) cs prs = Ok (PyDict.set prs id p').
Proof.
  revert prs p; induction cs as [|c cs IH]; intros prs p Hget Htimes.
  - exists p; simpl; rewrite PersistFacts.set_get_same; auto.
  - assert (Hrest : forall c', In c' cs -> parses (comment_createdAt c'))
      by (intros c' Hin; apply Htimes; right; exact Hin).
    simpl; unfold record_comment at 1.
    destruct (comment_author c) as [login|]; [|simpl; eapply IH; eauto].
    destruct (Htimes c (or_introl eq_refl)) as (t & Ht).
    unfold update_at, PyDict.getitem, add_comment, new_Comment; rewrite Hget, Ht; simpl.
    edestruct (IH (PyDict.set prs id
                     (mkPullRequest (pr_login p) (pr_created_at_string p) (pr_created_at p)
                        (reviews p)
                        (comments p ++ [mkComment login (comment_createdAt c) t])%list)))
      as (p' & Hrun); [apply get_set_same | exact Hrest |].
    exists p'; rewrite Hrun, set_set; reflexivity.
Qed.

(** What [record_pr] leaves for a pull request with an author. *)
Lemma record_authored pr v :
  pr_author pr <> None -> well_timed pr ->
  exists p,
    record_pr pr v
    = Ok (PrVars (cursor v)
            (if hasNextPage (pageInfo (pr_reviews pr))
             then quoted (endCursor (pageInfo (pr_reviews pr))) else "null")
            (if hasNextPage (pageInfo (pr_reviews pr)) then comments_cursor v
             else if hasNextPage (pageInfo (pr_comments pr))
                  then quoted (endCursor (pageInfo (pr_comments pr))) else "null")
            (has_next_page v)
            (PyDict.set (pull_requests v) (pr_id pr) p))
    /\ (hasNextPage (pageInfo (pr_reviews pr)) = true -> comments p = []).
Proof.
  intros Hauthor ((t & Ht) & Hreviews & Hcomments).
  unfold record_pr; destruct (pr_author pr) as [login|]; [|contradiction].
  unfold new_PullRequest; rewrite Ht; simpl.
  destruct (record_reviews_ok (pr_id pr) (nodes (pr_reviews pr))
              (PyDict.set (pull_requests v) (pr_id pr)
                 (mkPullRequest login (pr_createdAt pr) t [] []))
              (mkPullRequest login (pr_createdAt pr) t [] []))
    as (p1 & Hrun1 & Hp1); [apply get_set_same | exact Hreviews |].
  rewrite Hrun1, set_set; simpl.
  destruct (hasNextPage (pageInfo (pr_reviews pr))).
  - exists p1; split; [reflexivity | intros _; exact Hp1].
  - destruct (record_comments_ok (pr_id pr) (nodes (pr_comments pr))
                (PyDict.set (pull_requests v) (pr_id pr) p1) p1)
      as (p2 & Hrun2); [apply get_set_same | exact Hcomments |].
    rewrite Hrun2, set_set; simpl.
    exists p2; split; [reflexivity | discriminate].
Qed.

Lemma record_deleted_nodes prs v : Forall deleted prs -> for_each record_pr prs v = Ok v.
Proof.
  induction 1 as [|pr prs Hpr _ IH]; simpl; [reflexivity|].
  rewrite record_deleted by exact Hpr; exact IH.
Qed.

(** C2, for the pages that hold one pull request with an author (the
    others, if any, being those of deleted accounts).  The round raises
    nothing and exactly one of four things happens, by priority: the
    reviews have a next page, and only the reviews cursor advances, the
    comments of the pull request staying unrecorded; else the comments
    have a next page, and the comments cursor advances, with the reviews
    cursor at its start; else the outer page has a next page, and the
    outer cursor advances, with both inner cursors at their start; else
    the loop ends. *)
Theorem lone_pr_round (results : connection pr_node) (before after : list pr_node)
    (pr : pr_node) (v : pr_vars) :
  nodes results = (before ++ pr :: after)%list ->
  Forall deleted before ->
  Forall deleted after ->
  pr_author pr <> None ->
  well_timed pr ->
  exists v',
    pr_round results v = Ok v'
    /\ cursors_after
         (hasNextPage (pageInfo (pr_reviews pr)))
         (hasNextPage (pageInfo (pr_comments pr)))
         (hasNextPage (pageInfo results))
         (endCursor (pageInfo (pr_reviews pr)))
         (endCursor (pageInfo (pr_comments pr)))
         (endCursor (pageInfo results)) v v'
    /\ (hasNextPage (pageInfo (pr_reviews pr)) = true ->
        exists p, PyDict.get (pull_requests v') (pr_id pr) = Some p /\ comments p = []).
Proof.
  intros Hnodes Hbefore Hafter Hauthor Htimes.
  destruct (record_authored pr v Hauthor Htimes) as (p & Hrec & Hp).
  unfold pr_round; rewrite Hnodes, for_each_app, (record_deleted_nodes _ _ Hbefore).
  simpl; rewrite Hrec; simpl; rewrite (record_deleted_nodes _ _ Hafter); simpl.
  eexists; split; [reflexivity|].
  unfold advance_prs, cursors_after; simpl.
  destruct (hasNextPage (pageInfo (pr_reviews pr))); simpl.
  - try rewrite quoted_not_null; simpl; split; [auto|].
    intros _; exists p; split; [apply get_set_same | auto].
  - destruct (hasNextPage (pageInfo (pr_comments pr))); simpl.
    + try rewrite quoted_not_null; simpl; split; [auto | discriminate].
    + destruct (hasNextPage (pageInfo results)); simpl; split; auto; discriminate.
Qed.

Lemma lone_pr_round_witness :
  exists v',
    pr_round (Connection Scenario.no_more [Scenario.orphan_pr; Scenario.busy_pr])
      Scenario.fresh_vars = Ok v'
    /\ cursors_after true false false (Some "R100") None None Scenario.fresh_vars v'
    /\ (true = true ->
        exists p, PyDict.get (pull_requests v') "PR_9" = Some p /\ comments p = []).
Proof.
  apply (lone_pr_round (Connection Scenario.no_more [Scenario.orphan_pr; Scenario.busy_pr])
           [Scenario.orphan_pr] [] Scenario.busy_pr Scenario.fresh_vars).
  - reflexivity.
  - repeat constructor.
  - constructor.
  - discriminate.
  - repeat split.
    + eexists; vm_compute; reflexivity.
    + intros r submitted [<-|[]] [= <-]; eexists; vm_compute; reflexivity.
    + intros c [].
Defined.

(** C2 as stated fails on two pages.  On the first, the only pull request
    is that of a deleted account: its reviews have a next page, yet the
    reviews cursor stays at its start and the loop ends.  On the second, the
    first of two pull requests has a next page of reviews and the second
    has none: the reviews cursor is back at its start after the second, and
    the outer cursor advances. *)
Lemma reviews_next_page_not_followed :
  (hasNextPage (pageInfo (pr_reviews Scenario.orphan_with_more_reviews)) = true
   /\ exists v',
        pr_round (Connection Scenario.no_more [Scenario.orphan_with_more_reviews])
          Scenario.fresh_vars = Ok v'
        /\ reviews_cursor v' = "null"
        /\ has_next_page v' = false)
  /\ (hasNextPage (pageInfo (pr_reviews Scenario.busy_pr)) = true
      /\ exists v',
           pr_round (Connection (PageInfo true (Some "P100"))
                       [Scenario.busy_pr; Scenario.quiet_pr])
             Scenario.fresh_vars = Ok v'
           /\ reviews_cursor v' = "null"
           /\ cursor v' = quoted (Some "P100")).
Proof.
  split; (split; [reflexivity|]); eexists; (split; [vm_compute; reflexivity|]);
    split; reflexivity.
Qed.

End PaginationFacts.

(* ================================================================== *)
(** * The plot calls of the renderer *)

Module GrapherFacts.

Import Grapher Kind Totals PyDictFacts.

Lemma iadd_setdefault d k a :
  PyDict.iadd (PyDict.setdefault d k 0) k a = Ok (PyDict.set d k (count_in d k + a)).
Proof.
  unfold PyDict.iadd, PyDict.setdefault, PyDict.contains, count_in.
  destruct (PyDict.get d k) as [v|] eqn:E.
  - rewrite E; reflexivity.
  - rewrite get_set_same, set_set; reflexivity.
Qed.

Lemma add_counter_cons since key a counter totals :
  add_counter since ((key, a) :: counter) totals
  = rbind
      (let '(total, overall) := totals in
       rbind (IsoDate key) (fun d =>
         if date_ltb d since then Ok (total, overall)
         else
           rbind (PyDict.iadd (PyDict.setdefault total key 0) key a) (fun total =>
           rbind (PyDict.iadd (PyDict.setdefault overall key 0) key a) (fun overall =>
           Ok (total, overall)))))
      (add_counter since counter).
Proof. destruct totals; reflexivity. Qed.

Lemma add_counter_spec since counter total overall :
  PyDict.wf counter ->
  (forall key, In key (PyDict.keys counter) -> exists d, IsoDate key = Ok d) ->
  exists total' overall',
    add_counter since counter (total, overall) = Ok (total', overall')
    /\ added since counter total total'
    /\ added since counter overall overall'.
Proof.
  revert total overall; induction counter as [|[k0 a0] counter IH];
    intros total overall Hwf Hkeys.
  - exists total, overall; split; [reflexivity|]; split; intros month; reflexivity.
  - inversion Hwf as [|? ? Hnot Hwf']; subst.
    assert (Hkeys' : forall key, In key (PyDict.keys counter) -> exists d, IsoDate key = Ok d)
      by (intros key Hin; apply Hkeys; right; exact Hin).
    destruct (Hkeys k0 (or_introl eq_refl)) as (d & Hd).
    apply get_None in Hnot.
    rewrite add_counter_cons, Hd; simpl rbind.
    destruct (date_ltb d since) eqn:Hlt.
    + destruct (IH total overall Hwf' Hkeys') as (t' & o' & Hrun & Ht & Ho).
      exists t', o'; split; [exact Hrun|].
      split; intros month; [rewrite (Ht month) | rewrite (Ho month)]; simpl;
        (destruct (String.eqb k0 month) eqn:E; [|reflexivity]);
        apply String.eqb_eq in E; subst month; rewrite Hnot;
        unfold counted; rewrite Hd, Hlt; reflexivity.
    + rewrite !iadd_setdefault; simpl rbind.
      destruct (IH (PyDict.set total k0 (count_in total k0 + a0))
                  (PyDict.set overall k0 (count_in overall k0 + a0)) Hwf' Hkeys')
        as (t' & o' & Hrun & Ht & Ho).
      exists t', o'; split; [exact Hrun|].
      split; intros month; [rewrite (Ht month) | rewrite (Ho month)]; simpl;
        (destruct (String.eqb k0 month) eqn:E;
         [ apply String.eqb_eq in E; subst month; rewrite Hnot, get_set_same;
           unfold counted; rewrite Hd, Hlt; reflexivity
         | apply String.eqb_neq in E; unfold count_in;
           rewrite get_set_other by exact E; reflexivity ]).
Qed.

Lemma author_totals_spec since contrib overall :
  well_keyed contrib ->
  exists total overall',
    author_totals since contrib overall = Ok (total, overall')
    /\ forall month,
         PyDict.get total month
         = if counted since month && mentioned contrib month
           then Some (activity contrib month) else None.
Proof.
  intros Hok; unfold author_totals.
  destruct (Hok Prs) as [W1 K1]; destruct (Hok Reviews) as [W2 K2];
    destruct (Hok PrComments) as [W3 K3]; destruct (Hok Issues) as [W4 K4];
    destruct (Hok IssueComments) as [W5 K5]; cbn [stored_counter] in *.
  destruct (add_counter_spec since _ PyDict.empty overall W1 K1) as (t1 & o1 & R1 & T1 & _).
  destruct (add_counter_spec since _ t1 o1 W2 K2) as (t2 & o2 & R2 & T2 & _).
  destruct (add_counter_spec since _ t2 o2 W3 K3) as (t3 & o3 & R3 & T3 & _).
  destruct (add_counter_spec since _ t3 o3 W4 K4) as (t4 & o4 & R4 & T4 & _).
  destruct (add_counter_spec since _ t4 o4 W5 K5) as (t5 & o5 & R5 & T5 & _).
  rewrite R1; simpl rbind; rewrite R2; simpl rbind; rewrite R3; simpl rbind;
    rewrite R4; simpl rbind.
  exists t5, o5; split; [exact R5|].
  intros month; unfold activity, mentioned, PyDict.contains; cbn [existsb Kind.all stored_counter].
  rewrite (T5 month); unfold count_in; rewrite (T4 month); unfold count_in;
    rewrite (T3 month); unfold count_in; rewrite (T2 month); unfold count_in;
    rewrite (T1 month); unfold count_in; cbn [PyDict.get PyDict.empty].
  destruct (counted since month);
    destruct (PyDict.get (j_prs_by_month contrib) month);
    destruct (PyDict.get (j_reviews_by_month contrib) month);
    destruct (PyDict.get (j_pr_comments_by_month contrib) month);
    destruct (PyDict.get (j_issues_by_month contrib) month);
    destruct (PyDict.get (j_issue_comments_by_month contrib) month);
    cbn [andb orb]; try reflexivity; f_equal; lia.
Qed.

Lemma labels_shift n len :
  map (label_from (n + 1)) (seq 0 len) = map (label_from n) (seq 1 len).
Proof.
  rewrite <- seq_shift, map_map; apply map_ext; intros i.
  unfold label_from; do 2 f_equal; lia.
Qed.

Lemma plot_author_skipped options a c v :
  filtered_out options a = true -> plot_author options (a, c) v = Ok v.
Proof. unfold plot_author; intros ->; reflexivity. Qed.

Lemma plot_author_shown options a c v total overall' :
  filtered_out options a = false ->
  author_totals (since options) c (overall_contributions v) = Ok (total, overall') ->
  plot_author options (a, c) v
  = Ok (LoopVars (author_number v + 1) overall'
          (plotted v ++ [Plot (PyDict.keys total) (PyDict.values total)
                           (if anonymize options
                            then "Developer " ++ pct_d (author_number v) else a)])%list).
Proof. unfold plot_author; intros -> ->; reflexivity. Qed.

Lemma filter_shown_cons options a c entries :
  filter (shown options) ((a, c) :: entries)
  = if filtered_out options a then filter (shown options) entries
    else (a, c) :: filter (shown options) entries.
Proof. simpl; unfold shown at 1; simpl; destruct (filtered_out options a); reflexivity. Qed.

Lemma plot_entries options entries v :
  anonymize options = true ->
  (forall a c, In (a, c) entries -> well_keyed c) ->
  exists v' fresh,
    for_each (plot_author options) entries v = Ok v'
    /\ plotted v' = (plotted v ++ fresh)%list
    /\ map plot_label fresh = map (label_from (author_number v)) (seq 0 (List.length fresh))
    /\ Forall2 (plots_author (since options)) (filter (shown options) entries) fresh.
Proof.
  intros Hanon; revert v; induction entries as [|[a c] entries IH]; intros v Hkeys.
  - exists v, []; rewrite app_nil_r; repeat split; constructor.
  - assert (Hkeys' : forall a' c', In (a', c') entries -> well_keyed c')
      by (intros a' c' Hin; eapply Hkeys; right; exact Hin).
    rewrite PersistFacts.for_each_cons, filter_shown_cons.
    destruct (filtered_out options a) eqn:E.
    + rewrite plot_author_skipped by exact E; simpl rbind; apply IH, Hkeys'.
    + destruct (author_totals_spec (since options) c (overall_contributions v))
        as (total & overall' & Hrun & _); [eapply Hkeys; left; reflexivity|].
      rewrite (plot_author_shown _ _ _ _ _ _ E Hrun), Hanon; simpl rbind.
      edestruct (IH (LoopVars (author_number v + 1) overall'
                       (plotted v ++ [Plot (PyDict.keys total) (PyDict.values total)
                                        ("Developer " ++ pct_d (author_number v))])%list)
                   Hkeys') as (v' & fresh & Hrest & Hplotted & Hlabels & Hall).
      cbn [plotted author_number] in Hplotted, Hlabels.
      exists v', (Plot (PyDict.keys total) (PyDict.values total)
                    ("Developer " ++ pct_d (author_number v)) :: fresh).
      split; [exact Hrest|]; split; [|split].
      * rewrite Hplotted, <- app_assoc; reflexivity.
      * cbn [map List.length seq plot_label]; f_equal.
        -- unfold label_from; rewrite Z.add_0_r; reflexivity.
        -- rewrite Hlabels; apply labels_shift.
      * constructor; [|exact Hall].
        exists (overall_contributions v), total, overall'; auto.
Qed.

(** C9.  On the dataset in which [alice] has two pull requests in 2023-01
    and one in 2023-02, the renderer started with [--since 2023-01] makes one
    plot call, with the months 2023-01 and 2023-02 and the totals 2 and 1;
    started with [--since 2023-02] it leaves 2023-01 out.  In general the
    totals of an author hold, for each month whose date is not before the
    start and which some counter mentions, the sum of the five counters, each
    with weight one, and hold nothing for any other month. *)
Theorem totals_of_alice_and_of_all :
  (plot_authors Scenario.since_2023_01
     (World [("monthly_activity.yaml", Scenario.alice_dataset)] [])
   = (Ok (LoopVars 2 [("2023-01", 2); ("2023-02", 1)]
            [Plot ["2023-01"; "2023-02"] [2; 1] "alice"]),
      World [("monthly_activity.yaml", Scenario.alice_dataset)] []))
  /\ (exists v,
        fst (plot_authors (Options [] false (Date 2023 2 1) "monthly_activity.yaml")
               (World [("monthly_activity.yaml", Scenario.alice_dataset)] [])) = Ok v
        /\ plotted v = [Plot ["2023-02"] [1] "alice"])
  /\ forall (since : date) (contrib : author_json) (overall : PyDict.t Z),
       well_keyed contrib ->
       exists total overall',
         author_totals since contrib overall = Ok (total, overall')
         /\ forall month,
              PyDict.get total month
              = if counted since month && mentioned contrib month
                then Some (activity contrib month) else None.
Proof.
  split; [vm_compute; reflexivity|].
  split; [eexists; split; vm_compute; reflexivity|].
  intros since contrib overall; apply author_totals_spec.
Qed.

Lemma alice_well_keyed :
  forall a c, In (a, c) (j_author_contrib Scenario.alice_dataset) -> well_keyed c.
Proof.
  intros a c [H|[]]; injection H as <- <-; intros k; split.
  - destruct k; repeat constructor; simpl; intuition discriminate.
  - destruct k; simpl; intros key Hkey; try contradiction.
    destruct Hkey as [<-|[<-|[]]]; eexists; vm_compute; reflexivity.
Defined.

Lemma totals_of_alice_and_of_all_witness :
  exists total overall',
    author_totals (Date 2023 1 1)
      (AuthorJson [("2023-01", 2); ("2023-02", 1)] PyDict.empty PyDict.empty
         PyDict.empty PyDict.empty) PyDict.empty = Ok (total, overall')
    /\ forall month,
         PyDict.get total month
         = if counted (Date 2023 1 1) month
              && mentioned (AuthorJson [("2023-01", 2); ("2023-02", 1)] PyDict.empty
                              PyDict.empty PyDict.empty PyDict.empty) month
           then Some (activity (AuthorJson [("2023-01", 2); ("2023-02", 1)] PyDict.empty
                                  PyDict.empty PyDict.empty PyDict.empty) month)
           else None.
Proof.
  apply (proj2 (proj2 totals_of_alice_and_of_all)).
  apply (alice_well_keyed "alice"); left; reflexivity.
Defined.

(** C10.  With [--anonymize], whatever the [--authors] filter, the plot
    calls are labelled "Developer 1", "Developer 2", ... without a gap, one
    per author that passes the filter and in the order of the dataset: the
    call number [i] draws the totals of the [i]-th author that passes, so an
    author that the filter skips uses no number. *)
Theorem developers_numbered_over_shown (options : ContributionReportOptions)
    (data : dataset_json) (w : world) :
  anonymize options = true ->
  PyDict.get (files w) (input_file options) = Some data ->
  (forall a c, In (a, c) (j_author_contrib data) -> well_keyed c) ->
  exists v,
    plot_authors options w = (Ok v, w)
    /\ map plot_label (plotted v)
       = map developer
           (seq 1 (List.length (filter (shown options) (j_author_contrib data))))
    /\ Forall2 (plots_author (since options))
         (filter (shown options) (j_author_contrib data)) (plotted v).
Proof.
  intros Hanon Hfile Hkeys.
  destruct (plot_entries options (j_author_contrib data) (LoopVars 1 PyDict.empty [])
              Hanon Hkeys) as (v & fresh & Hrun & Hplotted & Hlabels & Hall).
  simpl in Hplotted, Hlabels.
  exists v; unfold plot_authors; rewrite Hfile; unfold PyDict.items; rewrite Hrun.
  split; [reflexivity|]; rewrite Hplotted; split; [|exact Hall].
  rewrite Hlabels, (Forall2_length Hall), <- seq_shift, map_map.
  apply map_ext; intros i; unfold label_from, developer; do 2 f_equal; lia.
Qed.

Lemma three_authors_well_keyed :
  forall a c, In (a, c) (j_author_contrib Scenario.three_authors) -> well_keyed c.
Proof.
  intros a c [H|[H|[H|[]]]]; injection H as <- <-; intros k; split;
    try (destruct k; repeat constructor; simpl; intuition discriminate);
    destruct k; simpl; intros key Hkey; try contradiction;
    destruct Hkey as [<-|[]]; eexists; vm_compute; reflexivity.
Defined.

Lemma developers_numbered_over_shown_witness :
  let w := World [("monthly_activity.yaml", Scenario.three_authors)] [] in
  exists v,
    plot_authors Scenario.anonymous w = (Ok v, w)
    /\ map plot_label (plotted v)
       = map developer
           (seq 1 (List.length (filter (shown Scenario.anonymous)
                                  (j_author_contrib Scenario.three_authors))))
    /\ Forall2 (plots_author (since Scenario.anonymous))
         (filter (shown Scenario.anonymous) (j_author_contrib Scenario.three_authors))
         (plotted v).
Proof.
  intros w.
  apply (developers_numbered_over_shown Scenario.anonymous Scenario.three_authors w).
  - reflexivity.
  - reflexivity.
  - exact three_authors_well_keyed.
Defined.

Example developers_of_three_authors :
  exists v,
    fst (plot_authors Scenario.anonymous
           (World [("monthly_activity.yaml", Scenario.three_authors)] [])) = Ok v
    /\ map plot_label (plotted v) = ["Developer 1"; "Developer 2"]
    /\ map plot_y (plotted v) = [[2]; [5]].
Proof. eexists; split; [vm_compute; reflexivity|]; split; reflexivity. Qed.

End GrapherFacts.

(* ================================================================== *)
(** * The runs of the collector *)

Module RunFacts.

Import Collector Log PyDictFacts.

Lemma record_repos_slash_free (repos : list repo_node) acc :
  Forall (fun node => slash_free (repo_node_name node) = true) repos ->
  Forall (fun name => slash_free name = true) acc ->
  Forall (fun name => slash_free name = true)
    (fold_left (fun acc repo => record_repo repo acc) repos acc).
Proof.
  revert acc; induction repos as [|repo repos IH]; intros acc Hrepos Hacc; simpl;
    [exact Hacc|].
  inversion Hrepos; subst; apply IH; [assumption|].
  unfold record_repo; destruct (defaultBranchRef repo); [|exact Hacc].
  apply Forall_app; split; [exact Hacc | repeat constructor; assumption].
Qed.

(** ** The rules of [hoare] *)

Section Hoare.

Variable R : world -> world -> Prop.
Variable allowed : request -> Prop.

Hypothesis R_refl : forall w, R w w.
Hypothesis R_trans : forall w1 w2 w3, R w1 w2 -> R w2 w3 -> R w1 w3.
Hypothesis R_request :
  forall req w, allowed req -> R w (World (files w) (requests w ++ [req])%list).

Lemma hoare_ret {A} (a : A) (Q : A -> Prop) : Q a -> hoare R (mret a) Q.
Proof. intros HQ w; split; [apply R_refl | intros a' [= <-]; exact HQ]. Qed.

Lemma hoare_lift {A} (r : result A) (Q : A -> Prop) :
  (forall a, r = Ok a -> Q a) -> hoare R (lift r) Q.
Proof. intros HQ w; split; [apply R_refl | exact HQ]. Qed.

Lemma hoare_bind {A B} (c : M A) (k : A -> M B) (Q : A -> Prop) (Q' : B -> Prop) :
  hoare R c Q -> (forall a, Q a -> hoare R (k a) Q') -> hoare R (mbind c k) Q'.
Proof.
  intros Hc Hk w; destruct (Hc w) as (HR & HQ).
  unfold mbind; destruct (c w) as [[a|e] w1]; simpl in *.
  - destruct (Hk a (HQ a eq_refl) w1) as (HR' & HQ').
    split; [eapply R_trans; eauto | exact HQ'].
  - split; [exact HR | discriminate].
Qed.

Lemma hoare_post {A} (c : M A) (Q Q' : A -> Prop) :
  hoare R c Q -> (forall a, Q a -> Q' a) -> hoare R c Q'.
Proof. intros Hc HQ w; destruct (Hc w) as (HR & HQs); split; auto. Qed.

(** A property of the values that [c] returns may be added to [Q]. *)
Lemma hoare_value {A} (c : M A) (Q Q' : A -> Prop) :
  hoare R c Q -> (forall w a, fst (c w) = Ok a -> Q' a) ->
  hoare R c (fun a => Q a /\ Q' a).
Proof. intros Hc HQ' w; destruct (Hc w) as (HR & HQ); split; eauto. Qed.

Lemma hoare_graphql gh req token :
  allowed req -> hoare R (graphql_query gh req token) (fun resp => resp = gh req).
Proof.
  intros Hreq w; split; [apply R_request, Hreq | intros a [= <-]; reflexivity].
Qed.

(** The rule of a [for] loop: [Inv done acc] holds when the loop has gone
    through the items [done]. *)
Lemma hoare_for_each {A S} (body : A -> S -> M S) (Inv : list A -> S -> Prop)
    (before xs : list A) (acc : S) :
  (forall done x rest acc,
     (before ++ xs)%list = (done ++ x :: rest)%list ->
     Inv done acc -> hoare R (body x acc) (Inv (done ++ [x])%list)) ->
  Inv before acc ->
  hoare R (for_eachM body xs acc) (Inv (before ++ xs)%list).
Proof.
  revert before acc; induction xs as [|x xs IH]; intros before acc Hbody Hinv.
  - rewrite app_nil_r; apply hoare_ret, Hinv.
  - simpl; eapply hoare_bind.
    + apply (Hbody before x xs acc eq_refl Hinv).
    + intros acc' Hacc'.
      replace (before ++ x :: xs)%list with ((before ++ [x]) ++ xs)%list
        by (rewrite <- app_assoc; reflexivity).
      apply IH; [|exact Hacc'].
      intros done y rest acc'' Heq; apply (Hbody done y rest).
      rewrite <- Heq, <- app_assoc; reflexivity.
Qed.

(** The same with an invariant that does not look at the items. *)
Lemma hoare_for_each_inv {A S} (body : A -> S -> M S) (Inv : S -> Prop)
    (xs : list A) (acc : S) :
  (forall x acc, Inv acc -> hoare R (body x acc) Inv) ->
  Inv acc -> hoare R (for_eachM body xs acc) Inv.
Proof.
  intros Hbody; revert acc; induction xs as [|x xs IH]; intros acc Hinv; simpl.
  - apply hoare_ret, Hinv.
  - eapply hoare_bind; [apply Hbody, Hinv | exact IH].
Qed.

(** *** The three query loops *)

Lemma query_prs_loop_hoare gh fuel org_name repo_name token since v :
  (forall req, searches org_name repo_name since req -> allowed req) ->
  hoare R (query_prs_loop gh fuel org_name repo_name token since v) (fun _ => True).
Proof.
  intros Hreq; revert v; induction fuel as [|fuel IH]; intros v; simpl;
    destruct (has_next_page v); try (apply hoare_ret; exact I);
    try (apply hoare_lift; auto).
  eapply hoare_bind; [apply hoare_graphql, Hreq; simpl; auto|].
  intros resp _; destruct resp; try (apply hoare_lift; auto).
  eapply hoare_bind; [apply hoare_lift with (Q := fun _ => True); auto|].
  intros v' _; apply IH.
Qed.

Lemma query_issues_loop_hoare gh fuel org_name repo_name token since v :
  (forall req, searches org_name repo_name since req -> allowed req) ->
  hoare R (query_issues_loop gh fuel org_name repo_name token since v) (fun _ => True).
Proof.
  intros Hreq; revert v; induction fuel as [|fuel IH]; intros v; simpl;
    destruct (i_has_next_page v); try (apply hoare_ret; exact I);
    try (apply hoare_lift; auto).
  eapply hoare_bind; [apply hoare_graphql, Hreq; simpl; auto|].
  intros resp _; destruct resp; try (apply hoare_lift; auto).
  eapply hoare_bind; [apply hoare_lift with (Q := fun _ => True); auto|].
  intros v' _; apply IH.
Qed.

(** The names that the listing of an organization returns have no ['/']
    when those of the endpoint have none. *)
Lemma query_org_repos_loop_hoare gh fuel org_name token cur more acc :
  (forall c, allowed (ORG_QUERY org_name c)) ->
  (plain_names gh -> Forall (fun name => slash_free name = true) acc) ->
  hoare R (query_org_repos_loop gh fuel org_name token cur more acc)
    (fun names => plain_names gh -> Forall (fun name => slash_free name = true) names).
Proof.
  intros HP; revert cur more acc; induction fuel as [|fuel IH];
    intros cur more acc Hacc; simpl; destruct more;
    try (apply hoare_ret; exact Hacc); try (apply hoare_lift; discriminate).
  eapply hoare_bind; [apply hoare_graphql, HP|].
  intros resp Hresp; destruct resp as [| |results]; try (apply hoare_lift; discriminate).
  apply IH; intros Hgh; apply record_repos_slash_free; [|exact (Hacc Hgh)].
  apply Forall_forall; intros node Hnode; eapply Hgh; eauto.
Qed.

End Hoare.

(** ** The two relations *)




Lemma stored_refl I w : stored I w w.
Proof. intros filename data H; left; exact H. Qed.

Lemma stored_trans I w1 w2 w3 : stored I w1 w2 -> stored I w2 w3 -> stored I w1 w3.
Proof.
  intros H12 H23 filename data H; destruct (H23 filename data H) as [H2|HI]; auto.
Qed.

Lemma stored_request I req w :
  True -> stored I w (World (files w) (requests w ++ [req])%list).
Proof. intros _ filename data H; left; exact H. Qed.


Lemma stored_write filename data (I : dataset_json -> Prop) :
  I (encode data) -> hoare (stored I) (write_out_data filename data) (fun _ => True).
Proof.
  intros HI w; split; [|auto].
  intros f d; simpl; destruct (string_dec filename f) as [->|Hne].
  - rewrite get_set_same; intros [= <-]; right; exact HI.
  - rewrite get_set_other by exact Hne; auto.
Qed.



(** ** The rules for the request log *)










(** ** The requests of one repository *)

Lemma set_mem_true x s : set_mem x s = true <-> In x s.
Proof.
  unfold set_mem; rewrite existsb_exists; split.
  - intros (y & Hy & E); apply String.eqb_eq in E; subst; exact Hy.
  - intros H; exists x; split; [exact H | apply String.eqb_refl].
Qed.

Lemma in_set_add s x y : In y (set_add s x) <-> In y s \/ y = x.
Proof.
  unfold set_add; destruct (set_mem x s) eqn:E.
  - apply set_mem_true in E; intuition (subst; auto).
  - rewrite in_app_iff; simpl; intuition.
Qed.



(** ** The requests of all repositories *)



(** ** The repositories of a run *)




Lemma in_set_inv {V} (d : PyDict.t V) k v k' v' :
  In (k', v') (PyDict.set d k v) -> (k' = k /\ v' = v) \/ In (k', v') d.
Proof.
  induction d as [|[k0 v0] d IH]; simpl.
  - intros [[= <- <-]|[]]; auto.
  - destruct (String.eqb k0 k) eqn:E; simpl.
    + apply String.eqb_eq in E; subst k0; intros [[= <- <-]|H]; auto.
    + intros [H|H]; [auto | destruct (IH H); auto].
Qed.

Lemma tidy_set org_repos org_name names :
  tidy org_repos -> NoDup names -> Forall (fun name => slash_free name = true) names ->
  tidy (PyDict.set org_repos org_name names).
Proof.
  intros (Hwf & Hall) Hnd Hfree; split; [apply wf_set, Hwf|].
  intros o ns Hin; apply in_set_inv in Hin; destruct Hin as [[-> ->]|Hin]; eauto.
Qed.

Lemma tidy_setdefault org_repos org_name :
  tidy org_repos -> tidy (PyDict.setdefault org_repos org_name []).
Proof.
  intros H; unfold PyDict.setdefault; destruct (PyDict.contains org_repos org_name);
    [exact H | apply tidy_set; [exact H | constructor | constructor]].
Qed.

Lemma tidy_get org_repos org_name names :
  tidy org_repos -> PyDict.get org_repos org_name = Some names ->
  NoDup names /\ Forall (fun name => slash_free name = true) names.
Proof. intros (_ & Hall) Hget; apply (Hall org_name names), get_Some_in, Hget. Qed.

Lemma set_add_tidy names name :
  NoDup names -> Forall (fun n => slash_free n = true) names -> slash_free name = true ->
  NoDup (set_add names name) /\ Forall (fun n => slash_free n = true) (set_add names name).
Proof.
  intros Hnd Hfree Hname; unfold set_add; destruct (set_mem name names) eqn:E; [auto|].
  split.
  - apply NoDup_app; [exact Hnd | repeat constructor; simpl; tauto|].
    intros x Hx [<-|[]]; apply set_mem_true in Hx; congruence.
  - apply Forall_app; split; [exact Hfree | repeat constructor; exact Hname].
Qed.


Lemma split_slash_free s : Forall (fun part => slash_free part = true) (split "/" s).
Proof.
  induction s as [|c s IH]; simpl; [repeat constructor|].
  destruct (Ascii.eqb c "/") eqn:E; [constructor; [reflexivity | exact IH]|].
  destruct (split "/" s) as [|h tl]; [repeat constructor; simpl; rewrite E; reflexivity|].
  inversion IH; subst; constructor; [simpl; rewrite E; simpl; assumption | assumption].
Qed.

Lemma explicit_repos_cons entry rest org_repos :
  explicit_repos (entry :: rest) org_repos
  = if negb (List.length (split "/" entry) =? 2)%nat then None
    else explicit_repos rest
           (PyDict.set (PyDict.setdefault org_repos (nth 0 (split "/" entry) EmptyString) [])
              (nth 0 (split "/" entry) EmptyString)
              (set_add
                 (PyDict.getd
                    (PyDict.setdefault org_repos (nth 0 (split "/" entry) EmptyString) [])
                    (nth 0 (split "/" entry) EmptyString) [])
                 (nth 1 (split "/" entry) EmptyString))).
Proof. reflexivity. Qed.

Lemma explicit_repos_bad entries org_repos :
  (exists entry, In entry entries /\ ~ org_slash_repo entry) ->
  explicit_repos entries org_repos = None.
Proof.
  unfold org_slash_repo; revert org_repos; induction entries as [|e entries IH];
    intros org_repos (entry & Hin & Hbad); [destruct Hin|].
  rewrite explicit_repos_cons.
  destruct (List.length (split "/" e) =? 2)%nat eqn:E; [|reflexivity]; simpl.
  apply Nat.eqb_eq in E; destruct Hin as [->|Hin]; [contradiction|].
  apply IH; exists entry; auto.
Qed.

Lemma explicit_repos_good entries org_repos :
  Forall org_slash_repo entries -> tidy org_repos ->
  exists org_repos', explicit_repos entries org_repos = Some org_repos' /\ tidy org_repos'.
Proof.
  unfold org_slash_repo; revert org_repos; induction entries as [|e entries IH];
    intros org_repos Hall Htidy; [exists org_repos; auto|].
  inversion Hall as [|? ? He Hall']; subst.
  rewrite explicit_repos_cons, He; simpl.
  apply IH; [exact Hall'|].
  pose proof (tidy_setdefault org_repos (nth 0 (split "/" e) EmptyString) Htidy) as Ht.
  assert (Hpart : slash_free (nth 1 (split "/" e) EmptyString) = true).
  { pose proof (split_slash_free e) as Hparts; rewrite Forall_forall in Hparts.
    apply Hparts, nth_In; lia. }
  unfold PyDict.getd.
  destruct (PyDict.get _ _) as [names|] eqn:G.
  - destruct (tidy_get _ _ _ Ht G) as (Hnd & Hfree).
    destruct (set_add_tidy names _ Hnd Hfree Hpart); apply tidy_set; auto.
  - destruct (set_add_tidy [] (nth 1 (split "/" e) EmptyString)) as (Hnd & Hfree);
      [constructor | constructor | exact Hpart |].
    apply tidy_set; auto.
Qed.


(** ** [main] *)

Lemma main_unfold gh fuel options today :
  main gh fuel options today
  = match repos options, orgs options with
    | [], [] => mret 1
    | _, _ => mbind (load_existing_data (output_file options) today)
                (after_load gh fuel options today)
    end.
Proof. unfold main, after_load; destruct (repos options), (orgs options); reflexivity. Qed.

Lemma load_existing_data_world filename today w :
  snd (load_existing_data filename today w) = w.
Proof. unfold load_existing_data; destruct (PyDict.get (files w) filename); reflexivity. Qed.


Lemma load_existing_data_fields filename today w loaded :
  fst (load_existing_data filename today w) = Ok loaded ->
  match PyDict.get (files w) filename with
  | Some file =>
      last_updated loaded = j_last_updated file
      /\ forall name, set_mem name (repos_visited loaded) = true
                      <-> In name (j_repos_visited file)
  | None => repos_visited loaded = []
  end.
Proof.
  unfold load_existing_data; destruct (PyDict.get (files w) filename) as [file|]; simpl.
  - unfold load_data; destruct (for_each _ _ _); simpl; [|discriminate].
    intros [= <-]; simpl; split; [reflexivity|].
    intros name; rewrite set_mem_true; apply PersistFacts.in_set_of_list.
  - intros [= <-]; reflexivity.
Qed.


Lemma after_load_exit gh fuel options today data w code :
  Forall org_slash_repo (repos options) ->
  fst (after_load gh fuel options today data w) = Ok code -> code = 0.
Proof.
  intros Hall; unfold after_load.
  destruct (explicit_repos_good (repos options) PyDict.empty Hall) as (d & -> & _).
  { split; [constructor | intros ? ? []]. }
  unfold mbind.
  destruct (for_eachM _ _ _ w) as [[d'|e] w1]; [|discriminate].
  destruct (visit_all _ _ _ _ _ _ w1) as [[data'|e] w2]; [|discriminate].
  simpl; intros [= <-]; reflexivity.
Qed.

(** C8.  [main] returns 1 when neither [--repos] nor [--orgs] is given.
    It returns 1, having made no request and written nothing, when the
    dataset loads and some entry of [--repos] does not split on ['/'] into
    exactly two parts.  In every other case a run that returns at all (that
    raises nothing and does not run out of fuel) returns 0. *)
Theorem main_exit_codes (gh : github) (fuel : nat)
    (options : ContributionReportOptions) (today : date) (w : world) :
  (repos options = [] -> orgs options = [] ->
   main gh fuel options today w = (Ok 1, w))
  /\ ((exists entry, In entry (repos options) /\ ~ org_slash_repo entry) ->
      (exists loaded, fst (load_existing_data (output_file options) today w) = Ok loaded) ->
      main gh fuel options today w = (Ok 1, w))
  /\ ((repos options <> [] \/ orgs options <> []) ->
      Forall org_slash_repo (repos options) ->
      forall code, fst (main gh fuel options today w) = Ok code -> code = 0).
Proof.
  rewrite main_unfold; split; [|split].
  - intros -> ->; reflexivity.
  - intros Hbad (loaded & Hload).
    assert (Hrepos : repos options <> [])
      by (destruct Hbad as (entry & Hin & _); intros E; rewrite E in Hin; destruct Hin).
    pose proof (load_existing_data_world (output_file options) today w) as Hw.
    assert (Hrun : mbind (load_existing_data (output_file options) today)
                     (after_load gh fuel options today) w = (Ok 1, w)).
    { unfold mbind.
      destruct (load_existing_data (output_file options) today w) as [[data|e] w1];
        simpl in Hload, Hw; [|discriminate]; subst w1.
      unfold after_load; rewrite (explicit_repos_bad _ _ Hbad); reflexivity. }
    destruct (repos options); [contradiction | exact Hrun].
  - intros Hsome Hall code.
    assert (Hrun : fst (mbind (load_existing_data (output_file options) today)
                          (after_load gh fuel options today) w) = Ok code -> code = 0).
    { unfold mbind.
      destruct (load_existing_data (output_file options) today w) as [[data|e] w1];
        [|discriminate].
      apply after_load_exit, Hall. }
    destruct (repos options), (orgs options); try exact Hrun.
    destruct Hsome; contradiction.
Qed.


(** The two cases at work: the first run searches from the epoch, the
    second from the date of the first. *)
Example resume_dates_of_two_runs :
  map (fun req => match req with
                  | PR_QUERY q | ISSUE_QUERY q => q_last_updated q
                  | ORG_QUERY _ _ => EmptyString
                  end)
    (requests (snd (main Scenario.bob_and_carol 3 Scenario.widgets Scenario.run_date
                      Scenario.start)))
  = ["2013-01-01"; "2013-01-01"]
  /\ map (fun req => match req with
                     | PR_QUERY q | ISSUE_QUERY q => q_last_updated q
                     | ORG_QUERY _ _ => EmptyString
                     end)
       (requests (snd (main Scenario.bob_and_carol 3 Scenario.widgets Scenario.later_date
                         Scenario.second_run)))
     = ["2024-04-02"; "2024-04-02"].
Proof. split; vm_compute; reflexivity. Qed.

Lemma main_exit_codes_witness :
  main Scenario.bob_and_carol 3 Scenario.no_target Scenario.run_date Scenario.start
  = (Ok 1, Scenario.start)
  /\ main Scenario.bob_and_carol 3 Scenario.bad_entry Scenario.run_date Scenario.start
     = (Ok 1, Scenario.start)
  /\ exists code,
       fst (main Scenario.bob_and_carol 3 Scenario.widgets Scenario.run_date Scenario.start)
       = Ok code
       /\ code = 0.
Proof.
  split; [|split].
  - apply (proj1 (main_exit_codes Scenario.bob_and_carol 3 Scenario.no_target
                    Scenario.run_date Scenario.start)); reflexivity.
  - apply (proj1 (proj2 (main_exit_codes Scenario.bob_and_carol 3 Scenario.bad_entry
                           Scenario.run_date Scenario.start))).
    + exists "widgets"; split; [right; left; reflexivity|].
      unfold org_slash_repo; simpl; discriminate.
    + eexists; vm_compute; reflexivity.
  - exists 0; split; [vm_compute; reflexivity|].
    apply (proj2 (proj2 (main_exit_codes Scenario.bob_and_carol 3 Scenario.widgets
                           Scenario.run_date Scenario.start))).
    + left; discriminate.
    + repeat constructor.
    + vm_compute; reflexivity.
Defined.

(** C8 as stated fails: with the entry [widgets] in [--repos], which has no
    ['/'], and an output file of a later month than the day of the run,
    [main] raises [KeyError] and returns no exit code: the file is loaded
    before the entries are looked at. *)
Lemma bad_entry_with_later_file_raises :
  (exists entry, In entry (repos Scenario.bad_entry) /\ ~ org_slash_repo entry)
  /\ main Scenario.bob_and_carol 3 Scenario.bad_entry (Date 2024 3 31) Scenario.second_run
     = (Raise KeyError, Scenario.second_run).
Proof.
  split; [|vm_compute; reflexivity].
  exists "widgets"; split; [right; left; reflexivity|].
  unfold org_slash_repo; simpl; discriminate.
Qed.

(** ** The files of a run *)

Lemma increment_counts d k self when activity self' :
  counts_of d self -> Kind.increment k self when activity = Ok self' -> counts_of d self'.
Proof.
  intros Hself; rewrite CountsFacts.increment_unfold; unfold PyDict.iadd.
  destruct (PyDict.get (Kind.counter k self) _) as [old|] eqn:G; simpl; [|discriminate].
  intros [= <-] k'; rewrite <- (Hself k').
  destruct (PersistFacts.kind_eq_dec k k') as [<-|Hne].
  - rewrite CountsFacts.counter_with_counter.
    apply keys_set_in; eapply get_in_keys; eauto.
  - rewrite CountsFacts.counter_with_other by exact Hne; reflexivity.
Qed.

Lemma all_counts_set d contrib author self :
  all_counts_of d contrib -> counts_of d self ->
  all_counts_of d (PyDict.set contrib author self).
Proof.
  intros (Hwf & Hall) Hself; split; [apply wf_set, Hwf|].
  intros a s Hin; apply in_set_inv in Hin; destruct Hin as [[-> ->]|Hin]; eauto.
Qed.

Lemma update_at_counts d contrib author method contrib' :
  all_counts_of d contrib ->
  (forall self self', counts_of d self -> method self = Ok self' -> counts_of d self') ->
  update_at contrib author method = Ok contrib' ->
  all_counts_of d contrib'.
Proof.
  intros Hall Hmethod; unfold update_at, PyDict.getitem.
  destruct (PyDict.get contrib author) as [self|] eqn:G; simpl; [|discriminate].
  destruct (method self) as [self'|] eqn:E; simpl; [|discriminate].
  intros [= <-]; apply all_counts_set; [exact Hall|].
  eapply Hmethod; [|exact E].
  destruct Hall as (_ & Hall); eapply Hall, get_Some_in, G.
Qed.

Lemma count_counts d login method contrib contrib' :
  all_counts_of d contrib ->
  (forall self self', counts_of d self -> method self = Ok self' -> counts_of d self') ->
  count d login method contrib = Ok contrib' ->
  all_counts_of d contrib'.
Proof.
  intros Hall Hmethod; unfold count; apply update_at_counts; [|exact Hmethod].
  unfold PyDict.setdefault; destruct (PyDict.contains contrib login); [exact Hall|].
  apply all_counts_set; [exact Hall | intros k; reflexivity].
Qed.

Lemma for_each_keeps {A S} (body : A -> S -> result S) (I : S -> Prop) xs acc acc' :
  (forall x acc acc', I acc -> body x acc = Ok acc' -> I acc') ->
  I acc -> for_each body xs acc = Ok acc' -> I acc'.
Proof.
  intros Hbody; revert acc; induction xs as [|x xs IH]; intros acc Hacc; simpl.
  - intros [= <-]; exact Hacc.
  - destruct (body x acc) as [acc1|] eqn:E; simpl; [|discriminate].
    apply IH; eapply Hbody; eauto.
Qed.

Lemma count_pr_counts d pr contrib contrib' :
  all_counts_of d contrib -> count_pr d pr contrib = Ok contrib' ->
  all_counts_of d contrib'.
Proof.
  intros Hall; unfold count_pr.
  destruct (count d (pr_login pr) _ contrib) as [c1|] eqn:E1; simpl; [|discriminate].
  assert (H1 : all_counts_of d c1).
  { eapply count_counts; [exact Hall| |exact E1].
    intros self self' Hs; apply (increment_counts d Kind.Prs), Hs. }
  destruct (for_each (count_review d) (reviews pr) c1) as [c2|] eqn:E2; simpl;
    [|discriminate].
  assert (H2 : all_counts_of d c2).
  { eapply for_each_keeps; [|exact H1|exact E2].
    intros review acc acc' Hacc; unfold count_review; apply count_counts; [exact Hacc|].
    intros self self' Hs; apply (increment_counts d Kind.Reviews), Hs. }
  apply for_each_keeps; [|exact H2].
  intros comment acc acc' Hacc; unfold count_pr_comment; apply count_counts; [exact Hacc|].
  intros self self' Hs; apply (increment_counts d Kind.PrComments), Hs.
Qed.

Lemma count_issue_counts d issue contrib contrib' :
  all_counts_of d contrib -> count_issue d issue contrib = Ok contrib' ->
  all_counts_of d contrib'.
Proof.
  intros Hall; unfold count_issue.
  destruct (count d (issue_login issue) _ contrib) as [c1|] eqn:E1; simpl; [|discriminate].
  assert (H1 : all_counts_of d c1).
  { eapply count_counts; [exact Hall| |exact E1].
    intros self self' Hs; apply (increment_counts d Kind.Issues), Hs. }
  apply for_each_keeps; [|exact H1].
  intros comment acc acc' Hacc; unfold count_issue_comment; apply count_counts;
    [exact Hacc|].
  intros self self' Hs; apply (increment_counts d Kind.IssueComments), Hs.
Qed.

Lemma load_data_counts data today out :
  load_data data today = Ok out -> all_counts_of today (author_contrib out).
Proof.
  unfold load_data.
  destruct (for_each _ _ _) as [contrib|] eqn:E; simpl; [|discriminate].
  intros [= <-]; simpl.
  eapply for_each_keeps; [| |exact E]; [|split; [constructor | intros ? ? []]].
  intros [author stored] acc acc' Hacc; unfold load_author.
  destruct (PyDict.getitem _ author) as [s|]; simpl; [|discriminate].
  assert (H0 : all_counts_of today (PyDict.set acc author (new_AuthorCounts today)))
    by (apply all_counts_set; [exact Hacc | intros k; reflexivity]).
  assert (Hload : forall k entries c c',
            all_counts_of today c ->
            load_counter (Kind.increment k) author entries c = Ok c' ->
            all_counts_of today c').
  { intros k entries c c' Hc; unfold load_counter; apply for_each_keeps; [|exact Hc].
    intros [datestr activity] a a' Ha.
    destruct (strptime_Ym datestr) as [when|]; simpl; [|discriminate].
    apply update_at_counts; [exact Ha|].
    intros self self' Hs; apply increment_counts, Hs. }
  destruct (load_counter increment_prs _ _ _) as [c1|] eqn:E1; simpl; [|discriminate].
  apply (Hload Kind.Prs) in E1; [|exact H0].
  destruct (load_counter increment_reviews _ _ _) as [c2|] eqn:E2; simpl; [|discriminate].
  apply (Hload Kind.Reviews) in E2; [|exact E1].
  destruct (load_counter increment_pr_comments _ _ _) as [c3|] eqn:E3; simpl;
    [|discriminate].
  apply (Hload Kind.PrComments) in E3; [|exact E2].
  destruct (load_counter increment_issues _ _ _) as [c4|] eqn:E4; simpl; [|discriminate].
  apply (Hload Kind.Issues) in E4; [|exact E3].
  intros E5; apply (Hload Kind.IssueComments) in E5; [exact E5 | exact E4].
Qed.

Lemma encode_persisted today data :
  all_counts_of today (author_contrib data) ->
  Persisted.persisted_on today (encode data).
Proof.
  intros (Hwf & Hall); split.
  - unfold PyDict.wf, encode, PyDict.keys, PyDict.items in *; simpl.
    rewrite map_map; erewrite map_ext; [exact Hwf|]; intros [a s]; reflexivity.
  - intros author stored Hin; simpl in Hin; apply in_map_iff in Hin.
    destruct Hin as ([a self] & [= <- <-] & Hin); intros k.
    rewrite PersistFacts.stored_counter_vars; apply (Hall a self Hin).
Qed.

Lemma visit_repo_stores gh fuel options today org_name repo_name data :
  all_counts_of today (author_contrib data) ->
  hoare (stored (Persisted.persisted_on today))
    (visit_repo gh fuel options today org_name repo_name data)
    (fun data' => all_counts_of today (author_contrib data')).
Proof.
  intros Hdata; unfold visit_repo.
  pose proof (stored_refl (Persisted.persisted_on today)) as Hrefl.
  pose proof (stored_trans (Persisted.persisted_on today)) as Htrans.
  eapply (hoare_bind _ Htrans) with (Q := fun _ => True).
  { apply (query_prs_loop_hoare _ (fun _ => True) Hrefl Htrans (stored_request _)); auto. }
  intros prs _; eapply (hoare_bind _ Htrans).
  { apply (hoare_lift _ Hrefl) with (Q := all_counts_of today).
    intros contrib; unfold count_prs; apply for_each_keeps; [|exact Hdata].
    intros [id pr] acc acc'; apply count_pr_counts. }
  intros contrib Hcontrib; eapply (hoare_bind _ Htrans) with (Q := fun _ => True).
  { apply (query_issues_loop_hoare _ (fun _ => True) Hrefl Htrans (stored_request _));
      auto. }
  intros found _; eapply (hoare_bind _ Htrans).
  { apply (hoare_lift _ Hrefl) with (Q := all_counts_of today).
    intros contrib'; unfold count_issues; apply for_each_keeps; [|exact Hcontrib].
    intros [id issue] acc acc'; apply count_issue_counts. }
  intros contrib' Hcontrib'; eapply (hoare_bind _ Htrans).
  { apply stored_write, encode_persisted; exact Hcontrib'. }
  intros _ _; apply (hoare_ret _ Hrefl); exact Hcontrib'.
Qed.

(** X10.  Every file that a run on [today] leaves, however the run ends,
    is one it found or one persisted on [today]: its authors are distinct
    and each of its counters has the keys that [AuthorCounts(today)]
    stores. *)
Lemma main_stores_persisted gh fuel options today w :
  stored (Persisted.persisted_on today) w (snd (main gh fuel options today w)).
Proof.
  pose proof (stored_refl (Persisted.persisted_on today)) as Hrefl.
  pose proof (stored_trans (Persisted.persisted_on today)) as Htrans.
  assert (Hafter : forall data,
            all_counts_of today (author_contrib data) ->
            hoare (stored (Persisted.persisted_on today))
              (after_load gh fuel options today data) (fun _ => True)).
  { intros data Hdata; unfold after_load.
    destruct (explicit_repos _ _) as [org_repos|]; [|apply (hoare_ret _ Hrefl); exact I].
    eapply (hoare_bind _ Htrans) with (Q := fun _ => True).
    { apply (hoare_for_each_inv _ Hrefl Htrans); [|exact I].
      intros org d _; unfold organization_repos, query_org_repos_from_name.
      eapply (hoare_bind _ Htrans) with (Q := fun _ => True).
      - eapply hoare_post; [|auto].
        apply (query_org_repos_loop_hoare _ (fun _ => True) Hrefl Htrans
                 (stored_request _)); auto.
      - intros names _; apply (hoare_lift _ Hrefl); auto. }
    intros org_repos' _; eapply (hoare_bind _ Htrans).
    { unfold visit_all.
      apply (hoare_for_each_inv _ Hrefl Htrans _
               (fun d => all_counts_of today (author_contrib d))); [|exact Hdata].
      intros [org_name names] d Hd.
      apply (hoare_for_each_inv _ Hrefl Htrans _
               (fun d => all_counts_of today (author_contrib d))); [|exact Hd].
      intros name d' Hd'; apply visit_repo_stores, Hd'. }
    intros data' Hdata'; eapply (hoare_bind _ Htrans).
    { apply stored_write, encode_persisted; exact Hdata'. }
    intros _ _; apply (hoare_ret _ Hrefl); exact I. }
  rewrite main_unfold.
  assert (Hrun : stored (Persisted.persisted_on today) w
                   (snd (mbind (load_existing_data (output_file options) today)
                           (after_load gh fuel options today) w))).
  { unfold mbind.
    pose proof (load_existing_data_world (output_file options) today w) as Hw.
    destruct (load_existing_data (output_file options) today w) as [[data|e] w1] eqn:E;
      simpl in Hw; subst w1; [|apply Hrefl].
    apply Hafter.
    unfold load_existing_data in E.
    destruct (PyDict.get (files w) (output_file options)) as [file|].
    - injection E as E; eapply load_data_counts, E.
    - injection E as <-; split; [constructor | intros ? ? []]. }
  destruct (repos options), (orgs options); try exact Hrun; apply Hrefl.
Qed.

End RunFacts.

(* ================================================================== *)
(** * Facts about complete page chains *)

Module CompleteFacts.

Import Collector Pages Complete PyDictFacts.

Lemma pull_request_eta p :
  mkPullRequest (pr_login p) (pr_created_at_string p) (pr_created_at p)
    (reviews p) (comments p) = p.
Proof. destruct p; reflexivity. Qed.

Lemma record_reviews_spec id rs prs p :
  PyDict.get prs id = Some p ->
  (forall r submitted, In r rs -> review_submittedAt r = Some submitted -> parses submitted) ->
  exists added,
    for_each (record_review id) rs prs
    = Ok (PyDict.set prs id
            (mkPullRequest (pr_login p) (pr_created_at_string p) (pr_created_at p)
               (reviews p ++ added)%list (comments p)))
    /\ Forall2 is_review (kept_reviews rs) added.
Proof.
  revert prs p; induction rs as [|r rs IH]; intros prs p Hget Htimes.
  - exists []; rewrite app_nil_r, pull_request_eta; simpl.
    rewrite PersistFacts.set_get_same by exact Hget; split; [reflexivity | constructor].
  - assert (Hrest : forall r' submitted, In r' rs ->
              review_submittedAt r' = Some submitted -> parses submitted)
      by (intros r' s' Hin; apply Htimes; right; exact Hin).
    rewrite PersistFacts.for_each_cons; unfold record_review at 1.
    unfold kept_reviews; simpl flat_map; fold (kept_reviews rs).
    destruct (review_author r) as [login|]; [|simpl; apply IH; assumption].
    destruct (review_submittedAt r) as [submitted|] eqn:E; [|simpl; apply IH; assumption].
    destruct (Htimes r submitted (or_introl eq_refl) E) as (t & Ht).
    unfold update_at, PyDict.getitem, add_review, new_Review; rewrite Hget, Ht.
    simpl rbind.
    edestruct (IH (PyDict.set prs id
                     (mkPullRequest (pr_login p) (pr_created_at_string p) (pr_created_at p)
                        (reviews p ++ [mkReview login submitted t])%list (comments p))))
      as (added & Hrun & Hall); [apply get_set_same | exact Hrest |].
    exists (mkReview login submitted t :: added); rewrite Hrun, set_set; simpl.
    rewrite <- app_assoc; split; [reflexivity|].
    constructor; [repeat split; assumption | exact Hall].
Qed.

Lemma record_comments_spec id cs prs p :
  PyDict.get prs id = Some p ->
  (forall c, In c cs -> parses (comment_createdAt c)) ->
  exists added,
    for_each (record_comment id) cs prs
    = Ok (PyDict.set prs id
            (mkPullRequest (pr_login p) (pr_created_at_string p) (pr_created_at p)
               (reviews p) (comments p ++ added)%list))
    /\ Forall2 is_comment (kept_comments cs) added.
Proof.
  revert prs p; induction cs as [|c cs IH]; intros prs p Hget Htimes.
  - exists []; rewrite app_nil_r, pull_request_eta; simpl.
    rewrite PersistFacts.set_get_same by exact Hget; split; [reflexivity | constructor].
  - assert (Hrest : forall c', In c' cs -> parses (comment_createdAt c'))
      by (intros c' Hin; apply Htimes; right; exact Hin).
    rewrite PersistFacts.for_each_cons; unfold record_comment at 1.
    unfold kept_comments; simpl flat_map; fold (kept_comments cs).
    destruct (comment_author c) as [login|]; [|simpl; apply IH; assumption].
    destruct (Htimes c (or_introl eq_refl)) as (t & Ht).
    unfold update_at, PyDict.getitem, add_comment, new_Comment; rewrite Hget, Ht.
    simpl rbind.
    edestruct (IH (PyDict.set prs id
                     (mkPullRequest (pr_login p) (pr_created_at_string p) (pr_created_at p)
                        (reviews p)
                        (comments p ++ [mkComment login (comment_createdAt c) t])%list)))
      as (added & Hrun & Hall); [apply get_set_same | exact Hrest |].
    exists (mkComment login (comment_createdAt c) t :: added); rewrite Hrun, set_set; simpl.
    rewrite <- app_assoc; split; [reflexivity|].
    constructor; [repeat split; assumption | exact Hall].
Qed.

(** One pull request that fits: it is stored last, with all it holds, and
    both inner cursors are at their start. *)
Lemma record_fitting pr v :
  authored pr = true -> well_timed pr -> fits pr ->
  ~ In (pr_id pr) (PyDict.keys (pull_requests v)) ->
  exists p,
    record_pr pr v
    = Ok (PrVars (cursor v) "null" "null" (has_next_page v)
            (pull_requests v ++ [(pr_id pr, p)])%list)
    /\ records_pr pr (pr_id pr, p).
Proof.
  unfold authored; intros Hauthor ((t & Ht) & Hreviews & Hcomments) (Hr & Hc) Hnew.
  unfold record_pr; destruct (pr_author pr) as [login|] eqn:E; [|discriminate].
  unfold new_PullRequest; rewrite Ht; simpl rbind.
  destruct (record_reviews_spec (pr_id pr) (nodes (pr_reviews pr))
              (PyDict.set (pull_requests v) (pr_id pr)
                 (mkPullRequest login (pr_createdAt pr) t [] []))
              (mkPullRequest login (pr_createdAt pr) t [] []))
    as (rs & Hrun1 & Hrs); [apply get_set_same | exact Hreviews |].
  rewrite Hrun1, set_set, Hr; simpl rbind; cbv iota.
  destruct (record_comments_spec (pr_id pr) (nodes (pr_comments pr))
              (PyDict.set (pull_requests v) (pr_id pr)
                 (mkPullRequest login (pr_createdAt pr) t ([] ++ rs)%list []))
              (mkPullRequest login (pr_createdAt pr) t ([] ++ rs)%list []))
    as (cs & Hrun2 & Hcs); [apply get_set_same | exact Hcomments |].
  simpl in Hrun1, Hrun2 |- *; rewrite Hrun2, set_set, Hc; simpl rbind.
  rewrite set_new by exact Hnew.
  eexists; split; [reflexivity|].
  unfold records_pr; simpl; rewrite E; repeat split; assumption.
Qed.

(** One page of settled pull requests. *)
Lemma record_settled_nodes prs v :
  Forall settled prs ->
  reviews_cursor v = "null" -> comments_cursor v = "null" ->
  NoDup (PyDict.keys (pull_requests v) ++ map pr_id (filter authored prs)) ->
  exists fresh,
    for_each record_pr prs v
    = Ok (PrVars (cursor v) "null" "null" (has_next_page v)
            (pull_requests v ++ fresh)%list)
    /\ Forall2 records_pr (filter authored prs) fresh.
Proof.
  revert v; induction prs as [|pr prs IH]; intros v Hall Hrc Hcc Hnd.
  - exists []; rewrite app_nil_r; split; [|constructor].
    destruct v; simpl in *; subst; reflexivity.
  - inversion Hall as [|? ? Hpr Hall']; subst.
    rewrite PersistFacts.for_each_cons; simpl filter in *.
    destruct (authored pr) eqn:E.
    + destruct (Hpr E) as (Htimes & Hfits).
      assert (Hnew : ~ In (pr_id pr) (PyDict.keys (pull_requests v))).
      { intros Hin; simpl in Hnd; apply NoDup_remove_2 in Hnd.
        apply Hnd, in_or_app; auto. }
      destruct (record_fitting pr v E Htimes Hfits Hnew) as (p & Hrec & Hp).
      destruct (IH (PrVars (cursor v) "null" "null" (has_next_page v)
                      (pull_requests v ++ [(pr_id pr, p)])%list) Hall')
        as (fresh & Hrest & Hfresh); try reflexivity.
      { simpl; unfold PyDict.keys; rewrite map_app, <- app_assoc; exact Hnd. }
      exists ((pr_id pr, p) :: fresh); split; [|constructor; assumption].
      rewrite Hrec; simpl rbind; simpl in Hrest; rewrite Hrest, <- app_assoc.
      reflexivity.
    + rewrite PaginationFacts.record_deleted; [simpl rbind; apply IH; assumption|].
      unfold deleted; unfold authored in E; destruct (pr_author pr); [discriminate|].
      reflexivity.
Qed.

Lemma records_pr_keys prs entries :
  Forall2 records_pr prs entries -> PyDict.keys entries = map pr_id prs.
Proof.
  induction 1 as [|pr e prs es (Hid & _) _ IH]; simpl; [reflexivity|].
  rewrite Hid; f_equal; exact IH.
Qed.

Lemma query_prs_loop_complete gh org_name repo_name token since pages :
  forall fuel cur stored w,
    serves_prs gh org_name repo_name since cur pages ->
    Forall settled (flat_map nodes pages) ->
    NoDup (PyDict.keys stored ++ map pr_id (filter authored (flat_map nodes pages))) ->
    (List.length pages <= fuel)%nat ->
    exists fresh,
      query_prs_loop gh fuel org_name repo_name token since
        (PrVars cur "null" "null" true stored) w
      = (Ok (stored ++ fresh)%list,
         World (files w)
           (requests w ++ page_requests (ask_prs org_name repo_name since) cur pages)%list)
      /\ Forall2 records_pr (filter authored (flat_map nodes pages)) fresh.
Proof.
  induction pages as [|page rest IH]; intros fuel cur stored w Hserves Hall Hnd Hfuel;
    [destruct Hserves|].
  destruct Hserves as (Hreply & Hnext).
  simpl flat_map in Hall, Hnd; apply Forall_app in Hall; destruct Hall as (Hpage & Hrest).
  rewrite filter_app, map_app in Hnd.
  destruct fuel as [|fuel]; [simpl in Hfuel; lia|].
  destruct (record_settled_nodes (nodes page) (PrVars cur "null" "null" true stored)
              Hpage eq_refl eq_refl) as (fresh & Hrun & Hfresh).
  { simpl; rewrite app_assoc in Hnd; apply NoDup_app_remove_r in Hnd; exact Hnd. }
  simpl in Hrun.
  destruct rest as [|page' rest'].
  - erewrite PaginationFacts.query_prs_loop_step; [|reflexivity|exact Hreply|].
    2:{ unfold pr_round; rewrite Hrun; simpl; unfold advance_prs; simpl.
        rewrite Hnext; reflexivity. }
    rewrite PaginationFacts.query_prs_loop_done by reflexivity.
    exists fresh; simpl; rewrite !app_nil_r; split; [reflexivity | exact Hfresh].
  - destruct Hnext as (Hmore & Hserves').
    erewrite PaginationFacts.query_prs_loop_step; [|reflexivity|exact Hreply|].
    2:{ unfold pr_round; rewrite Hrun; simpl; unfold advance_prs; simpl.
        rewrite Hmore; reflexivity. }
    destruct (IH fuel (quoted (endCursor (pageInfo page))) (stored ++ fresh)%list
                (World (files w)
                   (requests w ++ [pr_request org_name repo_name since
                                     (PrVars cur "null" "null" true stored)])%list)
                Hserves' Hrest) as (fresh' & Hloop & Hfresh').
    { unfold PyDict.keys; rewrite map_app; fold (PyDict.keys stored) (PyDict.keys fresh).
      rewrite (records_pr_keys _ _ Hfresh), <- app_assoc; exact Hnd. }
    { simpl in Hfuel |- *; lia. }
    exists (fresh ++ fresh')%list; rewrite Hloop; split.
    + simpl; rewrite <- !app_assoc; reflexivity.
    + change (flat_map nodes (page :: page' :: rest'))
        with (nodes page ++ flat_map nodes (page' :: rest'))%list.
      rewrite filter_app; apply Forall2_app; assumption.
Qed.

(** X1.  When the endpoint serves the pull requests of a repository on a
    chain of outer pages, no pull request with an author has a further page
    of reviews or comments, the timestamps parse and the identities of the
    pull requests with an author are distinct, [query_prs] terminates with
    as much fuel as there are pages, issues exactly one request per page, in
    order, and returns one entry for each pull request with an author, in
    page order, holding its author, its creation time, its reviews with an
    author and a submission time and its comments with an author. *)
Theorem query_prs_returns_every_page (gh : github) (org_name repo_name : string)
    (token : option string) (since : string) (pages : list (connection pr_node))
    (fuel : nat) (w : world) :
  serves_prs gh org_name repo_name since "null" pages ->
  Forall settled (flat_map nodes pages) ->
  NoDup (map pr_id (filter authored (flat_map nodes pages))) ->
  (List.length pages <= fuel)%nat ->
  exists prs,
    query_prs gh fuel org_name repo_name token since w
    = (Ok prs,
       World (files w)
         (requests w
          ++ page_requests (ask_prs org_name repo_name since) "null" pages)%list)
    /\ Forall2 records_pr (filter authored (flat_map nodes pages)) prs.
Proof.
  intros Hserves Hall Hnd Hfuel.
  destruct (query_prs_loop_complete gh org_name repo_name token since pages fuel "null"
              PyDict.empty w Hserves Hall Hnd Hfuel) as (fresh & Hrun & Hfresh).
  exists fresh; split; [exact Hrun | exact Hfresh].
Qed.

Lemma issue_eta i :
  mkIssue (issue_login i) (issue_created_at_string i) (issue_created_at i)
    (issue_comment_list i) = i.
Proof. destruct i; reflexivity. Qed.

Lemma record_issue_comments_spec id cs d i :
  PyDict.get d id = Some i ->
  (forall c, In c cs -> parses (comment_createdAt c)) ->
  exists added,
    for_each (record_issue_comment id) cs d
    = Ok (PyDict.set d id
            (mkIssue (issue_login i) (issue_created_at_string i) (issue_created_at i)
               (issue_comment_list i ++ added)%list))
    /\ Forall2 is_comment (kept_comments cs) added.
Proof.
  revert d i; induction cs as [|c cs IH]; intros d i Hget Htimes.
  - exists []; rewrite app_nil_r, issue_eta; simpl.
    rewrite PersistFacts.set_get_same by exact Hget; split; [reflexivity | constructor].
  - assert (Hrest : forall c', In c' cs -> parses (comment_createdAt c'))
      by (intros c' Hin; apply Htimes; right; exact Hin).
    rewrite PersistFacts.for_each_cons; unfold record_issue_comment at 1.
    unfold kept_comments; simpl flat_map; fold (kept_comments cs).
    destruct (comment_author c) as [login|]; [|simpl; apply IH; assumption].
    destruct (Htimes c (or_introl eq_refl)) as (t & Ht).
    unfold update_at, PyDict.getitem, issue_add_comment, new_Comment; rewrite Hget, Ht.
    simpl rbind.
    edestruct (IH (PyDict.set d id
                     (mkIssue (issue_login i) (issue_created_at_string i)
                        (issue_created_at i)
                        (issue_comment_list i
                         ++ [mkComment login (comment_createdAt c) t])%list)))
      as (added & Hrun & Hall); [apply get_set_same | exact Hrest |].
    exists (mkComment login (comment_createdAt c) t :: added); rewrite Hrun, set_set; simpl.
    rewrite <- app_assoc; split; [reflexivity|].
    constructor; [repeat split; assumption | exact Hall].
Qed.

Lemma record_issue_fitting issue v :
  issue_authored issue = true ->
  parses (issue_createdAt issue) ->
  (forall c, In c (nodes (issue_comments issue)) -> parses (comment_createdAt c)) ->
  hasNextPage (pageInfo (issue_comments issue)) = false ->
  ~ In (issue_id issue) (PyDict.keys (issues v)) ->
  exists i,
    record_issue issue v
    = Ok (IssueVars (i_cursor v) (i_reviews_cursor v) "null" (i_has_next_page v)
            (issues v ++ [(issue_id issue, i)])%list)
    /\ records_issue issue (issue_id issue, i).
Proof.
  unfold issue_authored; intros Hauthor (t & Ht) Hcomments Hc Hnew.
  unfold record_issue; destruct (issue_author issue) as [login|] eqn:E; [|discriminate].
  unfold new_Issue; rewrite Ht; simpl rbind.
  destruct (record_issue_comments_spec (issue_id issue) (nodes (issue_comments issue))
              (PyDict.set (issues v) (issue_id issue)
                 (mkIssue login (issue_createdAt issue) t []))
              (mkIssue login (issue_createdAt issue) t []))
    as (cs & Hrun & Hcs); [apply get_set_same | exact Hcomments |].
  simpl in Hrun |- *; rewrite Hrun, set_set, Hc; simpl rbind.
  rewrite set_new by exact Hnew.
  eexists; split; [reflexivity|].
  unfold records_issue; simpl; rewrite E; repeat split; assumption.
Qed.

Lemma record_issue_deleted issue v :
  issue_authored issue = false -> record_issue issue v = Ok v.
Proof.
  unfold issue_authored, record_issue; destruct (issue_author issue);
    [discriminate | reflexivity].
Qed.

Lemma record_settled_issues found v :
  Forall issue_settled found ->
  i_comments_cursor v = "null" ->
  NoDup (PyDict.keys (issues v) ++ map issue_id (filter issue_authored found)) ->
  exists fresh,
    for_each record_issue found v
    = Ok (IssueVars (i_cursor v) (i_reviews_cursor v) "null" (i_has_next_page v)
            (issues v ++ fresh)%list)
    /\ Forall2 records_issue (filter issue_authored found) fresh.
Proof.
  revert v; induction found as [|issue found IH]; intros v Hall Hcc Hnd.
  - exists []; rewrite app_nil_r; split; [|constructor].
    destruct v; simpl in *; subst; reflexivity.
  - inversion Hall as [|? ? Hissue Hall']; subst.
    rewrite PersistFacts.for_each_cons; simpl filter in *.
    destruct (issue_authored issue) eqn:E.
    + destruct (Hissue E) as (Htime & Htimes & Hfits).
      assert (Hnew : ~ In (issue_id issue) (PyDict.keys (issues v))).
      { intros Hin; simpl in Hnd; apply NoDup_remove_2 in Hnd.
        apply Hnd, in_or_app; auto. }
      destruct (record_issue_fitting issue v E Htime Htimes Hfits Hnew)
        as (i & Hrec & Hi).
      destruct (IH (IssueVars (i_cursor v) (i_reviews_cursor v) "null" (i_has_next_page v)
                      (issues v ++ [(issue_id issue, i)])%list) Hall')
        as (fresh & Hrest & Hfresh); try reflexivity.
      { simpl; unfold PyDict.keys; rewrite map_app, <- app_assoc; exact Hnd. }
      exists ((issue_id issue, i) :: fresh); split; [|constructor; assumption].
      rewrite Hrec; simpl rbind; simpl in Hrest; rewrite Hrest, <- app_assoc.
      reflexivity.
    + rewrite record_issue_deleted by exact E; simpl rbind; apply IH; assumption.
Qed.

Lemma records_issue_keys found entries :
  Forall2 records_issue found entries -> PyDict.keys entries = map issue_id found.
Proof.
  induction 1 as [|issue e found es (Hid & _) _ IH]; simpl; [reflexivity|].
  rewrite Hid; f_equal; exact IH.
Qed.

Lemma query_issues_loop_step gh fuel org_name repo_name token since v w results v' :
  i_has_next_page v = true ->
  gh (issue_request org_name repo_name since v) = SearchIssues results ->
  for_each record_issue (nodes results) v = Ok v' ->
  query_issues_loop gh (S fuel) org_name repo_name token since v w
  = query_issues_loop gh fuel org_name repo_name token since
      (advance_issues (pageInfo results) v')
      (World (files w) (requests w ++ [issue_request org_name repo_name since v])%list).
Proof.
  intros Hnext Hreply Hround; simpl; rewrite Hnext.
  unfold mbind, graphql_query, lift; rewrite Hreply, Hround; reflexivity.
Qed.

Lemma query_issues_loop_done gh fuel org_name repo_name token since v w :
  i_has_next_page v = false ->
  query_issues_loop gh fuel org_name repo_name token since v w = (Ok (issues v), w).
Proof. intros H; destruct fuel; simpl; rewrite H; reflexivity. Qed.

Lemma query_issues_loop_complete gh org_name repo_name token since pages :
  forall fuel cur stored w,
    serves_issues gh org_name repo_name since cur pages ->
    Forall issue_settled (flat_map nodes pages) ->
    NoDup (PyDict.keys stored
           ++ map issue_id (filter issue_authored (flat_map nodes pages))) ->
    (List.length pages <= fuel)%nat ->
    exists fresh,
      query_issues_loop gh fuel org_name repo_name token since
        (IssueVars cur "null" "null" true stored) w
      = (Ok (stored ++ fresh)%list,
         World (files w)
           (requests w
            ++ page_requests (ask_issues org_name repo_name since) cur pages)%list)
      /\ Forall2 records_issue (filter issue_authored (flat_map nodes pages)) fresh.
Proof.
  induction pages as [|page rest IH]; intros fuel cur stored w Hserves Hall Hnd Hfuel;
    [destruct Hserves|].
  destruct Hserves as (Hreply & Hnext).
  simpl flat_map in Hall, Hnd; apply Forall_app in Hall; destruct Hall as (Hpage & Hrest).
  rewrite filter_app, map_app in Hnd.
  destruct fuel as [|fuel]; [simpl in Hfuel; lia|].
  destruct (record_settled_issues (nodes page) (IssueVars cur "null" "null" true stored)
              Hpage eq_refl) as (fresh & Hrun & Hfresh).
  { simpl; rewrite app_assoc in Hnd; apply NoDup_app_remove_r in Hnd; exact Hnd. }
  simpl in Hrun.
  erewrite query_issues_loop_step; [|reflexivity|exact Hreply|exact Hrun].
  unfold advance_issues; simpl.
  destruct rest as [|page' rest'].
  - rewrite Hnext.
    rewrite query_issues_loop_done by reflexivity.
    exists fresh; simpl; rewrite !app_nil_r; split; [reflexivity | exact Hfresh].
  - destruct Hnext as (Hmore & Hserves'); rewrite Hmore.
    destruct (IH fuel (quoted (endCursor (pageInfo page))) (stored ++ fresh)%list
                (World (files w)
                   (requests w ++ [issue_request org_name repo_name since
                                     (IssueVars cur "null" "null" true stored)])%list)
                Hserves' Hrest) as (fresh' & Hloop & Hfresh').
    { unfold PyDict.keys; rewrite map_app; fold (PyDict.keys stored) (PyDict.keys fresh).
      rewrite (records_issue_keys _ _ Hfresh), <- app_assoc; exact Hnd. }
    { simpl in Hfuel |- *; lia. }
    exists (fresh ++ fresh')%list; rewrite Hloop; split.
    + simpl; rewrite <- !app_assoc; reflexivity.
    + change (flat_map nodes (page :: page' :: rest'))
        with (nodes page ++ flat_map nodes (page' :: rest'))%list.
      rewrite filter_app; apply Forall2_app; assumption.
Qed.

(** X2.  When the endpoint serves the issues of a repository on a chain of
    outer pages, no issue with an author has a further page of comments, the
    timestamps parse and the identities of the issues with an author are
    distinct, [query_issues] terminates with as much fuel as there are
    pages, issues exactly one request per page, in order, and returns one
    entry for each issue with an author, in page order, holding its author,
    its creation time and its comments with an author. *)
Theorem query_issues_returns_every_page (gh : github) (org_name repo_name : string)
    (token : option string) (since : string) (pages : list (connection issue_node))
    (fuel : nat) (w : world) :
  serves_issues gh org_name repo_name since "null" pages ->
  Forall issue_settled (flat_map nodes pages) ->
  NoDup (map issue_id (filter issue_authored (flat_map nodes pages))) ->
  (List.length pages <= fuel)%nat ->
  exists found,
    query_issues gh fuel org_name repo_name token since w
    = (Ok found,
       World (files w)
         (requests w
          ++ page_requests (ask_issues org_name repo_name since) "null" pages)%list)
    /\ Forall2 records_issue (filter issue_authored (flat_map nodes pages)) found.
Proof.
  intros Hserves Hall Hnd Hfuel.
  destruct (query_issues_loop_complete gh org_name repo_name token since pages fuel "null"
              PyDict.empty w Hserves Hall Hnd Hfuel) as (fresh & Hrun & Hfresh).
  exists fresh; split; [exact Hrun | exact Hfresh].
Qed.

Lemma record_repos_with_branch repos acc :
  fold_left (fun acc repo => record_repo repo acc) repos acc
  = (acc ++ with_branch repos)%list.
Proof.
  revert acc; induction repos as [|repo repos IH]; intros acc; simpl.
  - rewrite app_nil_r; reflexivity.
  - rewrite IH; unfold record_repo; destruct (defaultBranchRef repo); simpl.
    + rewrite <- app_assoc; reflexivity.
    + reflexivity.
Qed.

Lemma with_branch_app repos repos' :
  with_branch (repos ++ repos') = (with_branch repos ++ with_branch repos')%list.
Proof. unfold with_branch; apply flat_map_app. Qed.

Lemma query_org_repos_loop_complete gh org_name token pages :
  forall fuel cur acc w,
    serves_repos gh org_name cur pages ->
    (List.length pages <= fuel)%nat ->
    query_org_repos_loop gh fuel org_name token cur true acc w
    = (Ok (acc ++ with_branch (flat_map nodes pages))%list,
       World (files w) (requests w ++ page_requests (ORG_QUERY org_name) cur pages)%list).
Proof.
  induction pages as [|page rest IH]; intros fuel cur acc w Hserves Hfuel;
    [destruct Hserves|].
  destruct Hserves as (Hreply & Hnext).
  destruct fuel as [|fuel]; [simpl in Hfuel; lia|].
  simpl query_org_repos_loop; unfold mbind, graphql_query; rewrite Hreply.
  rewrite record_repos_with_branch.
  destruct rest as [|page' rest'].
  - rewrite Hnext; destruct fuel; simpl; unfold mret; rewrite !app_nil_r; reflexivity.
  - destruct Hnext as (Hmore & Hserves'); rewrite Hmore.
    rewrite IH; [|exact Hserves' | simpl in Hfuel |- *; lia].
    change (flat_map nodes (page :: page' :: rest'))
      with (nodes page ++ flat_map nodes (page' :: rest'))%list.
    rewrite with_branch_app; simpl; rewrite <- !app_assoc; reflexivity.
Qed.

(** X3.  When the endpoint serves the repositories of an organization on a
    chain of pages, [query_org_repos_from_name] terminates with as much fuel
    as there are pages, issues exactly one request per page, in order, and
    returns the names of the repositories that have a default branch, in
    page order, archived or not. *)
Theorem query_org_repos_lists_every_page (gh : github) (org_name : string)
    (token : option string) (pages : list (connection repo_node)) (fuel : nat)
    (w : world) :
  serves_repos gh org_name "null" pages ->
  (List.length pages <= fuel)%nat ->
  query_org_repos_from_name gh fuel org_name token w
  = (Ok (with_branch (flat_map nodes pages)),
     World (files w) (requests w ++ page_requests (ORG_QUERY org_name) "null" pages)%list).
Proof.
  intros Hserves Hfuel; unfold query_org_repos_from_name.
  rewrite (query_org_repos_loop_complete gh org_name token pages fuel "null" [] w Hserves
             Hfuel).
  reflexivity.
Qed.

Ltac parsed := eexists; vm_compute; reflexivity.

Lemma paged_prs_settled : Forall settled (flat_map nodes Paged.pr_pages).
Proof.
  repeat constructor; try reflexivity; try parsed; try discriminate.
  - intros r submitted [<-|[<-|[<-|[]]]] [= <-]; parsed.
  - intros c [<-|[<-|[]]]; parsed.
  - intros r submitted [].
  - intros c [].
Qed.

Lemma query_prs_returns_every_page_witness :
  exists prs,
    query_prs Paged.paged 2 "acme" "widgets" None "2013-01-01" Scenario.start
    = (Ok prs,
       World (files Scenario.start)
         (requests Scenario.start
          ++ page_requests (ask_prs "acme" "widgets" "2013-01-01") "null"
               Paged.pr_pages)%list)
    /\ Forall2 records_pr (filter authored (flat_map nodes Paged.pr_pages)) prs.
Proof.
  apply (query_prs_returns_every_page Paged.paged "acme" "widgets" None "2013-01-01"
           Paged.pr_pages 2 Scenario.start).
  - repeat split; reflexivity.
  - exact paged_prs_settled.
  - apply PaginationFacts.distinct_NoDup; vm_compute; reflexivity.
  - simpl; lia.
Defined.

Lemma paged_issues_settled : Forall issue_settled (flat_map nodes Paged.issue_pages).
Proof.
  repeat constructor; try reflexivity; try parsed; try discriminate.
  intros c [<-|[<-|[]]]; parsed.
Qed.

Lemma query_issues_returns_every_page_witness :
  exists found,
    query_issues Paged.paged 2 "acme" "widgets" None "2013-01-01" Scenario.start
    = (Ok found,
       World (files Scenario.start)
         (requests Scenario.start
          ++ page_requests (ask_issues "acme" "widgets" "2013-01-01") "null"
               Paged.issue_pages)%list)
    /\ Forall2 records_issue (filter issue_authored (flat_map nodes Paged.issue_pages))
         found.
Proof.
  apply (query_issues_returns_every_page Paged.paged "acme" "widgets" None "2013-01-01"
           Paged.issue_pages 2 Scenario.start).
  - repeat split; reflexivity.
  - exact paged_issues_settled.
  - apply PaginationFacts.distinct_NoDup; vm_compute; reflexivity.
  - simpl; lia.
Defined.

Lemma query_org_repos_lists_every_page_witness :
  query_org_repos_from_name Paged.paged 2 "acme" None Scenario.start
  = (Ok ["widgets"; "gadgets"],
     World (files Scenario.start)
       (requests Scenario.start
        ++ page_requests (ORG_QUERY "acme") "null" Paged.repo_pages)%list).
Proof.
  apply (query_org_repos_lists_every_page Paged.paged "acme" None Paged.repo_pages 2
           Scenario.start).
  - repeat split; reflexivity.
  - simpl; lia.
Defined.

End CompleteFacts.

(* ================================================================== *)
(** * Facts about the aggregation *)

Module TallyFacts.

Import Collector Kind Window Log Tally PyDictFacts.

Lemma kind_eqb_eq a b : Kind.eqb a b = true <-> a = b.
Proof. destruct a, b; simpl; split; intros H; try reflexivity; discriminate. Qed.

Lemma for_each_map {A B S} (body : B -> S -> result S) (g : A -> B) xs acc :
  for_each body (map g xs) acc = for_each (fun x => body (g x)) xs acc.
Proof.
  revert acc; induction xs as [|x xs IH]; intros acc; simpl; [reflexivity|].
  destruct (body (g x) acc); simpl; auto.
Qed.

Lemma rbind_ext {A B} (c c' : result A) (k k' : A -> result B) :
  c = c' -> (forall a, k a = k' a) -> rbind c k = rbind c' k'.
Proof. intros <- H; destruct c; simpl; auto. Qed.

Lemma count_pr_events today pr contrib :
  count_pr today pr contrib = for_each (count_event today) (events_of_pr pr) contrib.
Proof.
  unfold count_pr, events_of_pr; rewrite PersistFacts.for_each_cons.
  change (count_event today (Event Prs (pr_login pr) (dt_date (pr_created_at pr))) contrib)
    with (count today (pr_login pr)
            (fun self => increment_prs self (dt_date (pr_created_at pr)) 1) contrib).
  destruct (count today (pr_login pr) _ contrib) as [c1|]; simpl; [|reflexivity].
  rewrite for_each_app, for_each_map; apply rbind_ext; [reflexivity|].
  intros c2; rewrite for_each_map; reflexivity.
Qed.

Lemma count_issue_events today issue contrib :
  count_issue today issue contrib
  = for_each (count_event today) (events_of_issue issue) contrib.
Proof.
  unfold count_issue, events_of_issue; rewrite PersistFacts.for_each_cons.
  change (count_event today
            (Event Issues (issue_login issue) (dt_date (issue_created_at issue))) contrib)
    with (count today (issue_login issue)
            (fun self => increment_issues self (dt_date (issue_created_at issue)) 1)
            contrib).
  destruct (count today (issue_login issue) _ contrib) as [c1|]; simpl; [|reflexivity].
  rewrite for_each_map; reflexivity.
Qed.

Lemma count_prs_events today prs contrib :
  count_prs today prs contrib
  = for_each (count_event today) (flat_map events_of_pr (PyDict.values prs)) contrib.
Proof.
  unfold count_prs, PyDict.items, PyDict.values.
  revert contrib; induction prs as [|[id pr] prs IH]; intros contrib; [reflexivity|].
  change (flat_map events_of_pr (map snd ((id, pr) :: prs)))
    with (events_of_pr pr ++ flat_map events_of_pr (map snd prs))%list.
  rewrite for_each_app, PersistFacts.for_each_cons; cbv beta iota.
  rewrite count_pr_events.
  destruct (for_each (count_event today) (events_of_pr pr) contrib); simpl; auto.
Qed.

Lemma count_issues_events today found contrib :
  count_issues today found contrib
  = for_each (count_event today) (flat_map events_of_issue (PyDict.values found)) contrib.
Proof.
  unfold count_issues, PyDict.items, PyDict.values.
  revert contrib; induction found as [|[id issue] found IH]; intros contrib; [reflexivity|].
  change (flat_map events_of_issue (map snd ((id, issue) :: found)))
    with (events_of_issue issue ++ flat_map events_of_issue (map snd found))%list.
  rewrite for_each_app, PersistFacts.for_each_cons; cbv beta iota.
  rewrite count_issue_events.
  destruct (for_each (count_event today) (events_of_issue issue) contrib); simpl; auto.
Qed.

Lemma count_in_new k today key :
  Totals.count_in (counter k (new_AuthorCounts today)) key = 0.
Proof.
  unfold Totals.count_in.
  destruct (PyDict.get (counter k (new_AuthorCounts today)) key) as [v|] eqn:E;
    [|reflexivity].
  eapply CountsFacts.new_counter_zero; eauto.
Qed.

(** The author of the activity has counters once [count] has looked. *)
Lemma setdefault_counts today contrib login :
  all_counts_of today contrib ->
  exists self,
    PyDict.get (PyDict.setdefault contrib login (new_AuthorCounts today)) login = Some self
    /\ counts_of today self
    /\ forall k login' key,
         tally k (PyDict.setdefault contrib login (new_AuthorCounts today)) login' key
         = tally k contrib login' key.
Proof.
  intros (Hwf & Hall); unfold PyDict.setdefault, PyDict.contains.
  destruct (PyDict.get contrib login) as [self|] eqn:G.
  - exists self; split; [exact G|]; split; [|reflexivity].
    eapply Hall, get_Some_in, G.
  - exists (new_AuthorCounts today); split; [apply get_set_same|].
    split; [intros k; reflexivity|].
    intros k login' key; unfold tally.
    destruct (string_dec login login') as [<-|Hne].
    + rewrite get_set_same, G; apply count_in_new.
    + rewrite get_set_other by exact Hne; reflexivity.
Qed.

Lemma window_key today self k y m :
  counts_of today self -> covers today y m ->
  exists old, PyDict.get (counter k self) (stringdate y m) = Some old.
Proof.
  intros Hself Hcov; apply in_keys_get; rewrite (Hself k).
  eapply get_in_keys, CountsFacts.new_counter_key, Hcov.
Qed.

Lemma count_event_spec today e contrib :
  all_counts_of today contrib -> in_window today e ->
  exists contrib',
    count_event today e contrib = Ok contrib'
    /\ all_counts_of today contrib'
    /\ forall k login key,
         tally k contrib' login key
         = tally k contrib login key + (if is_event k login key e then 1 else 0).
Proof.
  intros Hall Hwin; destruct e as [ke le de]; unfold in_window in Hwin; simpl in Hwin.
  destruct (setdefault_counts today contrib le Hall) as (self & Hget & Hself & Hsame).
  destruct (window_key today self ke _ _ Hself Hwin) as (old & Hold).
  assert (Hrun : count_event today (Event ke le de) contrib
                 = Ok (PyDict.set (PyDict.setdefault contrib le (new_AuthorCounts today)) le
                         (with_counter ke self
                            (PyDict.set (counter ke self) (month_key de) (old + 1))))).
  { unfold count_event, count, update_at, PyDict.getitem; simpl ev_login; simpl ev_kind.
    simpl ev_date; rewrite Hget; simpl rbind.
    rewrite CountsFacts.increment_unfold; unfold PyDict.iadd; rewrite Hold; reflexivity. }
  eexists; split; [exact Hrun|]; split.
  - unfold count_event in Hrun; eapply RunFacts.count_counts; [exact Hall| |exact Hrun].
    intros s s' Hs; apply RunFacts.increment_counts, Hs.
  - intros k login key; rewrite <- Hsame; unfold tally, is_event; simpl.
    destruct (string_dec le login) as [<-|Hne].
    + rewrite get_set_same, Hget, String.eqb_refl, andb_true_r.
      destruct (PersistFacts.kind_eq_dec ke k) as [<-|Hk].
      * rewrite CountsFacts.counter_with_counter.
        rewrite (proj2 (kind_eqb_eq ke ke) eq_refl); simpl.
        unfold Totals.count_in.
        destruct (string_dec (month_key de) key) as [<-|Hkey].
        -- rewrite get_set_same, String.eqb_refl; unfold month_key; rewrite Hold.
           reflexivity.
        -- rewrite get_set_other by exact Hkey.
           apply String.eqb_neq in Hkey; rewrite Hkey; lia.
      * rewrite CountsFacts.counter_with_other by exact Hk.
        destruct (Kind.eqb ke k) eqn:E; [apply kind_eqb_eq in E; contradiction|].
        simpl; lia.
    + rewrite get_set_other by exact Hne.
      apply String.eqb_neq in Hne; rewrite Hne, andb_false_r; simpl; lia.
Qed.

Lemma occurrences_cons k login key e evs :
  occurrences k login key (e :: evs)
  = (if is_event k login key e then 1 else 0) + occurrences k login key evs.
Proof.
  unfold occurrences; cbn [filter]; destruct (is_event k login key e); cbn [List.length];
    lia.
Qed.

Lemma count_events_spec today evs contrib :
  all_counts_of today contrib -> Forall (in_window today) evs ->
  exists contrib',
    for_each (count_event today) evs contrib = Ok contrib'
    /\ all_counts_of today contrib'
    /\ forall k login key,
         tally k contrib' login key
         = tally k contrib login key + occurrences k login key evs.
Proof.
  revert contrib; induction evs as [|e evs IH]; intros contrib Hall Hwin.
  - exists contrib; split; [reflexivity|]; split; [exact Hall|].
    intros k login key; unfold occurrences; simpl; lia.
  - inversion Hwin as [|? ? He Hevs]; subst.
    destruct (count_event_spec today e contrib Hall He) as (c1 & Hrun1 & Hall1 & Hc1).
    destruct (IH c1 Hall1 Hevs) as (c2 & Hrun2 & Hall2 & Hc2).
    exists c2; rewrite PersistFacts.for_each_cons, Hrun1; simpl rbind.
    split; [exact Hrun2|]; split; [exact Hall2|].
    intros k login key; rewrite Hc2, Hc1, occurrences_cons; lia.
Qed.

(** X4.  When the counters in memory are those of a run on [today] and
    every activity of the pull requests [prs] (their creation, their
    reviews, their comments) is dated in a month of the window of [today],
    the loop of [main] over [prs] raises nothing, and the count of every
    kind, login and month grows by exactly the number of activities of that
    kind, login and month; the counters remain those of a run on [today]. *)
Theorem count_prs_tallies (today : date) (prs : PyDict.t PullRequest)
    (contrib : PyDict.t AuthorCounts) :
  all_counts_of today contrib ->
  Forall (in_window today) (flat_map events_of_pr (PyDict.values prs)) ->
  exists contrib',
    count_prs today prs contrib = Ok contrib'
    /\ all_counts_of today contrib'
    /\ forall k login key,
         tally k contrib' login key
         = tally k contrib login key
           + occurrences k login key (flat_map events_of_pr (PyDict.values prs)).
Proof.
  intros Hall Hwin; rewrite count_prs_events.
  apply count_events_spec; assumption.
Qed.

(** X5.  The same for the loop of [main] over the issues: with every issue
    and issue comment dated in the window, it raises nothing and the count
    of every kind, login and month grows by exactly the number of
    activities of that kind, login and month. *)
Theorem count_issues_tallies (today : date) (found : PyDict.t Issue)
    (contrib : PyDict.t AuthorCounts) :
  all_counts_of today contrib ->
  Forall (in_window today) (flat_map events_of_issue (PyDict.values found)) ->
  exists contrib',
    count_issues today found contrib = Ok contrib'
    /\ all_counts_of today contrib'
    /\ forall k login key,
         tally k contrib' login key
         = tally k contrib login key
           + occurrences k login key (flat_map events_of_issue (PyDict.values found)).
Proof.
  intros Hall Hwin; rewrite count_issues_events.
  apply count_events_spec; assumption.
Qed.

Lemma no_counts today : all_counts_of today PyDict.empty.
Proof. split; [constructor | intros author self []]. Qed.

Lemma count_prs_tallies_witness :
  exists contrib',
    count_prs Scenario.run_date [("PR_21", bob_pull)] PyDict.empty = Ok contrib'
    /\ all_counts_of Scenario.run_date contrib'
    /\ forall k login key,
         tally k contrib' login key
         = tally k PyDict.empty login key
           + occurrences k login key
               (flat_map events_of_pr (PyDict.values [("PR_21", bob_pull)])).
Proof.
  apply (count_prs_tallies Scenario.run_date [("PR_21", bob_pull)] PyDict.empty).
  - apply no_counts.
  - repeat constructor; simpl; lia.
Defined.

Lemma count_issues_tallies_witness :
  exists contrib',
    count_issues Scenario.run_date [("I_4", erin_issue)] PyDict.empty = Ok contrib'
    /\ all_counts_of Scenario.run_date contrib'
    /\ forall k login key,
         tally k contrib' login key
         = tally k PyDict.empty login key
           + occurrences k login key
               (flat_map events_of_issue (PyDict.values [("I_4", erin_issue)])).
Proof.
  apply (count_issues_tallies Scenario.run_date [("I_4", erin_issue)] PyDict.empty).
  - apply no_counts.
  - repeat constructor; simpl; lia.
Defined.

Lemma unread_table :
  forallb (fun y => forallb (unread y) (range 1 13)) (range 1 1000) = true.
Proof. vm_compute; reflexivity. Qed.

Lemma stringdate_unread y m :
  1 <= y < 1000 -> 1 <= m <= 12 -> exists e, strptime_Ym (stringdate y m) = Raise e.
Proof.
  intros Hy Hm; pose proof unread_table as T.
  rewrite forallb_forall in T.
  assert (Hin : In y (range 1 1000)) by (apply in_range; lia).
  specialize (T y Hin); rewrite forallb_forall in T.
  assert (Hin' : In m (range 1 13)) by (apply in_range; lia).
  specialize (T m Hin'); unfold unread in T.
  destruct (strptime_Ym (stringdate y m)) as [|e]; [discriminate | eauto].
Qed.

(** The key of a month tells the month. *)
Lemma stringdate_inj y m y' m' :
  1 <= y <= 9999 -> 1 <= m <= 12 -> 1000 <= y' <= 9999 -> 1 <= m' <= 12 ->
  stringdate y m = stringdate y' m' -> y = y' /\ m = m'.
Proof.
  intros Hy Hm Hy' Hm' Heq.
  pose proof (PersistFacts.strptime_stringdate y' m' Hy' Hm') as R'.
  destruct (Z_lt_dec y 1000) as [Hlow|Hhigh].
  - destruct (stringdate_unread y m) as (e & He); [lia | exact Hm|].
    rewrite Heq, R' in He; discriminate.
  - pose proof (PersistFacts.strptime_stringdate y m ltac:(lia) Hm) as R.
    rewrite Heq, R' in R; injection R as -> ->; auto.
Qed.

Lemma outside_window_key today self k d :
  run_date today -> counts_of today self -> dated d ->
  ~ covers today (year d) (month d) ->
  PyDict.get (counter k self) (month_key d) = None.
Proof.
  intros (Hty & Htm) Hself (Hy & Hm) Hout; apply get_None; rewrite (Hself k).
  rewrite CountsFacts.counter_new; intros Hin.
  apply CountsFacts.in_keys_zero_all in Hin; destruct Hin as [[]|(y' & m' & Hin & Hkey)].
  apply CountsFacts.in_months_inv in Hin.
  destruct (stringdate_inj (year d) (month d) y' m') as (Ey & Em);
    [exact Hy | exact Hm | lia | lia | exact Hkey |].
  apply Hout; unfold covers; lia.
Qed.

(** X6.  When the counters in memory are those of a run on [today], an
    activity dated in a month outside the window of [today] (before
    2013-01, or after the month of [today]) makes [main] raise [KeyError],
    whatever its kind and whether its author is known or new. *)
Theorem activity_outside_window_raises (today : date) (e : event)
    (contrib : PyDict.t AuthorCounts) :
  run_date today -> all_counts_of today contrib -> dated (ev_date e) ->
  ~ in_window today e ->
  count_event today e contrib = Raise KeyError.
Proof.
  intros Htoday Hall Hdated Hout; destruct e as [ke le de]; simpl in Hdated.
  destruct (setdefault_counts today contrib le Hall) as (self & Hget & Hself & _).
  unfold count_event, count, update_at, PyDict.getitem; simpl ev_login; simpl ev_kind.
  simpl ev_date; rewrite Hget; simpl rbind.
  rewrite CountsFacts.increment_unfold; unfold PyDict.iadd.
  fold (month_key de).
  rewrite (outside_window_key today self ke de Htoday Hself Hdated Hout); reflexivity.
Qed.

Lemma activity_outside_window_raises_witness :
  count_event Scenario.run_date (Event Reviews "carol" (Date 2024 5 1)) PyDict.empty
  = Raise KeyError.
Proof.
  apply (activity_outside_window_raises Scenario.run_date
           (Event Reviews "carol" (Date 2024 5 1)) PyDict.empty).
  - unfold run_date; simpl; lia.
  - apply no_counts.
  - unfold dated; simpl; lia.
  - unfold in_window, covers; simpl; lia.
Defined.

End TallyFacts.

(* ================================================================== *)
(** * Facts about the outcome of a run *)

Module OutcomeFacts.

Import Collector Kind Window Persisted Log Outcome PyDictFacts.

(** ** Loading what was saved *)

Lemma dict_ext {V} (d d' : PyDict.t V) :
  PyDict.keys d = PyDict.keys d' -> PyDict.wf d ->
  (forall k, PyDict.get d k = PyDict.get d' k) -> d = d'.
Proof.
  unfold PyDict.wf; revert d'; induction d as [|[k v] d IH]; intros [|[k' v'] d'];
    simpl; try discriminate; [reflexivity|].
  intros [= <- Hkeys] Hnd Hget; inversion Hnd as [|? ? Hnot Hnd']; subst.
  pose proof (Hget k) as Hk; simpl in Hk; rewrite String.eqb_refl in Hk.
  injection Hk as <-; f_equal.
  apply IH; [exact Hkeys | exact Hnd'|].
  intros k0; destruct (string_dec k k0) as [<-|Hne].
  - rewrite (proj2 (get_None d k) Hnot).
    symmetry; apply get_None; rewrite <- Hkeys; exact Hnot.
  - specialize (Hget k0); simpl in Hget.
    apply String.eqb_neq in Hne; rewrite Hne in Hget; exact Hget.
Qed.

Lemma author_counts_ext self self' :
  (forall k, counter k self = counter k self') -> self = self'.
Proof.
  intros H; destruct self, self'.
  pose proof (H Prs); pose proof (H Reviews); pose proof (H PrComments).
  pose proof (H Issues); pose proof (H IssueComments); simpl in *; congruence.
Qed.

Lemma counts_wf today self k : counts_of today self -> PyDict.wf (counter k self).
Proof.
  intros H; unfold PyDict.wf; rewrite (H k), CountsFacts.counter_new.
  apply CountsFacts.wf_zero_all; constructor.
Qed.

(** What is loaded from the counters of [counts] is [counts]. *)
Lemma loaded_back today counts self :
  counts_of today counts -> counts_of today self ->
  loaded today (vars_AuthorCounts counts) self -> self = counts.
Proof.
  intros Hcounts Hself Hloaded; apply author_counts_ext; intros k.
  apply dict_ext; [rewrite (Hself k), (Hcounts k); reflexivity | eapply counts_wf; eauto|].
  intros key; rewrite (Hloaded k key), PersistFacts.stored_counter_vars.
  destruct (PyDict.get (counter k counts) key) eqn:E; [reflexivity|].
  apply get_None; rewrite <- (Hcounts k); apply get_None, E.
Qed.

Lemma loaded_entries today (contrib fresh : PyDict.t AuthorCounts) :
  (forall a c, In (a, c) contrib -> counts_of today c) ->
  (forall a c, In (a, c) fresh -> counts_of today c) ->
  Forall2 (fun e l => fst l = fst e /\ loaded today (snd e) (snd l))
    (map (fun '(author, counts) => (author, vars_AuthorCounts counts)) contrib) fresh ->
  fresh = contrib.
Proof.
  revert fresh; induction contrib as [|[a c] contrib IH]; intros fresh Hc Hf H;
    inversion H as [|? l ? fresh' (Hfst & Hl) Hrest]; subst; [reflexivity|].
  destruct l as [a' c']; simpl in Hfst, Hl; subst a'; f_equal.
  - f_equal; eapply loaded_back; [eapply Hc | eapply Hf | exact Hl]; left; reflexivity.
  - apply IH; [| |exact Hrest]; intros a0 c0 Hin; [eapply Hc | eapply Hf]; right; eauto.
Qed.

Lemma new_AuthorCounts_month d today :
  year today = year d -> month today = month d ->
  new_AuthorCounts today = new_AuthorCounts d.
Proof. unfold new_AuthorCounts; intros -> ->; reflexivity. Qed.

(** X7.  A dataset whose counters are those of a run on [d] is loaded back
    from its encoding, on any day [today] of the month of [d], as it was:
    the same date of the last update, the same visited repositories, the
    same authors in the same order, each with the same five counters. *)
Theorem saved_dataset_loads_back (d today : date) (data : output_data) :
  run_date d -> year today = year d -> month today = month d ->
  all_counts_of d (author_contrib data) ->
  exists out,
    load_data (encode data) today = Ok out
    /\ last_updated out = last_updated data
    /\ (forall r, In r (repos_visited out) <-> In r (repos_visited data))
    /\ author_contrib out = author_contrib data.
Proof.
  intros Hd Hy Hm Hall.
  assert (Hnew : new_AuthorCounts today = new_AuthorCounts d)
    by (apply new_AuthorCounts_month; assumption).
  assert (Htoday : run_date today) by (unfold run_date in *; rewrite Hy, Hm; exact Hd).
  assert (Hall' : all_counts_of today (author_contrib data)).
  { destruct Hall as (Hwf & Hc); split; [exact Hwf|].
    intros a c Hin k; rewrite Hnew; apply (Hc a c Hin). }
  destruct (RunFacts.encode_persisted today data Hall') as (Hwf & Hper).
  destruct (PersistFacts.load_authors today (encode data) (j_author_contrib (encode data))
              PyDict.empty) as (fresh & Hrun & Hfresh).
  - exact Hwf.
  - intros a _ [].
  - intros a s Has; split; [apply in_get; assumption|].
    eapply PersistFacts.persisted_loadable; [exact Htoday| |eapply Hper; eauto].
    right; split; [reflexivity | lia].
  - assert (Hload : load_data (encode data) today
                    = Ok (OutputData (last_updated data)
                            (set_of_list (repos_visited data)) fresh)).
    { unfold load_data, PyDict.items; rewrite Hrun; reflexivity. }
    exists (OutputData (last_updated data) (set_of_list (repos_visited data)) fresh).
    split; [exact Hload|]; split; [reflexivity|]; split.
    + intros r; apply PersistFacts.in_set_of_list.
    + simpl; apply (loaded_entries today).
      * destruct Hall' as (_ & Hc); exact Hc.
      * apply RunFacts.load_data_counts in Hload; destruct Hload as (_ & Hc); exact Hc.
      * exact Hfresh.
Qed.

Lemma saved_dataset_loads_back_witness :
  exists out,
    load_data (encode Scenario.widgets_loaded) (Date 2024 6 30) = Ok out
    /\ last_updated out = last_updated Scenario.widgets_loaded
    /\ (forall r, In r (repos_visited out) <-> In r (repos_visited Scenario.widgets_loaded))
    /\ author_contrib out = author_contrib Scenario.widgets_loaded.
Proof.
  apply (saved_dataset_loads_back Scenario.later_date (Date 2024 6 30)
           Scenario.widgets_loaded).
  - unfold run_date; simpl; lia.
  - reflexivity.
  - reflexivity.
  - apply (RunFacts.load_data_counts Scenario.widgets_file); vm_compute; reflexivity.
Defined.

(** ** Accepted entries of [--repos] *)

Lemma split_nonempty sep s : split sep s <> [].
Proof.
  destruct s as [|c s]; simpl; [discriminate|].
  destruct (Ascii.eqb c sep); [discriminate|].
  destruct (split sep s); discriminate.
Qed.

Lemma split_one sep s b : split sep s = [b] -> s = b.
Proof.
  revert b; induction s as [|c s IH]; intros b; simpl; [intros [= <-]; reflexivity|].
  destruct (Ascii.eqb c sep).
  - intros [= _ H]; destruct (split_nonempty _ _ H).
  - destruct (split sep s) as [|h tl] eqn:E; [intros [= <-]; destruct (split_nonempty _ _ E)|].
    intros [= <- ->]; f_equal; apply IH; reflexivity.
Qed.

Lemma split_two s a b : split "/" s = [a; b] -> s = slash_join a b.
Proof.
  unfold slash_join; revert a; induction s as [|c s IH]; intros a; simpl; [discriminate|].
  destruct (Ascii.eqb c "/") eqn:Ec.
  - intros [= <- H]; apply Ascii.eqb_eq in Ec; subst c; simpl; f_equal.
    apply split_one in H; exact H.
  - destruct (split "/" s) as [|h tl] eqn:E; [discriminate|].
    intros [= <- ->]; simpl; f_equal; apply IH; reflexivity.
Qed.

Lemma split_slash_free_one s : slash_free s = true -> split "/" s = [s].
Proof.
  induction s as [|c s IH]; simpl; [reflexivity|].
  intros H; apply andb_prop in H; destruct H as (Hc & Hs).
  apply negb_true_iff in Hc; rewrite Hc, (IH Hs); reflexivity.
Qed.

Lemma split_join a b :
  slash_free a = true -> slash_free b = true -> split "/" (slash_join a b) = [a; b].
Proof.
  unfold slash_join; intros Ha Hb; induction a as [|c a IH]; simpl in *.
  - rewrite (split_slash_free_one b Hb); reflexivity.
  - apply andb_prop in Ha; destruct Ha as (Hc & Ha).
    apply negb_true_iff in Hc; rewrite Hc, (IH Ha); reflexivity.
Qed.

(** X8.  The entries of [--repos] that [main] accepts are exactly the
    strings with one ['/']: an organization and a repository name without
    ['/'], either of which may be empty. *)
Theorem accepted_entries (entry : string) :
  org_slash_repo entry
  <-> exists org repo,
        entry = slash_join org repo
        /\ slash_free org = true /\ slash_free repo = true.
Proof.
  unfold org_slash_repo; split.
  - intros Hlen; pose proof (RunFacts.split_slash_free entry) as Hfree.
    destruct (split "/" entry) as [|a [|b [|c rest]]] eqn:E; try discriminate.
    exists a, b; split; [apply split_two, E|].
    inversion Hfree as [|? ? Ha Hrest]; inversion Hrest as [|? ? Hb _]; auto.
  - intros (org & repo & -> & Ho & Hr); rewrite split_join by assumption; reflexivity.
Qed.

(** ** What a successful run leaves *)

Lemma anywhere_refl w : anywhere w w.
Proof. exact I. Qed.

Lemma anywhere_trans w1 w2 w3 : anywhere w1 w2 -> anywhere w2 w3 -> anywhere w1 w3.
Proof. intros _ _; exact I. Qed.

Lemma anywhere_request req w :
  (fun _ : request => True) req -> anywhere w (World (files w) (requests w ++ [req])%list).
Proof. intros _; exact I. Qed.

Lemma returns_any {A} (c : M A) : hoare anywhere c (fun _ => True).
Proof. intros w; split; [exact I | auto]. Qed.

Lemma visit_repo_visits gh fuel options today org_name repo_name data :
  hoare anywhere (visit_repo gh fuel options today org_name repo_name data)
    (fun data' =>
       forall r, In r (repos_visited data')
                 <-> In r (repos_visited data) \/ r = slash_join org_name repo_name).
Proof.
  unfold visit_repo.
  eapply (RunFacts.hoare_bind _ anywhere_trans); [apply returns_any|]; intros prs _.
  eapply (RunFacts.hoare_bind _ anywhere_trans); [apply returns_any|]; intros contrib _.
  eapply (RunFacts.hoare_bind _ anywhere_trans); [apply returns_any|]; intros found _.
  eapply (RunFacts.hoare_bind _ anywhere_trans); [apply returns_any|]; intros contrib' _.
  eapply (RunFacts.hoare_bind _ anywhere_trans); [apply returns_any|]; intros _ _.
  apply (RunFacts.hoare_ret _ anywhere_refl); intros r; simpl; apply RunFacts.in_set_add.
Qed.

Lemma visit_all_visits gh fuel options today org_repos data :
  hoare anywhere (visit_all gh fuel options today org_repos data)
    (fun data' =>
       (forall r, In r (repos_visited data) -> In r (repos_visited data'))
       /\ forall org names repo,
            In (org, names) org_repos -> In repo names ->
            In (slash_join org repo) (repos_visited data')).
Proof.
  unfold visit_all, PyDict.items.
  apply (RunFacts.hoare_for_each _ anywhere_refl anywhere_trans _
           (fun done data' =>
              (forall r, In r (repos_visited data) -> In r (repos_visited data'))
              /\ forall org names repo,
                   In (org, names) done -> In repo names ->
                   In (slash_join org repo) (repos_visited data'))
           [] org_repos data).
  - intros done [org names] rest acc _ (Hkeep & Hdone).
    eapply RunFacts.hoare_post.
    + apply (RunFacts.hoare_for_each _ anywhere_refl anywhere_trans _
               (fun seen data' =>
                  (forall r, In r (repos_visited acc) -> In r (repos_visited data'))
                  /\ forall repo, In repo seen ->
                                  In (slash_join org repo) (repos_visited data'))
               [] names acc).
      * intros seen repo rest' acc' _ (Hkeep' & Hseen).
        eapply RunFacts.hoare_post; [apply visit_repo_visits|].
        intros data' Hdata'; split.
        -- intros r Hr; apply Hdata'; left; apply Hkeep', Hr.
        -- intros repo' Hin; apply Hdata'; apply in_app_or in Hin.
           destruct Hin as [Hin|[<-|[]]]; [left; apply Hseen, Hin | right; reflexivity].
      * split; [auto | intros repo []].
    + simpl; intros data' (Hkeep' & Hseen); split; [auto|].
      intros org' names' repo Hin Hrepo; apply in_app_or in Hin.
      destruct Hin as [Hin|[[= <- <-]|[]]]; [eapply Hkeep', Hdone; eauto | apply Hseen, Hrepo].
  - split; [auto | intros org names repo []].
Qed.

Lemma get_setdefault {V} (d : PyDict.t V) k v :
  exists s, PyDict.get (PyDict.setdefault d k v) k = Some s.
Proof.
  unfold PyDict.setdefault, PyDict.contains.
  destruct (PyDict.get d k) as [s|] eqn:E; [eauto|].
  exists v; apply get_set_same.
Qed.

Lemma listed_setdefault (d : PyDict.t pyset) k org repo :
  listed d org repo -> listed (PyDict.setdefault d k []) org repo.
Proof.
  intros (names & Hget & Hin); unfold PyDict.setdefault, PyDict.contains.
  destruct (PyDict.get d k) eqn:E; [exists names; auto|].
  exists names; split; [|exact Hin].
  rewrite get_set_other; [exact Hget | intros ->; congruence].
Qed.

Lemma listed_set (d : PyDict.t pyset) k (s s' : pyset) org repo :
  PyDict.get d k = Some s -> (forall r, In r s -> In r s') ->
  listed d org repo -> listed (PyDict.set d k s') org repo.
Proof.
  intros Hk Hincl (names & Hget & Hin); destruct (string_dec k org) as [->|Hne].
  - exists s'; split; [apply get_set_same|].
    apply Hincl; replace s with names by congruence; exact Hin.
  - exists names; rewrite get_set_other by exact Hne; auto.
Qed.

Lemma explicit_repos_lists entries acc org_repos :
  explicit_repos entries acc = Some org_repos ->
  (forall org repo, listed acc org repo -> listed org_repos org repo)
  /\ forall entry, In entry entries ->
       exists org repo, entry = slash_join org repo /\ listed org_repos org repo.
Proof.
  revert acc; induction entries as [|e entries IH]; intros acc.
  - simpl; intros [= <-]; split; [auto | intros entry []].
  - rewrite RunFacts.explicit_repos_cons.
    destruct (split "/" e) as [|a [|b [|c rest]]] eqn:E; simpl; try discriminate.
    intros Hrun; destruct (IH _ Hrun) as (Hmono & Hrest).
    destruct (get_setdefault acc a []) as (s & Hs).
    assert (Hacc : forall org repo, listed acc org repo -> listed org_repos org repo).
    { intros org repo H; apply Hmono; unfold PyDict.getd; rewrite Hs.
      eapply listed_set; [exact Hs| |apply listed_setdefault, H].
      intros r Hr; apply RunFacts.in_set_add; left; exact Hr. }
    split; [exact Hacc|].
    intros entry [<-|Hin]; [|apply Hrest, Hin].
    exists a, b; split; [apply split_two, E|].
    apply Hmono; exists (set_add (PyDict.getd (PyDict.setdefault acc a []) a []) b).
    split; [apply get_set_same | apply RunFacts.in_set_add; right; reflexivity].
Qed.

Lemma organization_repos_keeps gh fuel options org acc :
  hoare anywhere (organization_repos gh fuel options org acc)
    (fun acc' => forall o r, listed acc o r -> listed acc' o r).
Proof.
  unfold organization_repos.
  eapply (RunFacts.hoare_bind _ anywhere_trans); [apply returns_any|]; intros names _.
  apply (RunFacts.hoare_lift _ anywhere_refl); intros acc'.
  unfold update_at, PyDict.getitem.
  destruct (get_setdefault acc org []) as (s & Hs); rewrite Hs; simpl.
  intros [= <-] o r H.
  eapply listed_set; [exact Hs| |apply listed_setdefault, H].
  intros r' Hr'; apply PersistFacts.in_set_update; left; exact Hr'.
Qed.

Lemma organizations_keep gh fuel options orgs acc :
  hoare anywhere (for_eachM (organization_repos gh fuel options) orgs acc)
    (fun acc' => forall o r, listed acc o r -> listed acc' o r).
Proof.
  apply (RunFacts.hoare_for_each_inv _ anywhere_refl anywhere_trans _
           (fun acc' => forall o r, listed acc o r -> listed acc' o r)); [|auto].
  intros org acc1 Hacc1; eapply RunFacts.hoare_post; [apply organization_repos_keeps|].
  intros acc2 Hacc2 o r H; apply Hacc2, Hacc1, H.
Qed.

(** X9.  When [main] returns 0, the output file exists, is stamped with
    the date of the run, and lists as visited every entry of [--repos] and
    every repository that the file listed before the run. *)
Theorem successful_run_is_recorded (gh : github) (fuel : nat)
    (options : ContributionReportOptions) (today : date) (w : world) :
  fst (main gh fuel options today w) = Ok 0 ->
  exists data,
    PyDict.get (files (snd (main gh fuel options today w))) (output_file options)
    = Some data
    /\ j_last_updated data = strftime_Ymd today
    /\ (forall entry, In entry (repos options) -> In entry (j_repos_visited data))
    /\ forall file name,
         PyDict.get (files w) (output_file options) = Some file ->
         In name (j_repos_visited file) -> In name (j_repos_visited data).
Proof.
  intros Hcode.
  assert (Hmain : main gh fuel options today w
                  = mbind (load_existing_data (output_file options) today)
                      (after_load gh fuel options today) w).
  { revert Hcode; rewrite RunFacts.main_unfold.
    destruct (repos options), (orgs options); try reflexivity; simpl; discriminate. }
  rewrite Hmain in Hcode |- *; clear Hmain; unfold mbind in Hcode |- *.
  pose proof (RunFacts.load_existing_data_world (output_file options) today w) as Hw.
  pose proof (RunFacts.load_existing_data_fields (output_file options) today w) as Hfields.
  destruct (load_existing_data (output_file options) today w) as [[loaded|e] w0];
    simpl in Hw; subst w0; [|discriminate].
  specialize (Hfields loaded eq_refl).
  unfold after_load in Hcode |- *.
  destruct (explicit_repos (repos options) PyDict.empty) as [org_repos|] eqn:Ex;
    [|discriminate].
  destruct (explicit_repos_lists _ _ _ Ex) as (_ & Hentries).
  unfold mbind in Hcode |- *.
  pose proof (proj2 (organizations_keep gh fuel options (orgs options) org_repos w)) as Horgs.
  destruct (for_eachM (organization_repos gh fuel options) (orgs options) org_repos w)
    as [[org_repos'|e] w1]; [|discriminate].
  specialize (Horgs org_repos' eq_refl).
  pose proof (proj2 (visit_all_visits gh fuel options today org_repos' loaded w1)) as Hvisit.
  destruct (visit_all gh fuel options today org_repos' loaded w1) as [[data'|e] w2];
    [|discriminate].
  destruct (Hvisit data' eq_refl) as (Hkeep & Hall).
  simpl; eexists; split; [apply get_set_same|]; split; [reflexivity|]; split.
  - intros entry Hin; destruct (Hentries entry Hin) as (o & r & -> & Hlisted).
    destruct (Horgs o r Hlisted) as (names & Hget & Hr).
    simpl; eapply Hall; [apply get_Some_in, Hget | exact Hr].
  - intros file name Hfile Hname; rewrite Hfile in Hfields.
    simpl; apply Hkeep, RunFacts.set_mem_true, Hfields, Hname.
Qed.

Lemma successful_run_is_recorded_witness :
  exists data,
    PyDict.get
      (files (snd (main Scenario.bob_and_carol 3 Scenario.widgets Scenario.later_date
                     Scenario.second_run)))
      (output_file Scenario.widgets)
    = Some data
    /\ j_last_updated data = strftime_Ymd Scenario.later_date
    /\ (forall entry, In entry (repos Scenario.widgets) -> In entry (j_repos_visited data))
    /\ forall file name,
         PyDict.get (files Scenario.second_run) (output_file Scenario.widgets) = Some file ->
         In name (j_repos_visited file) -> In name (j_repos_visited data).
Proof.
  apply (successful_run_is_recorded Scenario.bob_and_carol 3 Scenario.widgets
           Scenario.later_date Scenario.second_run).
  vm_compute; reflexivity.
Defined.

End OutcomeFacts.

(* ================================================================== *)
(** * Facts about the renderer and the transport *)

Module RenderFacts.

Import Grapher Kind Totals Render PyDictFacts.

Lemma IsoDate_raises key e : IsoDate key = Raise e -> e = ValueError.
Proof.
  unfold IsoDate, strptime_Ym, strptime.
  destruct (format_Ym key) as [|[a [|c r]] l]; try (intros [= <-]; reflexivity).
  destruct (valid_date a); [discriminate | intros [= <-]; reflexivity].
Qed.

Lemma add_counter_outcome since counter totals :
  match add_counter since counter totals with
  | Ok _ => forall key, In key (PyDict.keys counter) -> exists d, IsoDate key = Ok d
  | Raise e =>
      e = ValueError
      /\ exists key, In key (PyDict.keys counter) /\ IsoDate key = Raise ValueError
  end.
Proof.
  revert totals; induction counter as [|[k0 a0] counter IH]; intros [total overall].
  - simpl; intros key [].
  - rewrite GrapherFacts.add_counter_cons; cbv beta iota.
    destruct (IsoDate k0) as [d|e] eqn:Hd; cbn [rbind].
    + assert (Hstep : exists t',
                (if date_ltb d since then Ok (total, overall)
                 else
                   rbind (PyDict.iadd (PyDict.setdefault total k0 0) k0 a0) (fun total =>
                   rbind (PyDict.iadd (PyDict.setdefault overall k0 0) k0 a0)
                     (fun overall => Ok (total, overall)))) = Ok t').
      { destruct (date_ltb d since); [eauto|].
        rewrite !GrapherFacts.iadd_setdefault; cbn [rbind]; eauto. }
      destruct Hstep as (t' & ->); cbn [rbind]; specialize (IH t').
      destruct (add_counter since counter t') as [r|e].
      * intros key [<-|Hin]; eauto.
      * destruct IH as (-> & key & Hin & Hkey); split; [reflexivity|].
        exists key; split; [right; exact Hin | exact Hkey].
    + pose proof (IsoDate_raises _ _ Hd); subst e; split; [reflexivity|].
      exists k0; split; [left; reflexivity | exact Hd].
Qed.

Lemma author_totals_outcome since contrib overall :
  match author_totals since contrib overall with
  | Ok _ => readable_keys contrib
  | Raise e =>
      e = ValueError
      /\ exists k key,
           In key (PyDict.keys (stored_counter k contrib))
           /\ IsoDate key = Raise ValueError
  end.
Proof.
  unfold author_totals.
  pose proof (add_counter_outcome since (j_prs_by_month contrib) (PyDict.empty, overall))
    as H1.
  destruct (add_counter since (j_prs_by_month contrib) _) as [t1|e]; cbn [rbind];
    [|destruct H1 as (-> & key & ? & ?); split; [reflexivity | exists Prs, key; auto]].
  pose proof (add_counter_outcome since (j_reviews_by_month contrib) t1) as H2.
  destruct (add_counter since (j_reviews_by_month contrib) _) as [t2|e]; cbn [rbind];
    [|destruct H2 as (-> & key & ? & ?); split; [reflexivity | exists Reviews, key; auto]].
  pose proof (add_counter_outcome since (j_pr_comments_by_month contrib) t2) as H3.
  destruct (add_counter since (j_pr_comments_by_month contrib) _) as [t3|e]; cbn [rbind];
    [|destruct H3 as (-> & key & ? & ?); split; [reflexivity | exists PrComments, key; auto]].
  pose proof (add_counter_outcome since (j_issues_by_month contrib) t3) as H4.
  destruct (add_counter since (j_issues_by_month contrib) _) as [t4|e]; cbn [rbind];
    [|destruct H4 as (-> & key & ? & ?); split; [reflexivity | exists Issues, key; auto]].
  pose proof (add_counter_outcome since (j_issue_comments_by_month contrib) t4) as H5.
  destruct (add_counter since (j_issue_comments_by_month contrib) _) as [t5|e];
    [|destruct H5 as (-> & key & ? & ?); split;
      [reflexivity | exists IssueComments, key; auto]].
  intros k key; destruct k; simpl; auto.
Qed.

Lemma author_totals_ok since contrib overall :
  readable_keys contrib ->
  exists total overall', author_totals since contrib overall = Ok (total, overall').
Proof.
  intros Hread; pose proof (author_totals_outcome since contrib overall) as H.
  destruct (author_totals since contrib overall) as [[total overall']|e]; [eauto|].
  destruct H as (_ & k & key & Hin & Hkey).
  destruct (Hread k key Hin) as (d & Hd); congruence.
Qed.

Lemma plot_loop_outcome options entries v :
  match for_each (plot_author options) entries v with
  | Ok _ => forall a c, In (a, c) (filter (shown options) entries) -> readable_keys c
  | Raise e => e = ValueError /\ unreadable (filter (shown options) entries)
  end.
Proof.
  revert v; induction entries as [|[a c] entries IH]; intros v.
  - simpl; intros a c [].
  - rewrite PersistFacts.for_each_cons, GrapherFacts.filter_shown_cons.
    destruct (filtered_out options a) eqn:E.
    + rewrite GrapherFacts.plot_author_skipped by exact E; cbn [rbind]; apply IH.
    + pose proof (author_totals_outcome (since options) c (overall_contributions v)) as H.
      destruct (author_totals (since options) c (overall_contributions v))
        as [[total overall']|e] eqn:Hrun.
      * rewrite (GrapherFacts.plot_author_shown _ _ _ _ _ _ E Hrun); cbn [rbind].
        match goal with |- match for_each _ _ ?v1 with _ => _ end => specialize (IH v1) end.
        destruct (for_each (plot_author options) entries _) as [v'|e'].
        -- intros a' c' [[= <- <-]|Hin]; [exact H | eapply IH; eauto].
        -- destruct IH as (-> & a' & c' & k & key & Hin & Hkey & Hbad).
           split; [reflexivity|]; exists a', c', k, key; split; [right; exact Hin | auto].
      * unfold plot_author; rewrite E, Hrun; cbn [rbind].
        destruct H as (-> & k & key & Hin & Hbad); split; [reflexivity|].
        exists a, c, k, key; split; [left; reflexivity | auto].
Qed.

(** X11.  Once the input file is read, the renderer raises nothing exactly
    when every month key of every author that passes the [--authors] filter
    is one that [IsoDate] reads (authors that the filter skips are never
    read); otherwise it raises [ValueError], an author that passes having a
    key that [IsoDate] rejects. *)
Theorem renderer_outcome (options : ContributionReportOptions) (data : dataset_json)
    (w : world) :
  PyDict.get (files w) (input_file options) = Some data ->
  match fst (plot_authors options w) with
  | Ok _ =>
      forall a c,
        In (a, c) (filter (shown options) (j_author_contrib data)) -> readable_keys c
  | Raise e =>
      e = ValueError /\ unreadable (filter (shown options) (j_author_contrib data))
  end.
Proof.
  intros Hfile; unfold plot_authors; rewrite Hfile; unfold PyDict.items; simpl fst.
  apply plot_loop_outcome.
Qed.

Lemma renderer_outcome_witness :
  match
    fst (plot_authors Scenario.anonymous (World [("monthly_activity.yaml", misdated)] []))
  with
  | Ok _ =>
      forall a c,
        In (a, c) (filter (shown Scenario.anonymous) (j_author_contrib misdated)) ->
        readable_keys c
  | Raise e =>
      e = ValueError
      /\ unreadable (filter (shown Scenario.anonymous) (j_author_contrib misdated))
  end.
Proof.
  apply (renderer_outcome Scenario.anonymous misdated
           (World [("monthly_activity.yaml", misdated)] [])).
  reflexivity.
Defined.

Example misdated_is_rejected :
  fst (plot_authors Scenario.anonymous (World [("monthly_activity.yaml", misdated)] []))
  = Raise ValueError
  /\ exists v,
       fst (plot_authors (Options ["alice"; "bob"] true (Date 2023 1 1)
                            "monthly_activity.yaml")
              (World [("monthly_activity.yaml", misdated)] [])) = Ok v.
Proof. split; [|eexists]; vm_compute; reflexivity. Qed.

(** ** Labels *)

Lemma plot_loop_logins options entries v :
  anonymize options = false ->
  (forall a c, In (a, c) (filter (shown options) entries) -> readable_keys c) ->
  exists v' fresh,
    for_each (plot_author options) entries v = Ok v'
    /\ plotted v' = (plotted v ++ fresh)%list
    /\ author_number v' = author_number v + Z.of_nat (List.length fresh)
    /\ Forall2 (plots_login (since options)) (filter (shown options) entries) fresh.
Proof.
  intros Hanon; revert v; induction entries as [|[a c] entries IH]; intros v Hkeys.
  - exists v, []; rewrite app_nil_r; simpl; repeat split; [lia | constructor].
  - rewrite PersistFacts.for_each_cons.
    rewrite GrapherFacts.filter_shown_cons in Hkeys |- *.
    destruct (filtered_out options a) eqn:E.
    + rewrite GrapherFacts.plot_author_skipped by exact E; cbn [rbind].
      apply IH, Hkeys.
    + destruct (author_totals_ok (since options) c (overall_contributions v))
        as (total & overall' & Hrun); [eapply Hkeys; left; reflexivity|].
      rewrite (GrapherFacts.plot_author_shown _ _ _ _ _ _ E Hrun), Hanon; cbn [rbind].
      edestruct (IH (LoopVars (author_number v + 1) overall'
                       (plotted v ++ [Plot (PyDict.keys total) (PyDict.values total) a])%list))
        as (v' & fresh & Hrest & Hplotted & Hnumber & Hall).
      { intros a' c' Hin; eapply Hkeys; right; exact Hin. }
      cbn [plotted author_number] in Hplotted, Hnumber.
      exists v', (Plot (PyDict.keys total) (PyDict.values total) a :: fresh).
      split; [exact Hrest|]; split; [|split].
      * rewrite Hplotted, <- app_assoc; reflexivity.
      * rewrite Hnumber; cbn [List.length]; lia.
      * constructor; [|exact Hall].
        split; [reflexivity|].
        exists (overall_contributions v), total, overall'; auto.
Qed.

(** X12.  Without [--anonymize], when the month keys of the authors that
    pass the filter are readable, the renderer makes one plot call per
    author that passes, in the order of the dataset, labelled with the
    login of the author and drawing the totals of that author; at the end
    [author_number] is one more than the number of plot calls. *)
Theorem logins_label_the_plots (options : ContributionReportOptions)
    (data : dataset_json) (w : world) :
  anonymize options = false ->
  PyDict.get (files w) (input_file options) = Some data ->
  (forall a c,
     In (a, c) (filter (shown options) (j_author_contrib data)) -> readable_keys c) ->
  exists v,
    plot_authors options w = (Ok v, w)
    /\ map plot_label (plotted v)
       = map fst (filter (shown options) (j_author_contrib data))
    /\ Forall2 (plots_login (since options))
         (filter (shown options) (j_author_contrib data)) (plotted v)
    /\ author_number v = 1 + Z.of_nat (List.length (plotted v)).
Proof.
  intros Hanon Hfile Hkeys.
  destruct (plot_loop_logins options (j_author_contrib data) (LoopVars 1 PyDict.empty [])
              Hanon Hkeys) as (v & fresh & Hrun & Hplotted & Hnumber & Hall).
  simpl in Hplotted, Hnumber.
  exists v; unfold plot_authors; rewrite Hfile; unfold PyDict.items; rewrite Hrun.
  split; [reflexivity|]; rewrite Hplotted; split; [|split; [exact Hall | exact Hnumber]].
  clear - Hall; induction Hall as [|e p es ps (Hlabel & _) _ IH]; simpl; [reflexivity|].
  rewrite Hlabel, IH; reflexivity.
Qed.

Lemma three_authors_readable :
  forall a c,
    In (a, c) (filter (shown Scenario.since_2023_01) (j_author_contrib Scenario.three_authors)) ->
    readable_keys c.
Proof.
  intros a c Hin k key; apply (GrapherFacts.three_authors_well_keyed a c).
  apply filter_In in Hin; exact (proj1 Hin).
Qed.

Lemma logins_label_the_plots_witness :
  let w := World [("monthly_activity.yaml", Scenario.three_authors)] [] in
  exists v,
    plot_authors Scenario.since_2023_01 w = (Ok v, w)
    /\ map plot_label (plotted v)
       = map fst (filter (shown Scenario.since_2023_01)
                    (j_author_contrib Scenario.three_authors))
    /\ Forall2 (plots_login (since Scenario.since_2023_01))
         (filter (shown Scenario.since_2023_01) (j_author_contrib Scenario.three_authors))
         (plotted v)
    /\ author_number v = 1 + Z.of_nat (List.length (plotted v)).
Proof.
  intros w.
  apply (logins_label_the_plots Scenario.since_2023_01 Scenario.three_authors w).
  - reflexivity.
  - reflexivity.
  - exact three_authors_readable.
Defined.

(** ** The overall contributions *)

Lemma author_totals_overall since contrib overall :
  well_keyed contrib ->
  exists total overall',
    author_totals since contrib overall = Ok (total, overall')
    /\ forall month,
         PyDict.get overall' month
         = if counted since month && mentioned contrib month
           then Some (count_in overall month + activity contrib month)
           else PyDict.get overall month.
Proof.
  intros Hok; unfold author_totals.
  destruct (Hok Prs) as [W1 K1]; destruct (Hok Reviews) as [W2 K2];
    destruct (Hok PrComments) as [W3 K3]; destruct (Hok Issues) as [W4 K4];
    destruct (Hok IssueComments) as [W5 K5]; cbn [stored_counter] in *.
  destruct (GrapherFacts.add_counter_spec since _ PyDict.empty overall W1 K1)
    as (t1 & o1 & R1 & _ & T1).
  destruct (GrapherFacts.add_counter_spec since _ t1 o1 W2 K2) as (t2 & o2 & R2 & _ & T2).
  destruct (GrapherFacts.add_counter_spec since _ t2 o2 W3 K3) as (t3 & o3 & R3 & _ & T3).
  destruct (GrapherFacts.add_counter_spec since _ t3 o3 W4 K4) as (t4 & o4 & R4 & _ & T4).
  destruct (GrapherFacts.add_counter_spec since _ t4 o4 W5 K5) as (t5 & o5 & R5 & _ & T5).
  rewrite R1; simpl rbind; rewrite R2; simpl rbind; rewrite R3; simpl rbind;
    rewrite R4; simpl rbind.
  exists t5, o5; split; [exact R5|].
  intros month; unfold activity, mentioned, PyDict.contains;
    cbn [existsb Kind.all stored_counter].
  rewrite (T5 month); unfold count_in; rewrite (T4 month); unfold count_in;
    rewrite (T3 month); unfold count_in; rewrite (T2 month); unfold count_in;
    rewrite (T1 month); unfold count_in.
  destruct (counted since month);
    destruct (PyDict.get (j_prs_by_month contrib) month);
    destruct (PyDict.get (j_reviews_by_month contrib) month);
    destruct (PyDict.get (j_pr_comments_by_month contrib) month);
    destruct (PyDict.get (j_issues_by_month contrib) month);
    destruct (PyDict.get (j_issue_comments_by_month contrib) month);
    destruct (PyDict.get overall month);
    cbn [andb orb]; try reflexivity; f_equal; lia.
Qed.

Lemma activity_unmentioned contrib month :
  mentioned contrib month = false -> activity contrib month = 0.
Proof.
  unfold mentioned, activity, PyDict.contains, count_in;
    cbn [existsb Kind.all stored_counter].
  destruct (PyDict.get (j_prs_by_month contrib) month);
    destruct (PyDict.get (j_reviews_by_month contrib) month);
    destruct (PyDict.get (j_pr_comments_by_month contrib) month);
    destruct (PyDict.get (j_issues_by_month contrib) month);
    destruct (PyDict.get (j_issue_comments_by_month contrib) month);
    cbn [orb]; try discriminate; reflexivity.
Qed.

Lemma sum_activity_unmentioned entries month :
  existsb (fun entry => mentioned (snd entry) month) entries = false ->
  sum_activity entries month = 0.
Proof.
  induction entries as [|e entries IH]; simpl; [reflexivity|].
  intros H; apply orb_false_elim in H; destruct H as (He & Hrest).
  rewrite (activity_unmentioned _ _ He), (IH Hrest); reflexivity.
Qed.

Lemma plot_loop_overall options entries v :
  (forall a c, In (a, c) (filter (shown options) entries) -> well_keyed c) ->
  exists v',
    for_each (plot_author options) entries v = Ok v'
    /\ forall month,
         PyDict.get (overall_contributions v') month
         = if counted (since options) month
              && existsb (fun entry => mentioned (snd entry) month)
                   (filter (shown options) entries)
           then Some (count_in (overall_contributions v) month
                      + sum_activity (filter (shown options) entries) month)
           else PyDict.get (overall_contributions v) month.
Proof.
  revert v; induction entries as [|[a c] entries IH]; intros v Hkeys.
  - exists v; split; [reflexivity|].
    intros month; simpl; rewrite andb_false_r; reflexivity.
  - rewrite PersistFacts.for_each_cons.
    rewrite GrapherFacts.filter_shown_cons in Hkeys |- *.
    destruct (filtered_out options a) eqn:E.
    + rewrite GrapherFacts.plot_author_skipped by exact E; cbn [rbind].
      apply IH, Hkeys.
    + destruct (author_totals_overall (since options) c (overall_contributions v))
        as (total & overall' & Hrun & Hoverall); [eapply Hkeys; left; reflexivity|].
      rewrite (GrapherFacts.plot_author_shown _ _ _ _ _ _ E Hrun); cbn [rbind].
      match goal with
      | |- exists _, for_each _ _ ?v1 = _ /\ _ =>
          destruct (IH v1) as (v' & Hrest & Hv')
      end.
      { intros a' c' Hin; eapply Hkeys; right; exact Hin. }
      exists v'; split; [exact Hrest|].
      intros month; rewrite (Hv' month); cbn [overall_contributions existsb snd].
      assert (Hc : count_in overall' month
                   = if counted (since options) month && mentioned c month
                     then count_in (overall_contributions v) month + activity c month
                     else count_in (overall_contributions v) month).
      { unfold count_in; rewrite (Hoverall month).
        destruct (counted (since options) month && mentioned c month); reflexivity. }
      rewrite Hc, (Hoverall month); clear Hc.
      unfold sum_activity; cbn [fold_right snd];
        fold (sum_activity (filter (shown options) entries) month).
      destruct (counted (since options) month); cbn [andb]; [|reflexivity].
      destruct (mentioned c month) eqn:M; cbn [orb].
      * destruct (existsb _ (filter (shown options) entries)) eqn:X; f_equal; [lia|].
        rewrite (sum_activity_unmentioned _ _ X); lia.
      * rewrite (activity_unmentioned _ _ M).
        destruct (existsb _ (filter (shown options) entries)); [f_equal; lia | reflexivity].
Qed.

(** X13.  When the counters of the authors that pass the filter are
    dictionaries with readable month keys, [overall_contributions] holds at
    the end of the loop, for each month that is not before the start and
    that some author that passes mentions, the sum of the activity in that
    month of the authors that pass, and holds no other month. *)
Theorem overall_sums_the_shown (options : ContributionReportOptions)
    (data : dataset_json) (w : world) :
  PyDict.get (files w) (input_file options) = Some data ->
  (forall a c,
     In (a, c) (filter (shown options) (j_author_contrib data)) -> well_keyed c) ->
  exists v,
    plot_authors options w = (Ok v, w)
    /\ forall month,
         PyDict.get (overall_contributions v) month
         = if counted (since options) month
              && existsb (fun entry => mentioned (snd entry) month)
                   (filter (shown options) (j_author_contrib data))
           then Some (sum_activity (filter (shown options) (j_author_contrib data)) month)
           else None.
Proof.
  intros Hfile Hkeys.
  destruct (plot_loop_overall options (j_author_contrib data) (LoopVars 1 PyDict.empty [])
              Hkeys) as (v & Hrun & Hv).
  exists v; unfold plot_authors; rewrite Hfile; unfold PyDict.items; rewrite Hrun.
  split; [reflexivity|].
  intros month; rewrite (Hv month); reflexivity.
Qed.

Lemma overall_sums_the_shown_witness :
  let w := World [("monthly_activity.yaml", Scenario.three_authors)] [] in
  exists v,
    plot_authors Scenario.anonymous w = (Ok v, w)
    /\ forall month,
         PyDict.get (overall_contributions v) month
         = if counted (since Scenario.anonymous) month
              && existsb (fun entry => mentioned (snd entry) month)
                   (filter (shown Scenario.anonymous)
                      (j_author_contrib Scenario.three_authors))
           then Some (sum_activity
                        (filter (shown Scenario.anonymous)
                           (j_author_contrib Scenario.three_authors)) month)
           else None.
Proof.
  intros w.
  apply (overall_sums_the_shown Scenario.anonymous Scenario.three_authors w).
  - reflexivity.
  - intros a c Hin; apply (GrapherFacts.three_authors_well_keyed a c).
    apply filter_In in Hin; exact (proj1 Hin).
Defined.

End RenderFacts.

Module TransportFacts.

Import Transport.

(** X14.  [graphql_query] returns a body exactly when some attempt gets a
    response with status 200 whose body decodes and every attempt before it
    was retried, that is, raised one of the caught exceptions or got another
    status: the body returned is the one of that response, and the loop has
    slept 10 seconds after each caught exception and 60 after each other
    status, in order.  So it never returns the body of a response whose
    status is not 200. *)
Theorem graphql_query_returns_first_200 (attempts : list attempt) (slept : list Z)
    (body : response) (slept' : list Z) (rest : list attempt) :
  graphql_query attempts slept = (Ok body, slept', rest)
  <-> exists failed,
        attempts = (failed ++ Response 200 (Ok body) :: rest)%list
        /\ forallb retried failed = true
        /\ slept' = (slept ++ map pause failed)%list.
Proof.
  split.
  - revert slept; induction attempts as [|a attempts IH]; intros slept; simpl;
      [discriminate|].
    destruct a as [|e|status_code json].
    + intros H; destruct (IH _ H) as (failed & -> & Hall & ->).
      exists (Caught :: failed); simpl; rewrite <- app_assoc; auto.
    + discriminate.
    + destruct (status_code =? 200) eqn:E; simpl.
      * apply Z.eqb_eq in E; subst status_code; intros [= -> <- <-].
        exists []; simpl; rewrite app_nil_r; auto.
      * intros H; destruct (IH _ H) as (failed & -> & Hall & ->).
        exists (Response status_code json :: failed); simpl.
        rewrite E, <- app_assoc; auto.
  - intros (failed & -> & Hall & ->); revert slept Hall.
    induction failed as [|a failed IH]; intros slept Hall; simpl.
    + rewrite app_nil_r; reflexivity.
    + simpl in Hall; apply andb_prop in Hall; destruct Hall as (Ha & Hall).
      destruct a as [|e|status_code json]; simpl in Ha; try discriminate.
      * rewrite (IH _ Hall), <- app_assoc; reflexivity.
      * rewrite Ha, (IH _ Hall), <- app_assoc; reflexivity.
Qed.

End TransportFacts.

(* ================================================================== *)
(** * Facts about interrupted runs *)

Module ResumeFacts.

Import Collector Log Resume PyDictFacts.

Lemma visit_repo_dated gh fuel options today org_name repo_name data :
  hoare (stored (dated_as (last_updated data)))
    (visit_repo gh fuel options today org_name repo_name data)
    (fun data' => last_updated data' = last_updated data).
Proof.
  unfold visit_repo.
  pose proof (RunFacts.stored_refl (dated_as (last_updated data))) as Hrefl.
  pose proof (RunFacts.stored_trans (dated_as (last_updated data))) as Htrans.
  eapply (RunFacts.hoare_bind _ Htrans) with (Q := fun _ => True).
  { apply (RunFacts.query_prs_loop_hoare _ (fun _ => True) Hrefl Htrans
             (RunFacts.stored_request _)); auto. }
  intros prs _; eapply (RunFacts.hoare_bind _ Htrans) with (Q := fun _ => True).
  { apply (RunFacts.hoare_lift _ Hrefl); auto. }
  intros contrib _; eapply (RunFacts.hoare_bind _ Htrans) with (Q := fun _ => True).
  { apply (RunFacts.query_issues_loop_hoare _ (fun _ => True) Hrefl Htrans
             (RunFacts.stored_request _)); auto. }
  intros found _; eapply (RunFacts.hoare_bind _ Htrans) with (Q := fun _ => True).
  { apply (RunFacts.hoare_lift _ Hrefl); auto. }
  intros contrib' _; eapply (RunFacts.hoare_bind _ Htrans) with (Q := fun _ => True).
  { apply RunFacts.stored_write; reflexivity. }
  intros _ _; apply (RunFacts.hoare_ret _ Hrefl); reflexivity.
Qed.

Lemma visit_all_dated gh fuel options today org_repos data :
  hoare (stored (dated_as (last_updated data)))
    (visit_all gh fuel options today org_repos data) (fun _ => True).
Proof.
  pose proof (RunFacts.stored_refl (dated_as (last_updated data))) as Hrefl.
  pose proof (RunFacts.stored_trans (dated_as (last_updated data))) as Htrans.
  eapply RunFacts.hoare_post; [|auto].
  unfold visit_all.
  apply (RunFacts.hoare_for_each_inv _ Hrefl Htrans _
           (fun d => last_updated d = last_updated data)); [|reflexivity].
  intros [org_name names] d Hd.
  apply (RunFacts.hoare_for_each_inv _ Hrefl Htrans _
           (fun d => last_updated d = last_updated data)); [|exact Hd].
  intros name d' Hd'; rewrite <- Hd'.
  eapply RunFacts.hoare_post; [apply visit_repo_dated|].
  intros d'' Hd''; exact Hd''.
Qed.

Lemma organizations_dated gh fuel options since orgs org_repos :
  hoare (stored (dated_as since))
    (for_eachM (organization_repos gh fuel options) orgs org_repos) (fun _ => True).
Proof.
  pose proof (RunFacts.stored_refl (dated_as since)) as Hrefl.
  pose proof (RunFacts.stored_trans (dated_as since)) as Htrans.
  apply (RunFacts.hoare_for_each_inv _ Hrefl Htrans); [|exact I].
  intros org d _; unfold organization_repos, query_org_repos_from_name.
  eapply (RunFacts.hoare_bind _ Htrans) with (Q := fun _ => True).
  - eapply RunFacts.hoare_post; [|auto].
    apply (RunFacts.query_org_repos_loop_hoare _ (fun _ => True) Hrefl Htrans
             (RunFacts.stored_request _)); auto.
  - intros names _; apply (RunFacts.hoare_lift _ Hrefl); auto.
Qed.

Lemma load_existing_data_date filename today w loaded :
  fst (load_existing_data filename today w) = Ok loaded ->
  last_updated loaded = date_before today w filename.
Proof.
  unfold load_existing_data, date_before.
  destruct (PyDict.get (files w) filename) as [file|]; simpl.
  - unfold load_data; destruct (for_each _ _ _); simpl; [|discriminate].
    intros [= <-]; reflexivity.
  - intros [= <-]; reflexivity.
Qed.

(** X16.  A run that raises leaves the output file, if there is one, with
    the date of the last update with which the run started (that of the
    file it found, or the day of the run when it found none): whatever was
    saved after each repository keeps that date, which only a run that
    returns 0 moves to the day of the run. *)
Theorem interrupted_run_keeps_the_date (gh : github) (fuel : nat)
    (options : ContributionReportOptions) (today : date) (w : world) (e : exn) :
  fst (main gh fuel options today w) = Raise e ->
  match PyDict.get (files (snd (main gh fuel options today w))) (output_file options) with
  | Some file => j_last_updated file = date_before today w (output_file options)
  | None => True
  end.
Proof.
  intros Hraise.
  assert (Hstart : forall file,
            PyDict.get (files w) (output_file options) = Some file ->
            j_last_updated file = date_before today w (output_file options))
    by (intros file H; unfold date_before; rewrite H; reflexivity).
  assert (Hmain : main gh fuel options today w
                  = mbind (load_existing_data (output_file options) today)
                      (after_load gh fuel options today) w).
  { revert Hraise; rewrite RunFacts.main_unfold.
    destruct (repos options), (orgs options); try reflexivity; simpl; discriminate. }
  rewrite Hmain in Hraise |- *; clear Hmain; unfold mbind in Hraise |- *.
  pose proof (RunFacts.load_existing_data_world (output_file options) today w) as Hw.
  pose proof (load_existing_data_date (output_file options) today w) as Hdate.
  destruct (load_existing_data (output_file options) today w) as [[loaded|e0] w0];
    simpl in Hw; subst w0.
  2:{ simpl; destruct (PyDict.get (files w) (output_file options)) eqn:G; auto. }
  specialize (Hdate loaded eq_refl).
  assert (Hend : forall w',
            stored (dated_as (last_updated loaded)) w w' ->
            match PyDict.get (files w') (output_file options) with
            | Some file => j_last_updated file = date_before today w (output_file options)
            | None => True
            end).
  { intros w' Hstored.
    destruct (PyDict.get (files w') (output_file options)) as [file|] eqn:G; [|exact I].
    destruct (Hstored _ _ G) as [Hold|Hnew]; [apply Hstart, Hold|].
    unfold dated_as in Hnew; congruence. }
  unfold after_load in Hraise |- *.
  destruct (explicit_repos (repos options) PyDict.empty) as [org_repos|]; [|discriminate].
  unfold mbind in Hraise |- *.
  pose proof (proj1 (organizations_dated gh fuel options (last_updated loaded)
                       (orgs options) org_repos w)) as S1.
  destruct (for_eachM (organization_repos gh fuel options) (orgs options) org_repos w)
    as [[org_repos'|e1] w1]; simpl in S1; [|apply Hend, S1].
  pose proof (proj1 (visit_all_dated gh fuel options today org_repos' loaded w1)) as S2.
  destruct (visit_all gh fuel options today org_repos' loaded w1) as [[data'|e2] w2];
    simpl in S2; [discriminate|].
  apply Hend; eapply RunFacts.stored_trans; eauto.
Qed.

Lemma interrupted_run_keeps_the_date_witness :
  match
    PyDict.get
      (files (snd (main flaky 3 widgets_and_gadgets Scenario.later_date
                     Scenario.second_run)))
      (output_file widgets_and_gadgets)
  with
  | Some file =>
      j_last_updated file
      = date_before Scenario.later_date Scenario.second_run
          (output_file widgets_and_gadgets)
  | None => True
  end.
Proof.
  apply (interrupted_run_keeps_the_date flaky 3 widgets_and_gadgets Scenario.later_date
           Scenario.second_run KeyError).
  vm_compute; reflexivity.
Defined.

Example interrupted_after_widgets :
  exists file,
    PyDict.get
      (files (snd (main flaky 3 widgets_and_gadgets Scenario.later_date
                     Scenario.second_run)))
      "monthly_activity.yaml" = Some file
    /\ j_last_updated file = "2024-04-02"
    /\ j_repos_visited file = ["acme/widgets"]
    /\ file <> Scenario.widgets_file.
Proof.
  eexists; split; [vm_compute; reflexivity|].
  split; [reflexivity|]; split; [reflexivity | discriminate].
Qed.

End ResumeFacts.


(* ================================================================== *)
(** * Facts about the visit of a repository *)

Module ServedFacts.

Import Collector Kind Pages Complete Tally Served Log PyDictFacts.

Lemma Forall2_map {A B A' B'} (R : A -> B -> Prop) (R' : A' -> B' -> Prop)
    (f : A -> A') (g : B -> B') xs ys :
  (forall x y, R x y -> R' (f x) (g y)) ->
  Forall2 R xs ys -> Forall2 R' (map f xs) (map g ys).
Proof. intros H; induction 1; simpl; constructor; auto. Qed.

Lemma reviews_count_as rs reviews :
  Forall2 is_review rs reviews ->
  Forall2 counts_as (map (fun '(l, s) => (Reviews, l, s)) rs)
    (map (fun r => Event Reviews (review_login r) (dt_date (submitted_at r))) reviews).
Proof.
  apply Forall2_map; intros [l s] r (Hl & _ & Ht); simpl in *.
  repeat split; [exact Hl | eauto].
Qed.

Lemma comments_count_as k cs comments :
  Forall2 is_comment cs comments ->
  Forall2 counts_as (map (fun '(l, s) => (k, l, s)) cs)
    (map (fun c => Event k (comment_login c) (dt_date (comment_created_at c))) comments).
Proof.
  apply Forall2_map; intros [l s] c (Hl & _ & Ht); simpl in *.
  repeat split; [exact Hl | eauto].
Qed.

Lemma record_counts_as pr entry :
  records_pr pr entry -> Forall2 counts_as (served_of_pr pr) (events_of_pr (snd entry)).
Proof.
  intros (_ & Hlogin & _ & Htime & Hreviews & Hcomments).
  unfold served_of_pr, events_of_pr; rewrite <- Hlogin.
  constructor; [repeat split; eauto|].
  apply Forall2_app; [apply reviews_count_as | apply comments_count_as]; assumption.
Qed.

Lemma issue_counts_as issue entry :
  records_issue issue entry ->
  Forall2 counts_as (served_of_issue issue) (events_of_issue (snd entry)).
Proof.
  intros (_ & Hlogin & _ & Htime & Hcomments).
  unfold served_of_issue, events_of_issue; rewrite <- Hlogin.
  constructor; [repeat split; eauto|].
  apply comments_count_as; assumption.
Qed.

Lemma served_authored prs :
  flat_map served_of_pr prs = flat_map served_of_pr (filter authored prs).
Proof.
  induction prs as [|pr prs IH]; simpl; [reflexivity|].
  unfold authored at 1, served_of_pr at 1.
  destruct (pr_author pr) eqn:E; simpl; rewrite IH; [|reflexivity].
  unfold served_of_pr at 2; rewrite E; reflexivity.
Qed.

Lemma served_issue_authored found :
  flat_map served_of_issue found = flat_map served_of_issue (filter issue_authored found).
Proof.
  induction found as [|issue found IH]; simpl; [reflexivity|].
  unfold issue_authored at 1, served_of_issue at 1.
  destruct (issue_author issue) eqn:E; simpl; rewrite IH; [|reflexivity].
  unfold served_of_issue at 2; rewrite E; reflexivity.
Qed.

Lemma records_count_as prs entries :
  Forall2 records_pr prs entries ->
  Forall2 counts_as (flat_map served_of_pr prs)
    (flat_map events_of_pr (PyDict.values entries)).
Proof.
  unfold PyDict.values.
  induction 1 as [|pr e prs es Hrec _ IH]; cbn [map flat_map]; [constructor|].
  apply Forall2_app; [apply record_counts_as, Hrec | exact IH].
Qed.

Lemma issues_count_as found entries :
  Forall2 records_issue found entries ->
  Forall2 counts_as (flat_map served_of_issue found)
    (flat_map events_of_issue (PyDict.values entries)).
Proof.
  unfold PyDict.values.
  induction 1 as [|issue e found es Hrec _ IH]; cbn [map flat_map]; [constructor|].
  apply Forall2_app; [apply issue_counts_as, Hrec | exact IH].
Qed.

Lemma timely_in_window today acts evs :
  Forall2 counts_as acts evs -> Forall (timely today) acts -> Forall (in_window today) evs.
Proof.
  induction 1 as [|act e acts evs (_ & _ & t & Ht & Hdate) _ IH]; intros Hall;
    [constructor|].
  inversion Hall as [|? ? (t' & Ht' & Hcov) Hrest]; subst.
  constructor; [|apply IH, Hrest].
  unfold in_window; rewrite Hdate; congruence.
Qed.

Lemma occurrences_served k login key acts evs :
  Forall2 counts_as acts evs ->
  occurrences k login key evs = served_count k login key acts.
Proof.
  unfold occurrences, served_count.
  induction 1 as [|act e acts evs (Hk & Hl & t & Ht & Hdate) _ IH]; [reflexivity|].
  cbn [filter].
  assert (Hsame : is_event k login key e = is_served k login key act).
  { unfold is_event, is_served, stamp_month; rewrite Hk, Hl, Ht, Hdate; reflexivity. }
  rewrite Hsame; destruct (is_served k login key act); cbn [List.length]; lia.
Qed.

Lemma served_count_app k login key acts acts' :
  served_count k login key (acts ++ acts')
  = served_count k login key acts + served_count k login key acts'.
Proof. unfold served_count; rewrite filter_app, length_app; lia. Qed.

(** X18.  When the endpoint serves the pull requests and the issues of a
    repository on chains of pages, none with a further page of reviews or
    comments, with distinct identities and with timestamps in the window of
    [today], the visit of the repository by [main] raises nothing, issues
    one request per page, leaves the count of every kind, login and month
    higher by exactly the number of served activities of that kind, login
    and month, marks the repository as visited, keeps the date of the last
    update and saves the dataset so obtained. *)
Theorem served_repository_is_counted (gh : github) (fuel : nat)
    (options : ContributionReportOptions) (today : date)
    (org_name repo_name since : string) (data : output_data)
    (pr_pages : list (connection pr_node)) (issue_pages : list (connection issue_node))
    (w : world) :
  since = resume_date (slash_join org_name repo_name) data ->
  serves_prs gh org_name repo_name since "null" pr_pages ->
  Forall settled (flat_map nodes pr_pages) ->
  NoDup (map pr_id (filter authored (flat_map nodes pr_pages))) ->
  serves_issues gh org_name repo_name since "null" issue_pages ->
  Forall issue_settled (flat_map nodes issue_pages) ->
  NoDup (map issue_id (filter issue_authored (flat_map nodes issue_pages))) ->
  (List.length pr_pages <= fuel)%nat ->
  (List.length issue_pages <= fuel)%nat ->
  all_counts_of today (author_contrib data) ->
  Forall (timely today) (served pr_pages issue_pages) ->
  exists data',
    visit_repo gh fuel options today org_name repo_name data w
    = (Ok data',
       World (PyDict.set (files w) (output_file options) (encode data'))
         (requests w
          ++ page_requests (ask_prs org_name repo_name since) "null" pr_pages
          ++ page_requests (ask_issues org_name repo_name since) "null" issue_pages)%list)
    /\ last_updated data' = last_updated data
    /\ repos_visited data'
       = set_add (repos_visited data) (slash_join org_name repo_name)
    /\ forall k login key,
         tally k (author_contrib data') login key
         = tally k (author_contrib data) login key
           + served_count k login key (served pr_pages issue_pages).
Proof.
  intros Hsince Hprs Hsettled Hids Hissues Hisettled Hiids Hfuel Hifuel Hall Htimely.
  unfold served in Htimely; apply Forall_app in Htimely.
  destruct Htimely as (Htimely1 & Htimely2).
  destruct (CompleteFacts.query_prs_loop_complete gh org_name repo_name (token options)
              since pr_pages fuel "null" PyDict.empty w Hprs Hsettled Hids Hfuel)
    as (prs & Hq1 & Hrec1).
  apply records_count_as in Hrec1; rewrite <- served_authored in Hrec1.
  destruct (TallyFacts.count_events_spec today _ (author_contrib data) Hall
              (timely_in_window today _ _ Hrec1 Htimely1)) as (c1 & Hc1 & Hall1 & Ht1).
  destruct (CompleteFacts.query_issues_loop_complete gh org_name repo_name (token options)
              since issue_pages fuel "null" PyDict.empty
              (World (files w)
                 (requests w
                  ++ page_requests (ask_prs org_name repo_name since) "null" pr_pages)%list)
              Hissues Hisettled Hiids Hifuel)
    as (found & Hq2 & Hrec2).
  apply issues_count_as in Hrec2; rewrite <- served_issue_authored in Hrec2.
  destruct (TallyFacts.count_events_spec today _ c1 Hall1
              (timely_in_window today _ _ Hrec2 Htimely2)) as (c2 & Hc2 & Hall2 & Ht2).
  exists (OutputData (last_updated data)
            (set_add (repos_visited data) (slash_join org_name repo_name)) c2).
  split; [|split; [reflexivity|]; split; [reflexivity|]].
  - unfold visit_repo, mbind, query_prs, query_issues, lift; rewrite <- Hsince.
    change (PyDict.empty ++ prs)%list with prs in Hq1.
    change (PyDict.empty ++ found)%list with found in Hq2.
    rewrite Hq1, TallyFacts.count_prs_events, Hc1, Hq2, TallyFacts.count_issues_events, Hc2.
    unfold write_out_data, mret; simpl; rewrite <- app_assoc; reflexivity.
  - intros k login key; simpl; rewrite (Ht2 k login key), (Ht1 k login key).
    unfold served; rewrite served_count_app.
    rewrite (occurrences_served _ _ _ _ _ Hrec1), (occurrences_served _ _ _ _ _ Hrec2).
    lia.
Qed.

Lemma paged_timely :
  Forall (timely Scenario.run_date) (served Paged.pr_pages Paged.issue_pages).
Proof.
  repeat constructor; eexists; (split; [vm_compute; reflexivity|]);
    unfold Window.covers; simpl; lia.
Qed.

Lemma served_repository_is_counted_witness :
  exists data',
    visit_repo Paged.paged 2 Scenario.widgets Scenario.run_date "acme" "widgets"
      (OutputData "2024-04-02" [] PyDict.empty) Scenario.start
    = (Ok data',
       World (PyDict.set (files Scenario.start) (output_file Scenario.widgets)
                (encode data'))
         (requests Scenario.start
          ++ page_requests (ask_prs "acme" "widgets" "2013-01-01") "null" Paged.pr_pages
          ++ page_requests (ask_issues "acme" "widgets" "2013-01-01") "null"
               Paged.issue_pages)%list)
    /\ last_updated data' = last_updated (OutputData "2024-04-02" [] PyDict.empty)
    /\ repos_visited data'
       = set_add (repos_visited (OutputData "2024-04-02" [] PyDict.empty))
           (slash_join "acme" "widgets")
    /\ forall k login key,
         tally k (author_contrib data') login key
         = tally k (author_contrib (OutputData "2024-04-02" [] PyDict.empty)) login key
           + served_count k login key (served Paged.pr_pages Paged.issue_pages).
Proof.
  apply (served_repository_is_counted Paged.paged 2 Scenario.widgets Scenario.run_date
           "acme" "widgets" "2013-01-01" (OutputData "2024-04-02" [] PyDict.empty)
           Paged.pr_pages Paged.issue_pages Scenario.start).
  - reflexivity.
  - repeat split; reflexivity.
  - exact CompleteFacts.paged_prs_settled.
  - apply PaginationFacts.distinct_NoDup; vm_compute; reflexivity.
  - repeat split; reflexivity.
  - exact CompleteFacts.paged_issues_settled.
  - apply PaginationFacts.distinct_NoDup; vm_compute; reflexivity.
  - simpl; lia.
  - simpl; lia.
  - apply TallyFacts.no_counts.
  - exact paged_timely.
Defined.

Example counts_of_the_paged_repository :
  exists data',
    fst (visit_repo Paged.paged 2 Scenario.widgets Scenario.run_date "acme" "widgets"
           (OutputData "2024-04-02" [] PyDict.empty) Scenario.start) = Ok data'
    /\ PyDict.keys (author_contrib data') = ["bob"; "carol"; "dave"; "erin"]
    /\ tally Prs (author_contrib data') "bob" "2024-02" = 1
    /\ tally Reviews (author_contrib data') "carol" "2024-03" = 1
    /\ tally Reviews (author_contrib data') "dave" "2024-02" = 0
    /\ tally PrComments (author_contrib data') "dave" "2024-02" = 1
    /\ tally Prs (author_contrib data') "erin" "2024-03" = 1
    /\ tally Issues (author_contrib data') "erin" "2024-02" = 1
    /\ tally IssueComments (author_contrib data') "bob" "2024-02" = 1.
Proof. eexists; split; [vm_compute; reflexivity|]; repeat split. Qed.

End ServedFacts.

(* ================================================================== *)
(** * Facts about the searches of a run *)

Module SearchFacts.

Import Collector Pages Log Outcome Searched PyDictFacts.


















(** The second run of the scenario returns 0 and has searched
    [acme/widgets] twice, from the date of the first run. *)
Example second_run_searches_widgets :
  main Scenario.bob_and_carol 3 Scenario.widgets Scenario.later_date Scenario.second_run
  = (Ok 0,
     World (files (snd (main Scenario.bob_and_carol 3 Scenario.widgets Scenario.later_date
                          Scenario.second_run)))
       [first_request "acme" "widgets" "2024-04-02";
        first_issue_request "acme" "widgets" "2024-04-02"])
  /\ date_for Scenario.widgets_loaded "acme/widgets" = "2024-04-02".
Proof. split; vm_compute; reflexivity. Qed.

(** A run over the organization of [Paged.paged], whose listing comes on
    two pages and leaves out the repository without a default branch,
    returns 0 and has searched [acme/widgets] and [acme/gadgets] from the
    epoch. *)
Example organization_run_searches_both :
  let options := Options ["acme"] [] None "monthly_activity.yaml" in
  let run := main Paged.paged 5 options Scenario.run_date Scenario.start in
  listing Paged.paged 5 "acme" None = Ok ["widgets"; "gadgets"]
  /\ fst run = Ok 0
  /\ In (first_request "acme" "widgets" "2013-01-01") (requests (snd run))
  /\ In (first_issue_request "acme" "widgets" "2013-01-01") (requests (snd run))
  /\ In (first_request "acme" "gadgets" "2013-01-01") (requests (snd run))
  /\ In (first_issue_request "acme" "gadgets" "2013-01-01") (requests (snd run)).
Proof.
  cbv zeta; repeat apply conj; vm_compute; auto 20.
Qed.

End SearchFacts.

(* ================================================================== *)
(** * Facts about the two programs together *)

Module CompatFacts.

Import Collector Kind Window Persisted Grapher Totals Render PyDictFacts.

(** A key of a counter of a file persisted on [d] is the key of a month
    that [d] covers, and [IsoDate] reads it as the first day of that
    month. *)
Lemma persisted_key_reads_back d stored k key :
  run_date d -> counters_of d stored ->
  In key (PyDict.keys (stored_counter k stored)) ->
  exists y m, covers d y m /\ key = stringdate y m /\ IsoDate key = Ok (Date y m 1).
Proof.
  intros (Hy & Hm) Hkeys Hkey; rewrite (Hkeys k), CountsFacts.counter_new in Hkey.
  apply CountsFacts.in_keys_zero_all in Hkey; destruct Hkey as [[]|(y & m & Hym & ->)].
  apply CountsFacts.in_months_inv in Hym.
  exists y, m; split; [unfold covers; lia|]; split; [reflexivity|].
  apply PersistFacts.strptime_stringdate; lia.
Qed.

(** X15.  The renderer reads what the collector writes.  In a file persisted
    by a run of the collector on a date [d] from 2013 on, every key of every
    counter is the ['%d-%02d'] key of a month from 2013-01 to the month of
    [d], and [IsoDate] reads it as the first day of that very month; so
    the loop of the renderer over such a file raises nothing, whatever the
    options, and leaves the files as they are. *)
Theorem renderer_reads_collector_files (d : date)
    (options : ContributionReportOptions) (data : dataset_json) (w : world) :
  run_date d ->
  persisted_on d data ->
  PyDict.get (files w) (input_file options) = Some data ->
  (forall author stored k key,
     In (author, stored) (j_author_contrib data) ->
     In key (PyDict.keys (stored_counter k stored)) ->
     exists y m,
       covers d y m /\ key = stringdate y m /\ IsoDate key = Ok (Date y m 1))
  /\ exists v, plot_authors options w = (Ok v, w).
Proof.
  intros Hd (Hwf & Hall) Hfile.
  assert (Hkeys : forall author stored k key,
            In (author, stored) (j_author_contrib data) ->
            In key (PyDict.keys (stored_counter k stored)) ->
            exists y m,
              covers d y m /\ key = stringdate y m /\ IsoDate key = Ok (Date y m 1)).
  { intros author stored k key Hin Hkey.
    eapply persisted_key_reads_back; eauto. }
  split; [exact Hkeys|].
  pose proof (RenderFacts.plot_loop_outcome options (j_author_contrib data)
                (LoopVars 1 PyDict.empty [])) as Hout.
  unfold plot_authors; rewrite Hfile; unfold PyDict.items.
  destruct (for_each (plot_author options) (j_author_contrib data) _) as [v|e];
    [eauto|].
  destruct Hout as (_ & author & stored & k & key & Hin & Hkey & Hbad).
  apply filter_In in Hin; destruct Hin as (Hin & _).
  destruct (Hkeys author stored k key Hin Hkey) as (y & m & _ & _ & Hread); congruence.
Qed.

Lemma renderer_reads_collector_files_witness :
  (forall author stored k key,
     In (author, stored) (j_author_contrib Scenario.widgets_file) ->
     In key (PyDict.keys (stored_counter k stored)) ->
     exists y m,
       covers Scenario.run_date y m /\ key = stringdate y m
       /\ IsoDate key = Ok (Date y m 1))
  /\ exists v,
       plot_authors Scenario.since_2023_01 Scenario.second_run
       = (Ok v, Scenario.second_run).
Proof.
  apply (renderer_reads_collector_files Scenario.run_date Scenario.since_2023_01
           Scenario.widgets_file Scenario.second_run).
  - unfold run_date; simpl; lia.
  - exact PersistFacts.widgets_file_persisted.
  - reflexivity.
Defined.

End CompatFacts.

(* ================================================================== *)
(** * Facts about the timestamps *)

Module TimeFacts.

Import Timestamp.

(** ** The first match of a matcher *)

Lemma m_bind_first {A B} (p : matcher A) (k : A -> matcher B) s a rest r :
  hd_error (p s) = Some (a, rest) ->
  hd_error (k a rest) = Some r ->
  hd_error (m_bind p k s) = Some r.
Proof.
  unfold m_bind; destruct (p s) as [|[a' rest'] others]; [discriminate|].
  intros [= -> ->]; cbn [flat_map].
  destruct (k a rest); [discriminate|]; intros H; exact H.
Qed.

Lemma m_lit_first {B} c (k : unit -> matcher B) rest r :
  hd_error (k tt rest) = Some r ->
  hd_error (m_bind (m_lit c) k (String c rest)) = Some r.
Proof.
  intros H; apply (m_bind_first _ _ _ tt rest); [|exact H].
  unfold m_lit; rewrite Ascii.eqb_refl; reflexivity.
Qed.

Lemma in_range' lo hi x : lo <= x < hi -> In x (range lo hi).
Proof.
  intros H; unfold range; apply in_map_iff; exists (Z.to_nat (x - lo)); split; [lia|].
  apply in_seq; lia.
Qed.

Ltac each_of lo hi n H :=
  assert (Hin : In n (range lo hi)) by (apply in_range'; lia);
  clear H; vm_compute in Hin;
  repeat (destruct Hin as [<-|Hin]; [vm_compute; reflexivity|]);
  destruct Hin.

Lemma m_two_first n rest :
  0 <= n <= 99 -> hd_error (m_two 0 9 0 9 (pct_02d n ++ rest)) = Some (n, rest).
Proof. intros H; each_of 0 100 n H. Qed.

Lemma m_m_first n rest :
  1 <= n <= 12 -> hd_error (m_m (pct_02d n ++ rest)) = Some (n, rest).
Proof. intros H; each_of 1 13 n H. Qed.

Lemma m_d_first n rest :
  1 <= n <= 31 -> hd_error (m_d (pct_02d n ++ rest)) = Some (n, rest).
Proof. intros H; each_of 1 32 n H. Qed.

Lemma m_H_first n rest :
  0 <= n <= 23 -> hd_error (m_H (pct_02d n ++ rest)) = Some (n, rest).
Proof. intros H; each_of 0 24 n H. Qed.

Lemma m_M_first n rest :
  0 <= n <= 59 -> hd_error (m_M (pct_02d n ++ rest)) = Some (n, rest).
Proof. intros H; each_of 0 60 n H. Qed.

Lemma m_S_first n rest :
  0 <= n <= 59 -> hd_error (m_S (pct_02d n ++ rest)) = Some (n, rest).
Proof. intros H; each_of 0 60 n H. Qed.

Lemma years_in_halves : forallb year_in_halves (range 1000 10000) = true.
Proof. vm_compute; reflexivity. Qed.

Lemma append_assoc (a b c : string) : (a ++ b) ++ c = a ++ b ++ c.
Proof. induction a as [|x a IH]; simpl; [reflexivity | rewrite IH; reflexivity]. Qed.

Lemma m_Y_first y rest :
  1000 <= y <= 9999 -> hd_error (m_Y (pct_d y ++ rest)) = Some (y, rest).
Proof.
  intros Hy; pose proof years_in_halves as T; rewrite forallb_forall in T.
  specialize (T y (in_range' 1000 10000 y ltac:(lia))).
  unfold year_in_halves in T; apply String.eqb_eq in T; rewrite T, append_assoc.
  unfold m_Y.
  apply (m_bind_first _ _ _ (y / 100) (pct_02d (y mod 100) ++ rest));
    [apply m_two_first; split;
       [apply Z.div_pos; lia | apply Z.lt_succ_r, Z.div_lt_upper_bound; lia]|].
  apply (m_bind_first _ _ _ (y mod 100) rest);
    [apply m_two_first; pose proof (Z.mod_pos_bound y 100); lia|].
  unfold m_ret; cbn [hd_error]; rewrite <- (Z_div_mod_eq_full y 100); reflexivity.
Qed.

(** X17.  [parse_github_time] reads a timestamp of GitHub as the date and
    time that it writes: for every [datetime] of a four-digit year, the
    string with the year, then month, day, hour, minute and second on two
    digits each, in the layout [YYYY-MM-DDTHH:MM:SSZ], is read as that very
    [datetime]; nothing is raised, and no field is read from the digits of
    another. *)
Theorem parse_github_time_reads_back (dt : datetime) :
  four_digit_year dt = true ->
  parse_github_time (github_time dt) = Ok dt.
Proof.
  destruct dt as [[y mo d] h mi s]; unfold four_digit_year; cbn [dt_date year month day hour minute second].
  intros Hvalid.
  assert (Hcheck : valid_date (Date y mo d) && (s <=? 59) = true).
  { rewrite !andb_true_iff in Hvalid; rewrite andb_true_iff; tauto. }
  assert (Hb : 1000 <= y <= 9999 /\ 1 <= mo <= 12 /\ 1 <= d <= 31
               /\ 0 <= h <= 23 /\ 0 <= mi <= 59 /\ 0 <= s <= 59).
  { unfold valid_date in Hvalid; cbn [year month day] in Hvalid.
    rewrite !andb_true_iff, !Z.leb_le in Hvalid.
    assert (days_in_month y mo <= 31)
      by (unfold days_in_month;
          destruct (mo =? 2), (is_leap y), ((mo =? 4) || (mo =? 6) || (mo =? 9) || (mo =? 11));
          lia).
    lia. }
  destruct Hb as (Hy & Hmo & Hd & Hh & Hmi & Hs).
  assert (Hfirst : hd_error (format_github (github_time (DateTime (Date y mo d) h mi s)))
                   = Some (DateTime (Date y mo d) h mi s, "")).
  { unfold format_github, github_time; cbn [dt_date year month day hour minute second].
    eapply m_bind_first; [apply m_Y_first, Hy|].
    apply m_lit_first.
    eapply m_bind_first; [apply m_m_first, Hmo|].
    apply m_lit_first.
    eapply m_bind_first; [apply m_d_first, Hd|].
    apply m_lit_first.
    eapply m_bind_first; [apply m_H_first, Hh|].
    apply m_lit_first.
    eapply m_bind_first; [apply m_M_first, Hmi|].
    apply m_lit_first.
    eapply m_bind_first; [apply m_S_first, Hs|].
    apply m_lit_first.
    reflexivity. }
  unfold parse_github_time, strptime.
  destruct (format_github _) as [|[a rest] others]; [discriminate|].
  injection Hfirst as -> ->.
  cbn [dt_date second]; rewrite Hcheck; reflexivity.
Qed.

Lemma parse_github_time_reads_back_witness :
  parse_github_time (github_time (DateTime (Date 2024 2 29) 23 59 59))
  = Ok (DateTime (Date 2024 2 29) 23 59 59).
Proof.
  apply (parse_github_time_reads_back (DateTime (Date 2024 2 29) 23 59 59)).
  reflexivity.
Defined.

(** The timestamp of the last second of 29 February 2024; a leap second and
    a day that the month does not have raise. *)
Example timestamps :
  github_time (DateTime (Date 2024 2 29) 23 59 59) = "2024-02-29T23:59:59Z"
  /\ parse_github_time "2016-12-31T23:59:60Z" = Raise ValueError
  /\ parse_github_time "2023-02-29T10:00:00Z" = Raise ValueError
  /\ parse_github_time "2024-03-15 10:00:00" = Raise ValueError.
Proof. repeat split; vm_compute; reflexivity. Qed.

End TimeFacts.
